(** * DX11Tutorial2: instance store, culling and frame queries

    A shallow embedding of the parts of the [Renderer] class (lessons
    8.Instancing and 10.Compute) that hold the instance store, animate it,
    resize the swap chain, cull instances and read back GPU statistics,
    together with the properties the specification states about them.
    The second part, "More of the program", embeds the code around
    these: the DDS loader and the texture upload that consumes its
    result, the helpers of framework.h, the lights, the keyboard, mouse
    and window procedure, the sphere mesh, the choice of the adapter and
    the order of the transparent rectangles.

    Conventions.
    - [float] is IEEE-754 binary32 and [double] binary64, both given by the
      Standard Library's executable specification [SpecFloat] (round to
      nearest even, no contraction of multiply-add).
    - [UINT], [UINT64] and [size_t] are [Z] with the wrap-around written out.
    - DirectXMath matrices are kept symbolic: an [XMMATRIX] records which
      library calls produced it.
    - Direct3D calls are recorded in a log; their [HRESULT]s are inputs. *)

From Stdlib Require Import ZArith List Bool Lia QArith Lqa String.
From Stdlib Require Import Floats.SpecFloat.
From Stdlib Require Import Strings.Byte Strings.Ascii.
From stdpp Require Import base list.

Local Open Scope Z_scope.

(* ================================================================= *)
(** ** Scalars *)

(** [float]: IEEE-754 binary32. *)
Module F32.
Definition prec : Z := 24.
Definition emax : Z := 128.
Abbreviation float := spec_float.

Definition add : float -> float -> float := SFadd prec emax.
Definition sub : float -> float -> float := SFsub prec emax.
Definition mul : float -> float -> float := SFmul prec emax.
Definition div : float -> float -> float := SFdiv prec emax.
Definition sqrt : float -> float := SFsqrt prec emax.
Definition opp : float -> float := SFopp.
Definition abs : float -> float := SFabs.
Definition eqb : float -> float -> bool := SFeqb.
Definition ltb : float -> float -> bool := SFltb.
Definition leb : float -> float -> bool := SFleb.

(** Conversion of an integer, as in [(float)rand()] or the literal [2]. *)
Definition of_Z (z : Z) : float := binary_normalize prec emax z 0 false.

(** Conversion [(float)d] of a double. *)
Definition of_double (d : spec_float) : float :=
  match d with
  | S754_finite s m e => binary_round prec emax s m e
  | _ => d
  end.

(** The value of [*reinterpret_cast<float*>(&i)] for an [int] [i] with
    [0 < i < 2^23]: the subnormal with that mantissa. *)
Definition of_bits_small (i : positive) : float := S754_finite false i (-149).

Definition zero : float := S754_zero false.
Definition infinity : float := S754_infinity false.
Definition neg_infinity : float := S754_infinity true.

(** [std::numeric_limits<float>::max()] and [::lowest()]. *)
Definition max : float := SFmax_float prec emax.
Definition lowest : float := SFopp max.

(** Neither an infinity nor a NaN. *)
Definition is_finite (f : float) : bool :=
  match f with
  | S754_zero _ | S754_finite _ _ _ => true
  | S754_infinity _ | S754_nan => false
  end.

(** Decimal literals with an [f] suffix that are ratios of small
    integers are the correctly rounded quotient. *)
Definition lit (num den : Z) : float := div (of_Z num) (of_Z den).
End F32.

(** [double]: IEEE-754 binary64. *)
Module F64.
Definition prec : Z := 53.
Definition emax : Z := 1024.
Abbreviation double := spec_float.

Definition div : double -> double -> double := SFdiv prec emax.
Definition ltb : double -> double -> bool := SFltb.

Definition of_Z (z : Z) : double := binary_normalize prec emax z 0 false.

(** Promotion of a [float]; exact, the mantissa is re-aligned to 53 bits. *)
Definition of_float (f : F32.float) : double :=
  match f with
  | S754_finite s m e => binary_round prec emax s m e
  | _ => f
  end.

Definition lit (num den : Z) : double := div (of_Z num) (of_Z den).

(** [M_PI] of <math.h>: the double nearest to 3.14159265358979323846. *)
Definition M_PI : double := S754_finite false 7074237752028440 (-51).
End F64.

Abbreviation float := F32.float.
Abbreviation double := F64.double.

(** [(float)M_PI]. *)
Definition M_PIf : float := F32.of_double F64.M_PI.

(* ================================================================= *)
(** ** Points *)

(** Modelled from the spec: the point types of Math/Point.h, which is
    not among the sources.  A position is "3 floats"; [Point3f] and
    [Point4f] are tuples of floats with fields x, y, z (and w), as their
    uses in Renderer.h and Renderer.cpp require.  The records are
    polymorphic in the scalar so that the culling test can also be read
    over exact rationals. *)
Module Point3.
Record t (T : Type) : Type := mk { x : T; y : T; z : T }.
Arguments mk {T} _ _ _.
Arguments x {T} _.
Arguments y {T} _.
Arguments z {T} _.
End Point3.

Module Point4.
Record t (T : Type) : Type := mk { x : T; y : T; z : T; w : T }.
Arguments mk {T} _ _ _ _.
Arguments x {T} _.
Arguments y {T} _.
Arguments z {T} _.
Arguments w {T} _.
End Point4.

Abbreviation Point3f := (Point3.t float).
Abbreviation Point4f := (Point4.t float).

(** Modelled from the spec: the operators of [Point3f] (Math/Point.h,
    not among the sources): [+], [-], scalar [*] and unary [-] are
    component-wise.  The cross product and the normalisation are left to
    the platform, see [Platform]. *)
Module Point3f.
Definition add (a b : Point3f) : Point3f :=
    Point3.mk (F32.add (Point3.x a) (Point3.x b))
              (F32.add (Point3.y a) (Point3.y b))
              (F32.add (Point3.z a) (Point3.z b)).
Definition sub (a b : Point3f) : Point3f :=
    Point3.mk (F32.sub (Point3.x a) (Point3.x b))
              (F32.sub (Point3.y a) (Point3.y b))
              (F32.sub (Point3.z a) (Point3.z b)).
Definition scale (a : Point3f) (k : float) : Point3f :=
    Point3.mk (F32.mul (Point3.x a) k)
              (F32.mul (Point3.y a) k)
              (F32.mul (Point3.z a) k).
Definition opp (a : Point3f) : Point3f :=
    Point3.mk (F32.opp (Point3.x a)) (F32.opp (Point3.y a)) (F32.opp (Point3.z a)).
Definition is_finite (a : Point3f) : bool :=
    F32.is_finite (Point3.x a) && F32.is_finite (Point3.y a)
      && F32.is_finite (Point3.z a).
End Point3f.

(* ================================================================= *)
(** ** Bounding boxes (10.Compute/Renderer.h, struct AABB) *)

Record AABB (T : Type) : Type := mkAABB { vmin : Point3.t T; vmax : Point3.t T }.
Arguments mkAABB {T} _ _.
Arguments vmin {T} _.
Arguments vmax {T} _.

(** The default member initialisers of [AABB]. *)
Definition AABB_default : AABB float :=
  {| vmin := Point3.mk F32.max F32.max F32.max;
     vmax := Point3.mk F32.lowest F32.lowest F32.lowest |}.

(** [AABB::GetVert]. *)
Definition GetVert {T : Type} (bb : AABB T) (idx : Z) : Point3.t T :=
  Point3.mk
    (if Z.land idx 1 =? 0 then Point3.x (vmin bb) else Point3.x (vmax bb))
    (if Z.land idx 2 =? 0 then Point3.y (vmin bb) else Point3.y (vmax bb))
    (if Z.land idx 4 =? 0 then Point3.z (vmin bb) else Point3.z (vmax bb)).

(** [min <= max] on every axis, and its failure on every axis. *)
Definition AABB_min_le_max (bb : AABB float) : bool :=
  F32.leb (Point3.x (vmin bb)) (Point3.x (vmax bb))
  && F32.leb (Point3.y (vmin bb)) (Point3.y (vmax bb))
  && F32.leb (Point3.z (vmin bb)) (Point3.z (vmax bb)).

Definition AABB_min_le_max_fails (bb : AABB float) : bool :=
  negb (F32.leb (Point3.x (vmin bb)) (Point3.x (vmax bb)))
  && negb (F32.leb (Point3.y (vmin bb)) (Point3.y (vmax bb)))
  && negb (F32.leb (Point3.z (vmin bb)) (Point3.z (vmax bb))).

(* ================================================================= *)
(** ** DirectXMath, kept symbolic *)

(** DirectXMath is an external library.  A matrix is the tree of library
    calls that produced it; [XMMatrixZeroed] is the content of a
    value-initialised [XMMATRIX], as in the elements of
    [std::vector<GeomBuffer>(MaxInst)]. *)
Inductive XMMATRIX : Type :=
| XMMatrixZeroed
| XMMatrixRotationAxis (axis : Point4f) (angle : float)
| XMMatrixTranslation (ox oy oz : float)
| XMMatrixMultiply (m1 m2 : XMMATRIX)
| XMMatrixInverse (m0 : XMMATRIX)
| XMMatrixTranspose (m0 : XMMATRIX).

(** [DirectX::XMVectorSet]. *)
Definition XMVectorSet (a b c d : float) : Point4f := Point4.mk a b c d.

(* ================================================================= *)
(** ** The instance record and the camera (Renderer.h) *)

Module GeomBuffer.
Record t : Type := mk {
  m : XMMATRIX;
  normalM : XMMATRIX;
  shineSpeedTexIdNM : Point4f; (* x - shininess, y - rotation speed, z - texture id, w - normal map presence *)
  posAngle : Point4f           (* xyz - position, w - current angle *)
}.
End GeomBuffer.

Module Camera.
Record t : Type := mk {
  poi : Point3f;   (* Point of interest *)
  r : float;       (* Distance to POI *)
  phi : float;     (* Angle in plane x0z *)
  theta : float    (* Angle from plane x0z *)
}.
End Camera.

(** A value-initialised [GeomBuffer]: every float is [+0]. *)
Definition GeomBuffer_zeroed : GeomBuffer.t :=
  GeomBuffer.mk XMMatrixZeroed XMMatrixZeroed
    (Point4.mk F32.zero F32.zero F32.zero F32.zero)
    (Point4.mk F32.zero F32.zero F32.zero F32.zero).

(* ================================================================= *)
(** ** Constants *)

(** [Renderer::MaxInst]. *)
Definition MaxInst : Z := 100.

(** [RAND_MAX] of the Microsoft C runtime, the only platform of a
    Direct3D 11 program. *)
Definition RAND_MAX : Z := 32767.

Definition ModelRotationSpeed : float := F32.div M_PIf (F32.of_Z 2).
Definition Eps : float := F32.lit 1 100000.

Definition UINT_wrap (n : Z) : Z := n mod 2 ^ 32.
Definition size_t_wrap (n : Z) : Z := n mod 2 ^ 64.

Definition HRESULT : Type := Z.
Definition S_OK : HRESULT := 0.
Definition SUCCEEDED (hr : HRESULT) : bool := 0 <=? hr.

(* ================================================================= *)
(** ** What the program takes from outside *)

(** The C runtime and Math/Point.h: [cosf] and [sinf] of libm, the cross
    product and the in-place normalisation of [Point3f], and the values
    the successive calls of [rand()] return ([rand_seq n] is reduced into
    [0 .. RAND_MAX]). *)
Class Platform : Type := {
  cosf : float -> float;
  sinf : float -> float;
  Point3f_cross : Point3f -> Point3f -> Point3f;
  Point3f_normalize : Point3f -> Point3f;
  rand_seq : nat -> Z
}.

Definition Handle : Type := Z.

(** The Direct3D calls on the resources modelled here. *)
Inductive D3DCall : Type :=
| Release (h : Handle)
| ResizeBuffers (count width height : Z)
| GetBuffer
| CreateRenderTargetView
| CreateTexture2D_depth (width height : Z)
| CreateDepthStencilView
| SetResourceName (name : string)
| UpdateSubresource_GeomBufferInst (data : list GeomBuffer.t)
| UpdateSubresource_SphereGeomBuffer (width height : Z)
| DrawIndexedInstanced (indexCount instanceCount : Z)
| Present.

(** The members of [Renderer] that the modelled functions read or write,
    followed by the two pieces of outside state they change: the number of
    calls made to [rand()] and the log of Direct3D calls. *)
Record Renderer : Type := mkRenderer {
  m_pBackBufferRTV : option Handle;
  m_pDepthBuffer : option Handle;
  m_pDepthBufferDSV : option Handle;
  m_width : Z;
  m_height : Z;
  m_geomBuffers : list GeomBuffer.t;
  m_instCount : Z;
  m_camera : Camera.t;
  m_rotateModel : bool;
  m_forwardDelta : double;
  m_rightDelta : double;
  m_prevUSec : Z;
  rand_calls : nat;
  d3d_log : list D3DCall
}.

Definition set_pBackBufferRTV (v : option Handle) (s : Renderer) : Renderer :=
  mkRenderer v (m_pDepthBuffer s) (m_pDepthBufferDSV s) (m_width s) (m_height s)
    (m_geomBuffers s) (m_instCount s) (m_camera s) (m_rotateModel s)
    (m_forwardDelta s) (m_rightDelta s) (m_prevUSec s) (rand_calls s) (d3d_log s).

Definition set_pDepthBuffer (v : option Handle) (s : Renderer) : Renderer :=
  mkRenderer (m_pBackBufferRTV s) v (m_pDepthBufferDSV s) (m_width s) (m_height s)
    (m_geomBuffers s) (m_instCount s) (m_camera s) (m_rotateModel s)
    (m_forwardDelta s) (m_rightDelta s) (m_prevUSec s) (rand_calls s) (d3d_log s).

Definition set_pDepthBufferDSV (v : option Handle) (s : Renderer) : Renderer :=
  mkRenderer (m_pBackBufferRTV s) (m_pDepthBuffer s) v (m_width s) (m_height s)
    (m_geomBuffers s) (m_instCount s) (m_camera s) (m_rotateModel s)
    (m_forwardDelta s) (m_rightDelta s) (m_prevUSec s) (rand_calls s) (d3d_log s).

Definition set_size (w h : Z) (s : Renderer) : Renderer :=
  mkRenderer (m_pBackBufferRTV s) (m_pDepthBuffer s) (m_pDepthBufferDSV s) w h
    (m_geomBuffers s) (m_instCount s) (m_camera s) (m_rotateModel s)
    (m_forwardDelta s) (m_rightDelta s) (m_prevUSec s) (rand_calls s) (d3d_log s).

Definition set_geomBuffers (v : list GeomBuffer.t) (s : Renderer) : Renderer :=
  mkRenderer (m_pBackBufferRTV s) (m_pDepthBuffer s) (m_pDepthBufferDSV s)
    (m_width s) (m_height s)
    v (m_instCount s) (m_camera s) (m_rotateModel s)
    (m_forwardDelta s) (m_rightDelta s) (m_prevUSec s) (rand_calls s) (d3d_log s).

Definition set_instCount (v : Z) (s : Renderer) : Renderer :=
  mkRenderer (m_pBackBufferRTV s) (m_pDepthBuffer s) (m_pDepthBufferDSV s)
    (m_width s) (m_height s)
    (m_geomBuffers s) v (m_camera s) (m_rotateModel s)
    (m_forwardDelta s) (m_rightDelta s) (m_prevUSec s) (rand_calls s) (d3d_log s).

Definition set_camera (v : Camera.t) (s : Renderer) : Renderer :=
  mkRenderer (m_pBackBufferRTV s) (m_pDepthBuffer s) (m_pDepthBufferDSV s)
    (m_width s) (m_height s)
    (m_geomBuffers s) (m_instCount s) v (m_rotateModel s)
    (m_forwardDelta s) (m_rightDelta s) (m_prevUSec s) (rand_calls s) (d3d_log s).

Definition set_rotateModel (v : bool) (s : Renderer) : Renderer :=
  mkRenderer (m_pBackBufferRTV s) (m_pDepthBuffer s) (m_pDepthBufferDSV s)
    (m_width s) (m_height s)
    (m_geomBuffers s) (m_instCount s) (m_camera s) v
    (m_forwardDelta s) (m_rightDelta s) (m_prevUSec s) (rand_calls s) (d3d_log s).

Definition set_prevUSec (v : Z) (s : Renderer) : Renderer :=
  mkRenderer (m_pBackBufferRTV s) (m_pDepthBuffer s) (m_pDepthBufferDSV s)
    (m_width s) (m_height s)
    (m_geomBuffers s) (m_instCount s) (m_camera s) (m_rotateModel s)
    (m_forwardDelta s) (m_rightDelta s) v (rand_calls s) (d3d_log s).

Definition set_rand_calls (v : nat) (s : Renderer) : Renderer :=
  mkRenderer (m_pBackBufferRTV s) (m_pDepthBuffer s) (m_pDepthBufferDSV s)
    (m_width s) (m_height s)
    (m_geomBuffers s) (m_instCount s) (m_camera s) (m_rotateModel s)
    (m_forwardDelta s) (m_rightDelta s) (m_prevUSec s) v (d3d_log s).

(** A Direct3D call is appended to the log. *)
Definition d3d (c : D3DCall) (s : Renderer) : Renderer :=
  mkRenderer (m_pBackBufferRTV s) (m_pDepthBuffer s) (m_pDepthBufferDSV s)
    (m_width s) (m_height s)
    (m_geomBuffers s) (m_instCount s) (m_camera s) (m_rotateModel s)
    (m_forwardDelta s) (m_rightDelta s) (m_prevUSec s) (rand_calls s)
    (d3d_log s ++ [c]).

(* ================================================================= *)
(** ** The constructor (10.Compute/Renderer.h) and the camera set by Init *)

(** The member initialisers.  [m_camera] is left indeterminate by the
    constructor and is shown zeroed; [Init] sets it, see [InitCamera]. *)
Definition Renderer_ctor : Renderer := {|
  m_pBackBufferRTV := None;
  m_pDepthBuffer := None;
  m_pDepthBufferDSV := None;
  m_width := 16;
  m_height := 16;
  m_geomBuffers := replicate (Z.to_nat MaxInst) GeomBuffer_zeroed;
  m_instCount := 2;
  m_camera := Camera.mk (Point3.mk F32.zero F32.zero F32.zero) F32.zero F32.zero F32.zero;
  m_rotateModel := true;
  m_forwardDelta := S754_zero false;
  m_rightDelta := S754_zero false;
  m_prevUSec := 0;
  rand_calls := 0;
  d3d_log := []
|}.

(** "Initial camera setup" in [Renderer::Init]. *)
Definition InitCamera (s : Renderer) : Renderer :=
  set_camera
    (Camera.mk (Point3.mk (F32.of_Z 0) (F32.of_Z 0) (F32.of_Z 0))
       (F32.of_Z 5)
       (F32.div (F32.opp M_PIf) (F32.of_Z 4))
       (F32.div M_PIf (F32.of_Z 4)))
    s.

Section Model.
Context {P : Platform}.

(* ================================================================= *)
(** ** Random numbers (framework.h) *)

(** One call of [rand()]. *)
Definition rand (s : Renderer) : Z * Renderer :=
  (rand_seq (rand_calls s) mod (RAND_MAX + 1), set_rand_calls (S (rand_calls s)) s).

(** [randNormf]: [(float)rand() / RAND_MAX]. *)
Definition randNormf (s : Renderer) : float * Renderer :=
  let '(n, s) := rand s in
  (F32.div (F32.of_Z n) (F32.of_Z RAND_MAX), s).

(* ================================================================= *)
(** ** Renderer::InitGeom (8.Instancing/Renderer.cpp) *)

(** The coordinate [r * 7.0f - 3.5f] of the offset. *)
Definition offset_coord (r : float) : float :=
  F32.sub (F32.mul r (F32.of_Z 7)) (F32.lit 7 2).

Definition InitGeom (geomBuffer : GeomBuffer.t) (s : Renderer)
  : GeomBuffer.t * Renderer :=
  let '(r1, s) := randNormf s in
  let '(r2, s) := randNormf s in
  let '(r3, s) := randNormf s in
  let offset :=
    Point3f.sub (Point3f.scale (Point3.mk r1 r2 r3) (F32.of_Z 7))
      (Point3.mk (F32.lit 7 2) (F32.lit 7 2) (F32.lit 7 2)) in
  let '(r4, s) := randNormf s in
  let shine := if F32.ltb (F32.lit 1 2) r4 then F32.of_Z 64 else F32.of_Z 0 in
  let '(r5, s) := randNormf s in
  let speed := F32.mul (F32.mul r5 (F32.of_Z 2)) M_PIf in
  (GeomBuffer.mk (GeomBuffer.m geomBuffer) (GeomBuffer.normalM geomBuffer)
     (Point4.mk shine speed (F32.of_Z 0) (F32.of_bits_small 1))
     (Point4.mk (Point3.x offset) (Point3.y offset) (Point3.z offset) (F32.of_Z 0)),
   s).

(** [InitGeom(m_geomBuffers[i])].  Indexing the vector out of range is
    undefined behaviour in C++; the model then leaves the state alone. *)
Definition InitGeom_at (i : nat) (s : Renderer) : Renderer :=
  match m_geomBuffers s !! i with
  | Some g =>
      let '(g', s') := InitGeom g s in
      set_geomBuffers (<[i := g']> (m_geomBuffers s')) s'
  | None => s
  end.

(** [randNormf] when [rand()] is called for the [k]-th time. *)
Definition randNorm_at (k : nat) : float :=
  F32.div (F32.of_Z (rand_seq k mod (RAND_MAX + 1))) (F32.of_Z RAND_MAX).

(** The record [InitGeom] leaves when its first call of [rand()] is the
    [k]-th one of the process. *)
Definition InitGeom_draw (k : nat) (g : GeomBuffer.t) : GeomBuffer.t :=
  fst (InitGeom g (set_rand_calls k Renderer_ctor)).

(* ================================================================= *)
(** ** Renderer::InitScene *)

(** The model matrix and its inverse transpose, as computed both in
    [InitScene] and in [UpdateCubes]. *)
Definition model_matrix (posAngle : Point4f) : XMMATRIX :=
  XMMatrixMultiply
    (XMMatrixRotationAxis
       (XMVectorSet (F32.of_Z 0) (F32.of_Z 1) (F32.of_Z 0) (F32.of_Z 1))
       (F32.opp (Point4.w posAngle)))
    (XMMatrixTranslation (Point4.x posAngle) (Point4.y posAngle) (Point4.z posAngle)).

Definition normal_matrix (m : XMMATRIX) : XMMATRIX :=
  XMMatrixTranspose (XMMatrixInverse m).

(** The block that fills the instance store once the instance buffer has
    been created and named. *)
Definition InitScene_instances (s : Renderer) : Renderer :=
  let useNM := F32.of_bits_small 1 in
  let s :=
    set_geomBuffers
      (alter (fun g =>
                GeomBuffer.mk (GeomBuffer.m g) (GeomBuffer.normalM g)
                  (Point4.mk (F32.of_Z 0) ModelRotationSpeed (F32.of_Z 0) useNM)
                  (Point4.mk (F32.lit 1 100000) (F32.of_Z 0) (F32.of_Z 0) (F32.of_Z 0)))
         0%nat (m_geomBuffers s)) s in
  let s :=
    set_geomBuffers
      (alter (fun g =>
                let posAngle := Point4.mk (F32.of_Z 2) (F32.of_Z 0) (F32.of_Z 0) (F32.of_Z 0) in
                let m := model_matrix posAngle in
                GeomBuffer.mk m (normal_matrix m)
                  (Point4.mk (F32.of_Z 64) (F32.of_Z 0) (F32.of_Z 0) useNM)
                  posAngle)
         1%nat (m_geomBuffers s)) s in
  let s := fold_left (fun s i => InitGeom_at i s) (seq 2 8) s in
  set_instCount 10 s.

(** The Direct3D and helper calls of [InitScene], in program order.  Each
    is made only while [result] is a success code. *)
Inductive InitSceneCall : Type :=
| CreateVertexBuffer | NameVertexBuffer
| CreateIndexBuffer | NameIndexBuffer
| CompileVertexShader | CompilePixelShader
| CreateInputLayout | NameInputLayout
| CreateGeomBufferInst | NameGeomBufferInst
| CreateSceneBuffer | NameSceneBuffer
| CreateRasterizerState | NameRasterizerState
| CreateTransBlendState | NameTransBlendState
| CreateOpaqueBlendState | NameOpaqueBlendState
| CreateDepthState | NameDepthState
| CreateTransDepthState | NameTransDepthState
| CreateTexture | NameTexture | CreateTextureView
| CreateTextureNM | NameTextureNM | CreateTextureViewNM
| CreateSampler
| CallInitSphere | CallInitCubemap | CallInitRect | CallInitSmallSphere.

Definition InitScene_before : list InitSceneCall :=
  [CreateVertexBuffer; NameVertexBuffer; CreateIndexBuffer; NameIndexBuffer;
   CompileVertexShader; CompilePixelShader; CreateInputLayout; NameInputLayout;
   CreateGeomBufferInst; NameGeomBufferInst].

Definition InitScene_after : list InitSceneCall :=
  [CreateSceneBuffer; NameSceneBuffer; CreateRasterizerState; NameRasterizerState;
   CreateTransBlendState; NameTransBlendState; CreateOpaqueBlendState;
   NameOpaqueBlendState; CreateDepthState; NameDepthState; CreateTransDepthState;
   NameTransDepthState; CreateTexture; NameTexture; CreateTextureView;
   CreateTextureNM; NameTextureNM; CreateTextureViewNM; CreateSampler;
   CallInitSphere; CallInitCubemap; CallInitRect; CallInitSmallSphere].

(** [if (SUCCEEDED(result)) result = call;] *)
Definition guarded (hr : InitSceneCall -> HRESULT) (result : HRESULT)
  (c : InitSceneCall) : HRESULT :=
  if SUCCEEDED result then hr c else result.

(** [Renderer::InitScene], as far as the instance store goes.  Of each
    creation step only the HRESULT is kept: the members the steps assign
    ([m_pVertexBuffer], [m_pIndexBuffer], the two shaders,
    [m_pInputLayout], [m_pGeomBufferInst] and those of the later steps)
    are not among the members of [Renderer] here, and the calls are not
    entered in [d3d_log].  The [assert]s are taken as compiled out
    ([NDEBUG]); with them a failing step stops the program. *)
Definition InitScene (hr : InitSceneCall -> HRESULT) (s : Renderer)
  : HRESULT * Renderer :=
  let result := fold_left (guarded hr) InitScene_before S_OK in
  let s := if SUCCEEDED result then InitScene_instances s else s in
  let result := fold_left (guarded hr) InitScene_after result in
  (result, s).

(* ================================================================= *)
(** ** The "Instances" window of Renderer::Render *)

(** The body run when "+" is pressed: [if (add && m_instCount < MaxInst)]. *)
Definition AddInstance (s : Renderer) : Renderer :=
  if m_instCount s <? MaxInst then
    let i := Z.to_nat (m_instCount s) in
    let s :=
      match m_geomBuffers s !! i with
      | Some g =>
          let pos := GeomBuffer.posAngle g in
          if F32.eqb (Point4.x pos) (F32.of_Z 0)
             && F32.eqb (Point4.y pos) (F32.of_Z 0)
             && F32.eqb (Point4.z pos) (F32.of_Z 0)
          then InitGeom_at i s
          else s
      | None => s
      end in
    set_instCount (UINT_wrap (m_instCount s + 1)) s
  else s.

(** The body run when "-" is pressed: [if (remove && m_instCount > 0)]. *)
Definition RemoveInstance (s : Renderer) : Renderer :=
  if 0 <? m_instCount s then set_instCount (UINT_wrap (m_instCount s - 1)) s
  else s.

(** The two buttons of the window, as read in one frame. *)
Record InstancesUI : Type := mkUI { ui_add : bool; ui_remove : bool }.

(** [Renderer::Render]: the instanced draw, the "Instances" window and
    the return value.  The other draws and the "Lights" window touch none
    of the modelled members. *)
Definition Render (ui : InstancesUI) (hr_Present : HRESULT) (s : Renderer)
  : bool * Renderer :=
  let s := d3d (DrawIndexedInstanced 36 (m_instCount s)) s in
  let s := if ui_add ui then AddInstance s else s in
  let s := if ui_remove ui then RemoveInstance s else s in
  let s := d3d Present s in
  (SUCCEEDED hr_Present, s).

(* ================================================================= *)
(** ** Renderer::UpdateCubes *)

(** The body of the loop for one record. *)
Definition UpdateCube (deltaSec : double) (g : GeomBuffer.t) : GeomBuffer.t :=
  let speed := Point4.y (GeomBuffer.shineSpeedTexIdNM g) in
  if F64.ltb (F64.lit 1 10000) (F64.of_float (F32.abs speed)) then
    let pa := GeomBuffer.posAngle g in
    let angle := F32.add (Point4.w pa) (F32.mul (F32.of_double deltaSec) speed) in
    let pa' := Point4.mk (Point4.x pa) (Point4.y pa) (Point4.z pa) angle in
    let m := model_matrix pa' in
    GeomBuffer.mk m (normal_matrix m) (GeomBuffer.shineSpeedTexIdNM g) pa'
  else g.

Definition UpdateCubes (deltaSec : double) (s : Renderer) : Renderer :=
  if m_rotateModel s then
    let bufs :=
      fold_left (fun l i => alter (UpdateCube deltaSec) i l)
        (seq 0 (Z.to_nat (m_instCount s))) (m_geomBuffers s) in
    d3d (UpdateSubresource_GeomBufferInst bufs) (set_geomBuffers bufs s)
  else s.

(* ================================================================= *)
(** ** Renderer::Camera::GetDirections and Renderer::Update *)

Definition GetDirections (c : Camera.t) : Point3f * Point3f :=
  let theta := Camera.theta c in
  let phi := Camera.phi c in
  let dir :=
    Point3f.opp
      (Point3.mk (F32.mul (cosf theta) (cosf phi)) (sinf theta)
         (F32.mul (cosf theta) (sinf phi))) in
  let upTheta := F32.add theta (F32.div M_PIf (F32.of_Z 2)) in
  let up :=
    Point3.mk (F32.mul (cosf upTheta) (cosf phi)) (sinf upTheta)
      (F32.mul (cosf upTheta) (sinf phi)) in
  let right := Point3f_cross up dir in
  let right := Point3.mk (Point3.x right) (F32.of_Z 0) (Point3.z right) in
  let right := Point3f_normalize right in
  let forward :=
    if F32.ltb Eps (F32.abs (Point3.x dir)) || F32.ltb Eps (F32.abs (Point3.z dir))
    then Point3.mk (Point3.x dir) (F32.of_Z 0) (Point3.z dir)
    else Point3.mk (Point3.x up) (F32.of_Z 0) (Point3.z up) in
  (Point3f_normalize forward, right).

(** The first statements of [Update]: the sentinel [0] of [m_prevUSec] is
    replaced by the clock reading [usec] ("Initial update"). *)
Definition Update_initial (usec : Z) (s : Renderer) : Renderer :=
  if m_prevUSec s =? 0 then set_prevUSec usec s else s.

(** [double deltaSec = (usec - m_prevUSec) / 1000000.0;] *)
Definition Update_deltaSec (usec : Z) (s : Renderer) : double :=
  F64.div (F64.of_Z (size_t_wrap (usec - m_prevUSec s))) (F64.of_Z 1000000).

(** The direction the camera pans in, before scaling by [deltaSec]. *)
Definition pan_direction (s : Renderer) : Point3f :=
  let '(cf, cr) := GetDirections (m_camera s) in
  Point3f.add (Point3f.scale cf (F32.of_double (m_forwardDelta s)))
    (Point3f.scale cr (F32.of_double (m_rightDelta s))).

(** [Renderer::Update], given the clock reading and the result of mapping
    the scene buffer.  The light bulbs and the view and projection
    matrices are computed from members that are not modelled and change
    none that are. *)
Definition Update (usec : Z) (hr_Map : HRESULT) (s : Renderer) : bool * Renderer :=
  let s := Update_initial usec s in
  let deltaSec := Update_deltaSec usec s in
  let d := Point3f.scale (pan_direction s) (F32.of_double deltaSec) in
  let c := m_camera s in
  let s :=
    set_camera
      (Camera.mk (Point3f.add (Camera.poi c) d) (Camera.r c) (Camera.phi c)
         (Camera.theta c)) s in
  let s := UpdateCubes deltaSec s in
  let s := set_prevUSec usec s in
  (SUCCEEDED hr_Map, s).

(* ================================================================= *)
(** ** Renderer::SetupBackBuffer and Renderer::Resize *)

(** [SAFE_RELEASE(p)] of framework.h, for each of the three views. *)
Definition SAFE_RELEASE_pBackBufferRTV (s : Renderer) : Renderer :=
  match m_pBackBufferRTV s with
  | Some h => set_pBackBufferRTV None (d3d (Release h) s)
  | None => s
  end.

Definition SAFE_RELEASE_pDepthBuffer (s : Renderer) : Renderer :=
  match m_pDepthBuffer s with
  | Some h => set_pDepthBuffer None (d3d (Release h) s)
  | None => s
  end.

Definition SAFE_RELEASE_pDepthBufferDSV (s : Renderer) : Renderer :=
  match m_pDepthBufferDSV s with
  | Some h => set_pDepthBufferDSV None (d3d (Release h) s)
  | None => s
  end.

(** What Direct3D answers to the calls of [Resize] and
    [SetupBackBuffer]: the result codes and the objects handed out. *)
Record ResizeAnswers : Type := mkAnswers {
  hr_ResizeBuffers : HRESULT;
  hr_GetBuffer : HRESULT;
  the_pBackBuffer : Handle;
  hr_CreateRenderTargetView : HRESULT;
  new_BackBufferRTV : Handle;
  hr_CreateTexture2D : HRESULT;
  new_DepthBuffer : Handle;
  hr_NameDepthBuffer : HRESULT;
  hr_CreateDepthStencilView : HRESULT;
  new_DepthBufferDSV : Handle;
  hr_NameDepthBufferView : HRESULT
}.

(** [Renderer::SetupBackBuffer].  A failed creation leaves the member
    pointer as it was.  Assertions are compiled out, as in a release
    build. *)
Definition SetupBackBuffer (a : ResizeAnswers) (s : Renderer) : HRESULT * Renderer :=
  let s := d3d GetBuffer s in
  let result := hr_GetBuffer a in
  let '(result, s) :=
    if SUCCEEDED result then
      let s := d3d CreateRenderTargetView s in
      let result := hr_CreateRenderTargetView a in
      let s := if SUCCEEDED result
               then set_pBackBufferRTV (Some (new_BackBufferRTV a)) s else s in
      (result, d3d (Release (the_pBackBuffer a)) s)
    else (result, s) in
  let '(result, s) :=
    if SUCCEEDED result then
      let s := d3d (CreateTexture2D_depth (m_width s) (m_height s)) s in
      let result := hr_CreateTexture2D a in
      if SUCCEEDED result then
        (hr_NameDepthBuffer a,
         d3d (SetResourceName "DepthBuffer")
           (set_pDepthBuffer (Some (new_DepthBuffer a)) s))
      else (result, s)
    else (result, s) in
  if SUCCEEDED result then
    let s := d3d CreateDepthStencilView s in
    let result := hr_CreateDepthStencilView a in
    if SUCCEEDED result then
      (hr_NameDepthBufferView a,
       d3d (SetResourceName "DepthBufferView")
         (set_pDepthBufferDSV (Some (new_DepthBufferDSV a)) s))
    else (result, s)
  else (result, s).

(** [Renderer::Resize].  The radius uploaded for the skybox sphere is a
    function of the new [m_width] and [m_height]; the log keeps those. *)
Definition Resize (width height : Z) (a : ResizeAnswers) (s : Renderer)
  : bool * Renderer :=
  if negb (width =? m_width s) || negb (height =? m_height s) then
    let s := SAFE_RELEASE_pBackBufferRTV s in
    let s := SAFE_RELEASE_pDepthBuffer s in
    let s := SAFE_RELEASE_pDepthBufferDSV s in
    let s := d3d (ResizeBuffers 2 width height) s in
    let result := hr_ResizeBuffers a in
    if SUCCEEDED result then
      let s := set_size width height s in
      let '(result, s) := SetupBackBuffer a s in
      let s := d3d (UpdateSubresource_SphereGeomBuffer (m_width s) (m_height s)) s in
      (SUCCEEDED result, s)
    else (SUCCEEDED result, s)
  else (true, s).

(** [Renderer::KeyPressed] for the space bar. *)
Definition KeyPressed_space (s : Renderer) : Renderer :=
  set_rotateModel (negb (m_rotateModel s)) s.

End Model.

(* ================================================================= *)
(** ** Populating a bounding box *)

(** The positions of the 24 vertices of the textured cube
    ([Vertices] in [InitScene]). *)
Definition cube_positions : list Point3f :=
  let n := F32.opp (F32.lit 1 2) in
  let p := F32.lit 1 2 in
  [ Point3.mk n n p; Point3.mk p n p; Point3.mk p n n; Point3.mk n n n;
    Point3.mk n p n; Point3.mk p p n; Point3.mk p p p; Point3.mk n p p;
    Point3.mk p n n; Point3.mk p n p; Point3.mk p p p; Point3.mk p p n;
    Point3.mk n n p; Point3.mk n n n; Point3.mk n p n; Point3.mk n p p;
    Point3.mk p n p; Point3.mk n n p; Point3.mk n p p; Point3.mk p p p;
    Point3.mk n n n; Point3.mk p n n; Point3.mk p p n; Point3.mk n p n ].

(** [std::min] and [std::max] on floats. *)
Definition fminf (a b : float) : float := if F32.ltb b a then b else a.
Definition fmaxf (a b : float) : float := if F32.ltb a b then b else a.

(** Modelled from the spec: the population of a bounding box (the
    two-argument [InitGeom(geomBuffer, bb)] of lesson 10 is not among the
    sources).  "Derived once at instance creation from the known cube
    geometry": the box grows from the empty one to the component-wise
    minimum and maximum of the points it is given. *)
Definition AABB_add (bb : AABB float) (p : Point3f) : AABB float :=
  {| vmin := Point3.mk (fminf (Point3.x (vmin bb)) (Point3.x p))
                       (fminf (Point3.y (vmin bb)) (Point3.y p))
                       (fminf (Point3.z (vmin bb)) (Point3.z p));
     vmax := Point3.mk (fmaxf (Point3.x (vmax bb)) (Point3.x p))
                       (fmaxf (Point3.y (vmax bb)) (Point3.y p))
                       (fmaxf (Point3.z (vmax bb)) (Point3.z p)) |}.

(** Modelled from the spec: a populated box, grown from the empty one
    over the points [ps]. *)
Definition AABB_of_points (ps : list Point3f) : AABB float :=
  fold_left AABB_add ps AABB_default.

(** The box of the cube geometry. *)
Definition cube_AABB : AABB float := AABB_of_points cube_positions.

(** The claim about the empty box as the specification words it: the
    corners of a default-constructed box are at plus and minus infinity. *)
Definition default_box_at_infinity : Prop :=
  vmin AABB_default = Point3.mk F32.infinity F32.infinity F32.infinity /\
  vmax AABB_default = Point3.mk F32.neg_infinity F32.neg_infinity F32.neg_infinity.

(** No NaN among the coordinates of a point. *)
Definition not_nan (f : float) : bool :=
  match f with S754_nan => false | _ => true end.

Definition Point3f_not_nan (p : Point3f) : bool :=
  not_nan (Point3.x p) && not_nan (Point3.y p) && not_nan (Point3.z p).

(* ================================================================= *)
(** ** The box-frustum test (lesson 10) *)

(** The scalars the test computes with: floats in the program, exact
    rationals when the geometry is reasoned about. *)
Class Scalar (T : Type) : Type := {
  s_zero : T;
  s_add : T -> T -> T;
  s_mul : T -> T -> T;
  s_ltb : T -> T -> bool
}.

#[global] Instance Scalar_float : Scalar float := {|
  s_zero := F32.zero;
  s_add := F32.add;
  s_mul := F32.mul;
  s_ltb := F32.ltb
|}.

#[global] Instance Scalar_Q : Scalar Q := {|
  s_zero := 0%Q;
  s_add := Qplus;
  s_mul := Qmult;
  s_ltb := fun a b => match Qcompare a b with Lt => true | _ => false end
|}.

(** A 4x4 matrix by rows, as the numbers an [XMMATRIX] holds. *)
Record Matrix4 (T : Type) : Type := mkMatrix4 {
  row0 : Point4.t T;
  row1 : Point4.t T;
  row2 : Point4.t T;
  row3 : Point4.t T
}.
Arguments mkMatrix4 {T} _ _ _ _.
Arguments row0 {T} _.
Arguments row1 {T} _.
Arguments row2 {T} _.
Arguments row3 {T} _.

(** [Point4f frustum[6]]: one plane [(normal, distance)] per side. *)
Record Frustum (T : Type) : Type := mkFrustum {
  plane_left : Point4.t T;
  plane_right : Point4.t T;
  plane_top : Point4.t T;
  plane_bottom : Point4.t T;
  plane_near : Point4.t T;
  plane_far : Point4.t T
}.
Arguments mkFrustum {T} _ _ _ _ _ _.
Arguments plane_left {T} _.
Arguments plane_right {T} _.
Arguments plane_top {T} _.
Arguments plane_bottom {T} _.
Arguments plane_near {T} _.
Arguments plane_far {T} _.

Definition planes {T : Type} (fr : Frustum T) : list (Point4.t T) :=
  [plane_left fr; plane_right fr; plane_top fr; plane_bottom fr;
   plane_near fr; plane_far fr].

Section BoxTest.
Context {T : Type} {S : Scalar T}.

(** Modelled from the spec: "transform all 8 box corners to world space
    using the instance's model matrix".  The point [p], as a row vector
    with w = 1, times the matrix, in the row-vector convention of
    DirectXMath. *)
Definition transform_point (M : Matrix4 T) (p : Point3.t T) : Point3.t T :=
  let coord (c : Point4.t T -> T) :=
    s_add (s_add (s_add (s_mul (Point3.x p) (c (row0 M)))
                        (s_mul (Point3.y p) (c (row1 M))))
                 (s_mul (Point3.z p) (c (row2 M))))
          (c (row3 M)) in
  Point3.mk (coord Point4.x) (coord Point4.y) (coord Point4.z).

(** Modelled from the spec: the side of a plane "(normal + distance)" a
    point lies on, as the signed distance of [p] to the plane up to the
    length of the normal. *)
Definition plane_side (pl : Point4.t T) (p : Point3.t T) : T :=
  s_add (s_add (s_add (s_mul (Point4.x pl) (Point3.x p))
                      (s_mul (Point4.y pl) (Point3.y p)))
               (s_mul (Point4.z pl) (Point3.z p)))
        (Point4.w pl).

(** Modelled from the spec: corner [idx] of the box, taken to world
    space, "lies strictly on the negative side of that plane". *)
Definition corner_outside (pl : Point4.t T) (M : Matrix4 T) (bb : AABB T)
  (idx : Z) : bool :=
  s_ltb (plane_side pl (transform_point M (GetVert bb idx))) s_zero.

(** Modelled from the spec: the box-frustum test ([Renderer::CullBoxes]
    and the culling compute shader are declared in Renderer.h but their
    bodies are not among the sources).  "Transform all 8 box corners to
    world space using the instance's model matrix; for each of the 6
    planes, if all 8 corners lie strictly on the negative side of that
    plane, the box is fully outside: culled; otherwise visible." *)
Definition IsBoxCulled (fr : Frustum T) (M : Matrix4 T) (bb : AABB T) : bool :=
  existsb (fun pl => forallb (corner_outside pl M bb) [0; 1; 2; 3; 4; 5; 6; 7])
    (planes fr).

End BoxTest.

(** The centre of a box, in exact arithmetic. *)
Definition AABB_center (bb : AABB Q) : Point3.t Q :=
  Point3.mk ((Point3.x (vmin bb) + Point3.x (vmax bb)) * (1 # 2))%Q
            ((Point3.y (vmin bb) + Point3.y (vmax bb)) * (1 # 2))%Q
            ((Point3.z (vmin bb) + Point3.z (vmax bb)) * (1 # 2))%Q.

(* ================================================================= *)
(** ** The two cullers (lesson 10) *)

(** [DivUp] of framework.h on unsigned integers. *)
Definition DivUp (a b : nat) : nat := ((a + b - 1) / b)%nat.

Section Cullers.
Context {T : Type} {S : Scalar T}.
(** The instance record and the numbers of its model matrix. *)
Context {Rec : Type} (world : Rec -> Matrix4 T).

(** Modelled from the spec: the outcome of the test for an instance of
    the store, given by its record and its bounding box
    ([m_geomBuffers[i]] and [m_geomBBs[i]]). *)
Definition is_visible (fr : Frustum T) (inst : Rec * AABB T) : bool :=
  negb (IsBoxCulled fr (world (fst inst)) (snd inst)).

(** A compacted buffer and the number of records appended to it.  The
    buffer has a fixed capacity and still holds the records of the frame
    before. *)
Definition Compacted : Type := (list Rec * nat)%type.

(** Modelled from the spec: the record goes to the slot the counter
    names and the counter is incremented; "atomic increment returning
    prior value as the write slot" on the GPU, the same on the CPU. *)
Definition append_record (c : Compacted) (rec : Rec) : Compacted :=
  (<[snd c := rec]> (fst c), Datatypes.S (snd c)).

Definition cull_one (fr : Frustum T) (c : Compacted) (inst : Rec * AABB T)
  : Compacted :=
  if is_visible fr inst then append_record c (fst inst) else c.

(** Modelled from the spec: the CPU culler (the body of
    [Renderer::CullBoxes] is not among the sources).  "Run the
    box-frustum test over all active instances once per frame, build a
    compact list of surviving instance records, and update the visible
    count"; the scratch buffer is reused from frame to frame. *)
Definition CullBoxes (fr : Frustum T) (active : list (Rec * AABB T))
  (scratch : list Rec) : Compacted :=
  fold_left (cull_one fr) active (scratch, 0%nat).

(** Modelled from the spec: one invocation of the culling compute shader
    (not among the sources).  "Each invocation independently tests its
    instance and, if visible, atomically reserves a slot in the output
    buffer and writes its record there"; an invocation whose index is past
    the active count has no instance and does nothing. *)
Definition invocation (fr : Frustum T) (active : list (Rec * AABB T))
  (c : Compacted) (thread : nat) : Compacted :=
  match active !! thread with
  | Some inst => cull_one fr c inst
  | None => c
  end.

(** Modelled from the spec: the threads of the dispatch, "one compute
    invocation per instance (1-D dispatch sized to the active instance
    count, rounded up to the compute thread-group size)". *)
Definition dispatched_threads (count groupSize : nat) : list nat :=
  seq 0 (DivUp count groupSize * groupSize).

(** Modelled from the spec: the compute pass.  The atomic counter puts
    the appends of the invocations in some order; [schedule] is that
    order, a permutation of the dispatched threads. *)
Definition ComputeCull (fr : Frustum T) (active : list (Rec * AABB T))
  (schedule : list nat) (output : list Rec) : Compacted :=
  fold_left (invocation fr active) schedule (output, 0%nat).

(** The visible set a culler leaves: the first [count] records. *)
Definition visible_set (c : Compacted) : list Rec := take (snd c) (fst c).

(** The records of the instances that pass the test, in store order. *)
Definition survivors (fr : Frustum T) (insts : list (Rec * AABB T)) : list Rec :=
  map fst (List.filter (is_visible fr) insts).

End Cullers.

(* ================================================================= *)
(** ** The frame query ring (lesson 10) *)

(** The members [ID3D11Query* m_queries[10]], [m_curFrame],
    [m_lastCompletedFrame] and [m_gpuVisibleInstances] of
    10.Compute/Renderer.h.  A slot is shown by the frame its query was
    last issued for, [None] until a query is issued into it. *)
Module QueryRing.
Record t : Type := mk {
  m_queries : list (option Z);
  m_curFrame : Z;
  m_lastCompletedFrame : Z;
  m_gpuVisibleInstances : Z
}.
End QueryRing.

(** The constructor: ten empty slots, frame counters and count at 0. *)
Definition QueryRing_ctor : QueryRing.t :=
  QueryRing.mk (replicate 10 None) 0 0 0.

Definition UINT64_wrap (n : Z) : Z := n mod 2 ^ 64.

(** The slot of a frame: frame id modulo the size of the ring. *)
Definition ring_slot (frame : Z) : nat := Z.to_nat (frame mod 10).

(** What the GPU answers to a poll about the query of a frame: nothing
    yet, or the visible count its culling pass produced. *)
Definition GpuAnswers : Type := Z -> option Z.

(** Modelled from the spec: issuing the query of the current frame
    ([Renderer::Render] of lesson 10 is not among the sources).  "Each
    frame that uses GPU culling, issue a completion query tagged with the
    current frame id into slot (frame id mod N)". *)
Definition IssueQuery (r : QueryRing.t) : QueryRing.t :=
  QueryRing.mk
    (<[ring_slot (QueryRing.m_curFrame r) := Some (QueryRing.m_curFrame r)]>
       (QueryRing.m_queries r))
    (UINT64_wrap (QueryRing.m_curFrame r + 1))
    (QueryRing.m_lastCompletedFrame r)
    (QueryRing.m_gpuVisibleInstances r).

(** Modelled from the spec: "the oldest still-pending slot", if a query
    is pending at all. *)
Definition pending (r : QueryRing.t) : option Z :=
  if QueryRing.m_lastCompletedFrame r <? QueryRing.m_curFrame r then
    match QueryRing.m_queries r !! ring_slot (QueryRing.m_lastCompletedFrame r) with
    | Some (Some tag) => Some tag
    | _ => None
    end
  else None.

(** Modelled from the spec: [Renderer::ReadQueries] (declared in
    Renderer.h, body not among the sources).  "Poll the oldest
    still-pending slot (non-blocking poll); if it reports complete, copy
    back the GPU visible count associated with that frame"; "a poll that
    is not yet ready is simply skipped this frame and retried next
    frame".  The poll is one question to the GPU, answered at once. *)
Definition ReadQueries (gpu : GpuAnswers) (r : QueryRing.t) : QueryRing.t :=
  match pending r with
  | Some tag =>
      match gpu tag with
      | Some count =>
          QueryRing.mk (QueryRing.m_queries r) (QueryRing.m_curFrame r)
            (QueryRing.m_lastCompletedFrame r + 1) count
      | None => r
      end
  | None => r
  end.

(** Modelled from the spec: the commands a frame in GPU-cull mode sends
    (section 4.7: "draw indirect", after the compute dispatch). *)
Inductive GpuCmd : Type :=
| CmdDispatchCull (groups : nat)
| CmdDrawIndexedInstancedIndirect
| CmdEndQuery (slot : nat).

(** Modelled from the spec: one frame in GPU-cull mode.  The queries of
    earlier frames are polled; the culling pass is dispatched; the draw
    takes its instance count from the indirect-arguments buffer on the
    GPU; the query of the frame is issued. *)
Definition RenderFrame (activeCount groupSize : nat) (gpu : GpuAnswers)
  (r : QueryRing.t) : list GpuCmd * QueryRing.t :=
  let r1 := ReadQueries gpu r in
  ([CmdDispatchCull (DivUp activeCount groupSize);
    CmdDrawIndexedInstancedIndirect;
    CmdEndQuery (ring_slot (QueryRing.m_curFrame r1))],
   IssueQuery r1).

(** The ring is as frames leave it: ten slots, the completed frames
    behind the current one, and in slot [i] a query of an earlier frame
    whose id is [i] modulo 10. *)
Definition ring_wf (r : QueryRing.t) : Prop :=
  length (QueryRing.m_queries r) = 10%nat /\
  0 <= QueryRing.m_lastCompletedFrame r <= QueryRing.m_curFrame r /\
  forall i tag, QueryRing.m_queries r !! i = Some (Some tag) ->
                0 <= tag < QueryRing.m_curFrame r /\ ring_slot tag = i.

(** The GPU has finished nothing yet. *)
Definition gpu_busy : GpuAnswers := fun _ => None.

(** The GPU has finished frame 0 with 7 visible instances. *)
Definition gpu_frame0_done : GpuAnswers :=
  fun frame => if frame =? 0 then Some 7 else None.

(** The ring after three frames during which the GPU finished nothing. *)
Definition example_ring : QueryRing.t :=
  snd (RenderFrame 10 64 gpu_busy
         (snd (RenderFrame 10 64 gpu_busy
                 (snd (RenderFrame 10 64 gpu_busy QueryRing_ctor))))).

(* ================================================================= *)
(** ** Runs of the renderer *)

Section Runs.
Context {P : Platform}.

(** What the window procedure and the main loop ask of the renderer. *)
Inductive Event : Type :=
| EvRender (ui : InstancesUI) (hr_Present : HRESULT)
| EvUpdate (usec : Z) (hr_Map : HRESULT)
| EvResize (width height : Z) (a : ResizeAnswers)
| EvKeySpace.

Definition handle (s : Renderer) (e : Event) : Renderer :=
  match e with
  | EvRender ui hr => snd (Render ui hr s)
  | EvUpdate usec hr => snd (Update usec hr s)
  | EvResize w h a => snd (Resize w h a s)
  | EvKeySpace => KeyPressed_space s
  end.

Definition run (es : list Event) (s : Renderer) : Renderer :=
  fold_left handle es s.

End Runs.

(** The stored position is exactly the zero vector: each of x, y and z
    is one of the two zeros. *)
Definition zero_vector (p : Point4f) : Prop :=
  (exists s, Point4.x p = S754_zero s) /\
  (exists s, Point4.y p = S754_zero s) /\
  (exists s, Point4.z p = S754_zero s).

(** The position lies in the cube [-3.5, 3.5]^3. *)
Definition in_cube (p : Point4f) : bool :=
  let lo := F32.opp (F32.lit 7 2) in
  let hi := F32.lit 7 2 in
  F32.leb lo (Point4.x p) && F32.leb (Point4.x p) hi
  && F32.leb lo (Point4.y p) && F32.leb (Point4.y p) hi
  && F32.leb lo (Point4.z p) && F32.leb (Point4.z p) hi.

(** [f] holds of [z], [z + 1], ..., [z + k - 1]. *)
Fixpoint all_from (k : nat) (z : Z) (f : Z -> bool) : bool :=
  match k with
  | O => true
  | S k' => f z && all_from k' (Z.succ z) f
  end.

(** The offset coordinate drawn from the value [n] of [rand()] lies in
    [-3.5, 3.5]. *)
Definition coord_in_range (n : Z) : bool :=
  let c := offset_coord (F32.div (F32.of_Z n) (F32.of_Z RAND_MAX)) in
  F32.leb (F32.opp (F32.lit 7 2)) c && F32.leb c (F32.lit 7 2).

(** The speed drawn from the value [n] of [rand()] is a zero or passes
    the threshold of [UpdateCubes]. *)
Definition speed_zero_or_animated (n : Z) : bool :=
  let speed :=
    F32.mul (F32.mul (F32.div (F32.of_Z n) (F32.of_Z RAND_MAX)) (F32.of_Z 2)) M_PIf in
  F32.eqb speed (F32.of_Z 0)
  || F64.ltb (F64.lit 1 10000) (F64.of_float (F32.abs speed)).

(** Both checks at once, with the constants written out and the
    quotient computed once: the form in which the checks are run over
    every value of [rand()]. *)
Definition draw_ok (n : Z) : bool :=
  let r := F32.div (F32.of_Z n) (S754_finite false 16776704 (-9)) in
  let c := F32.sub (F32.mul r (S754_finite false 14680064 (-21)))
             (S754_finite false 14680064 (-22)) in
  let speed :=
    F32.mul (F32.mul r (S754_finite false 8388608 (-22)))
      (S754_finite false 13176795 (-22)) in
  (F32.leb (S754_finite true 14680064 (-22)) c
   && F32.leb c (S754_finite false 14680064 (-22)))
  && (F32.eqb speed (S754_zero false)
      || F64.ltb (S754_finite false 7378697629483821 (-66))
           (F64.of_float (F32.abs speed))).

(** [InitGeom(m_geomBuffers[i])] for [i = a, ..., a + n - 1]. *)
Definition InitGeom_range {P : Platform} (a n : nat) (s : Renderer) : Renderer :=
  fold_left (fun s i => InitGeom_at i s) (seq a n) s.

(* ================================================================= *)
(** ** A platform and a scene to evaluate examples on *)

(** The generator of the Microsoft C runtime, seeded with 1. *)
Fixpoint msvc_seed (n : nat) : Z :=
  match n with
  | O => 1
  | S k => (msvc_seed k * 214013 + 2531011) mod 2 ^ 32
  end.

Definition msvc_rand (n : nat) : Z :=
  Z.land (Z.shiftr (msvc_seed (S n)) 16) 32767.

(** Polynomial stand-ins for [cosf] and [sinf], and the textbook cross
    product and normalisation.  The theorems hold for every platform;
    this one only serves to evaluate them on examples. *)
Definition poly_cosf (a : float) : float :=
  let a2 := F32.mul a a in
  F32.add (F32.sub (F32.of_Z 1) (F32.div a2 (F32.of_Z 2)))
    (F32.div (F32.mul a2 a2) (F32.of_Z 24)).

Definition poly_sinf (a : float) : float :=
  let a2 := F32.mul a a in
  let a3 := F32.mul a2 a in
  F32.add (F32.sub a (F32.div a3 (F32.of_Z 6)))
    (F32.div (F32.mul a3 a2) (F32.of_Z 120)).

Definition textbook_cross (a b : Point3f) : Point3f :=
  Point3.mk
    (F32.sub (F32.mul (Point3.y a) (Point3.z b)) (F32.mul (Point3.z a) (Point3.y b)))
    (F32.sub (F32.mul (Point3.z a) (Point3.x b)) (F32.mul (Point3.x a) (Point3.z b)))
    (F32.sub (F32.mul (Point3.x a) (Point3.y b)) (F32.mul (Point3.y a) (Point3.x b))).

Definition textbook_normalize (a : Point3f) : Point3f :=
  let len :=
    F32.sqrt
      (F32.add
         (F32.add (F32.mul (Point3.x a) (Point3.x a)) (F32.mul (Point3.y a) (Point3.y a)))
         (F32.mul (Point3.z a) (Point3.z a))) in
  Point3.mk (F32.div (Point3.x a) len) (F32.div (Point3.y a) len)
    (F32.div (Point3.z a) len).

Definition example_platform : Platform := {|
  cosf := poly_cosf;
  sinf := poly_sinf;
  Point3f_cross := textbook_cross;
  Point3f_normalize := textbook_normalize;
  rand_seq := msvc_rand
|}.

(** The renderer after the constructor, the camera setup and a
    successful [InitScene]. *)
Definition example_scene : Renderer :=
  snd (InitScene (P := example_platform) (fun _ => S_OK) (InitCamera Renderer_ctor)).

(** The value [new] of a variable is its value [old] before, except that
    a negative zero may have become the positive zero. *)
Definition same_value (old new : float) : Prop :=
  new = old \/ (old = S754_zero true /\ new = S754_zero false).

Definition AABB_not_nan (bb : AABB float) : bool :=
  Point3f_not_nan (vmin bb) && Point3f_not_nan (vmax bb).

Definition same_point (old new : Point3f) : Prop :=
  same_value (Point3.x old) (Point3.x new) /\
  same_value (Point3.y old) (Point3.y new) /\
  same_value (Point3.z old) (Point3.z new).

(** The threshold of [UpdateCubes]: [fabs(speed) > 0.0001]. *)
Definition animated (g : GeomBuffer.t) : bool :=
  F64.ltb (F64.lit 1 10000)
    (F64.of_float (F32.abs (Point4.y (GeomBuffer.shineSpeedTexIdNM g)))).

(** The claim about the animation step as the specification words it:
    whatever the state, every active instance with a nonzero rotation
    speed has its angle advanced by [deltaTime] times the speed. *)
Definition Animate_as_specified : Prop :=
  forall (deltaSec : double) (s : Renderer) (i : nat) (g : GeomBuffer.t),
    Z.of_nat i < m_instCount s ->
    m_geomBuffers s !! i = Some g ->
    F32.eqb (Point4.y (GeomBuffer.shineSpeedTexIdNM g)) (F32.of_Z 0) = false ->
    exists g',
      m_geomBuffers (UpdateCubes deltaSec s) !! i = Some g' /\
      Point4.w (GeomBuffer.posAngle g') =
        F32.add (Point4.w (GeomBuffer.posAngle g))
          (F32.mul (F32.of_double deltaSec)
             (Point4.y (GeomBuffer.shineSpeedTexIdNM g))).

(** The views [Resize] holds before it runs, in the order it releases
    them: back buffer view, depth buffer, depth view. *)
Definition live_views (s : Renderer) : list Handle :=
  match m_pBackBufferRTV s with Some h => [h] | None => [] end
  ++ match m_pDepthBuffer s with Some h => [h] | None => [] end
  ++ match m_pDepthBufferDSV s with Some h => [h] | None => [] end.

(** Every creation in [SetupBackBuffer] before the last naming succeeds. *)
Definition creations_succeed (a : ResizeAnswers) : bool :=
  SUCCEEDED (hr_GetBuffer a) && SUCCEEDED (hr_CreateRenderTargetView a)
  && SUCCEEDED (hr_CreateTexture2D a) && SUCCEEDED (hr_NameDepthBuffer a)
  && SUCCEEDED (hr_CreateDepthStencilView a).

Definition example_answers : ResizeAnswers := {|
  hr_ResizeBuffers := S_OK;
  hr_GetBuffer := S_OK;
  the_pBackBuffer := 1000;
  hr_CreateRenderTargetView := S_OK;
  new_BackBufferRTV := 1001;
  hr_CreateTexture2D := S_OK;
  new_DepthBuffer := 1002;
  hr_NameDepthBuffer := S_OK;
  hr_CreateDepthStencilView := S_OK;
  new_DepthBufferDSV := 1003;
  hr_NameDepthBufferView := S_OK
|}.

(* ================================================================= *)
(** ** A frustum and two boxes to evaluate the cullers on *)

Definition Q3 (a b c : Q) : Point3.t Q := Point3.mk a b c.
Definition Q4 (a b c d : Q) : Point4.t Q := Point4.mk a b c d.

(** The region |x| <= 10, |y| <= 10, 1 <= z <= 100; each plane has its
    positive side inside. *)
Definition example_frustum : Frustum Q := {|
  plane_left := Q4 1 0 0 10;
  plane_right := Q4 (-1) 0 0 10;
  plane_top := Q4 0 (-1) 0 10;
  plane_bottom := Q4 0 1 0 10;
  plane_near := Q4 0 0 1 (-1);
  plane_far := Q4 0 0 (-1) 100
|}.

(** The translation by [(tx, ty, tz)], as [XMMatrixTranslation] lays it out. *)
Definition translation_Q (tx ty tz : Q) : Matrix4 Q :=
  mkMatrix4 (Q4 1 0 0 0) (Q4 0 1 0 0) (Q4 0 0 1 0) (Q4 tx ty tz 1).

(** The box of the unit cube. *)
Definition unit_box_Q : AABB Q :=
  mkAABB (Q3 (-1 # 2) (-1 # 2) (-1 # 2)) (Q3 (1 # 2) (1 # 2) (1 # 2)).

(** Two instances, the record being the model matrix itself: one in
    front of the camera, one 10000 units further along the view
    direction. *)
Definition example_instances : list (Matrix4 Q * AABB Q) :=
  [(translation_Q 0 0 5, unit_box_Q); (translation_Q 0 0 10005, unit_box_Q)].

(* ================================================================= *)
(** ** The box test on the floats of the program, and what they stand for *)

(** The number a finite float stands for. *)
Definition F32_value (f : float) : Q :=
  match f with
  | S754_finite s m e =>
      (inject_Z (if s then Z.neg m else Z.pos m) * Qpower 2 e)%Q
  | _ => 0%Q
  end.

Definition Point3_value (p : Point3f) : Point3.t Q :=
  Point3.mk (F32_value (Point3.x p)) (F32_value (Point3.y p))
    (F32_value (Point3.z p)).

Definition Point4_value (p : Point4f) : Point4.t Q :=
  Point4.mk (F32_value (Point4.x p)) (F32_value (Point4.y p))
    (F32_value (Point4.z p)) (F32_value (Point4.w p)).

Definition Matrix4_value (M : Matrix4 float) : Matrix4 Q :=
  mkMatrix4 (Point4_value (row0 M)) (Point4_value (row1 M))
    (Point4_value (row2 M)) (Point4_value (row3 M)).

Definition Frustum_value (fr : Frustum float) : Frustum Q :=
  mkFrustum (Point4_value (plane_left fr)) (Point4_value (plane_right fr))
    (Point4_value (plane_top fr)) (Point4_value (plane_bottom fr))
    (Point4_value (plane_near fr)) (Point4_value (plane_far fr)).

Definition AABB_value (bb : AABB float) : AABB Q :=
  mkAABB (Point3_value (vmin bb)) (Point3_value (vmax bb)).

(** The second half of the claim about the test as the specification
    words it, for the floats the program computes with: whatever the
    box, the transform and the planes, a box whose centre lies strictly
    inside all six planes is not culled. *)
Definition Center_inside_as_specified : Prop :=
  forall (fr : Frustum float) (M : Matrix4 float) (bb : AABB float),
    (forall pl, In pl (planes (Frustum_value fr)) ->
       (0 < plane_side pl
              (transform_point (Matrix4_value M)
                 (AABB_center (AABB_value bb))))%Q) ->
    IsBoxCulled fr M bb = false.

Definition P4f (a b c d : Z) : Point4f :=
  Point4.mk (F32.of_Z a) (F32.of_Z b) (F32.of_Z c) (F32.of_Z d).

(** Planes with whole numbers; the near plane is
    [24929 x + y + z - 16777218 = 0], and [24929 * 673 = 2^24 + 1]. *)
Definition example_frustum_f32 : Frustum float := {|
  plane_left := P4f 1 0 0 1000;
  plane_right := P4f (-1) 0 0 1000;
  plane_top := P4f 0 (-1) 0 10;
  plane_bottom := P4f 0 1 0 10;
  plane_near := P4f 24929 1 1 (-16777218);
  plane_far := P4f 0 0 (-1) 100
|}.

Definition identity_f32 : Matrix4 float :=
  mkMatrix4 (P4f 1 0 0 0) (P4f 0 1 0 0) (P4f 0 0 1 0) (P4f 0 0 0 1).

(** The box from (673, 0.5, 0.5) to (673, 1, 1); its centre is
    (673, 0.75, 0.75). *)
Definition example_box_f32 : AABB float :=
  mkAABB (Point3.mk (F32.of_Z 673) (F32.lit 1 2) (F32.lit 1 2))
         (Point3.mk (F32.of_Z 673) (F32.of_Z 1) (F32.of_Z 1)).

(* ***************************************************************** *)
(** * More of the program *)
(* ***************************************************************** *)

(* ================================================================= *)
(** ** framework.h: formats and small helpers *)

(** [DXGI_FORMAT] of the Windows SDK: the constants the sources name, and
    one constructor for all the others. *)
Inductive DXGI_FORMAT : Type :=
| DXGI_FORMAT_UNKNOWN
| DXGI_FORMAT_BC1_TYPELESS | DXGI_FORMAT_BC1_UNORM | DXGI_FORMAT_BC1_UNORM_SRGB
| DXGI_FORMAT_BC2_TYPELESS | DXGI_FORMAT_BC2_UNORM | DXGI_FORMAT_BC2_UNORM_SRGB
| DXGI_FORMAT_BC3_TYPELESS | DXGI_FORMAT_BC3_UNORM | DXGI_FORMAT_BC3_UNORM_SRGB
| DXGI_FORMAT_BC4_TYPELESS | DXGI_FORMAT_BC4_UNORM | DXGI_FORMAT_BC4_SNORM
| DXGI_FORMAT_BC5_TYPELESS | DXGI_FORMAT_BC5_UNORM | DXGI_FORMAT_BC5_SNORM
| DXGI_FORMAT_BC6H_TYPELESS | DXGI_FORMAT_BC6H_UF16 | DXGI_FORMAT_BC6H_SF16
| DXGI_FORMAT_BC7_TYPELESS | DXGI_FORMAT_BC7_UNORM | DXGI_FORMAT_BC7_UNORM_SRGB
| DXGI_FORMAT_OTHER.

(** [GetBytesPerBlock].  [None] is the path that ends in [assert(0)]
    (and returns 0 when assertions are compiled out). *)
Definition GetBytesPerBlock (fmt : DXGI_FORMAT) : option Z :=
  match fmt with
  | DXGI_FORMAT_BC1_TYPELESS | DXGI_FORMAT_BC1_UNORM | DXGI_FORMAT_BC1_UNORM_SRGB
  | DXGI_FORMAT_BC4_TYPELESS | DXGI_FORMAT_BC4_UNORM | DXGI_FORMAT_BC4_SNORM =>
      Some 8
  | DXGI_FORMAT_BC2_TYPELESS | DXGI_FORMAT_BC2_UNORM | DXGI_FORMAT_BC2_UNORM_SRGB
  | DXGI_FORMAT_BC3_TYPELESS | DXGI_FORMAT_BC3_UNORM | DXGI_FORMAT_BC3_UNORM_SRGB
  | DXGI_FORMAT_BC5_TYPELESS | DXGI_FORMAT_BC5_UNORM | DXGI_FORMAT_BC5_SNORM
  | DXGI_FORMAT_BC6H_TYPELESS | DXGI_FORMAT_BC6H_UF16 | DXGI_FORMAT_BC6H_SF16
  | DXGI_FORMAT_BC7_TYPELESS | DXGI_FORMAT_BC7_UNORM | DXGI_FORMAT_BC7_UNORM_SRGB =>
      Some 16
  | DXGI_FORMAT_UNKNOWN | DXGI_FORMAT_OTHER => None
  end.

(** [DivUp<UINT32>]: [(a + b - 1) / b] in 32-bit unsigned arithmetic.
    Division by zero is left aside ([b] is 4 at every call). *)
Definition DivUp32 (a b : Z) : Z := UINT_wrap (a + b - 1) / b.

(** [std::wstring::rfind] of a character: the index of its last
    occurrence. *)
Fixpoint rfind (c : Ascii.ascii) (s : string) : option nat :=
  match s with
  | EmptyString => None
  | String a s' =>
      match rfind c s' with
      | Some i => Some (Datatypes.S i)
      | None => if Ascii.eqb a c then Some 0%nat else None
      end
  end.

(** [std::wstring::substr(pos)]: the characters from [pos] on. *)
Fixpoint substr_from (pos : nat) (s : string) : string :=
  match pos, s with
  | O, _ => s
  | Datatypes.S p, String _ s' => substr_from p s'
  | Datatypes.S _, EmptyString => EmptyString
  end.

(** [Extension] of framework.h, on file names in ASCII. *)
Definition Extension (filename : string) : string :=
  match rfind "."%char filename with
  | Some dotPos => substr_from (dotPos + 1) filename
  | None => EmptyString
  end.

(* ================================================================= *)
(** ** DDS.cpp: the texture loader *)

(** The value of up to four bytes read as a little-endian [UINT32]. *)
Definition le32 (bs : list byte) : Z :=
  fold_right (fun b acc => Z.of_N (Byte.to_N b) + 256 * acc) 0 bs.

Definition u32_at (off : nat) (bs : list byte) : Z := le32 (take 4 (drop off bs)).

(** [struct PixelFormat]; [fourCC] is kept as the four bytes it occupies,
    which is what [GetTextureFormat] copies out of it. *)
Module PixelFormat.
Record t : Type := mk {
  size : Z;
  flags : Z;
  fourCC : list byte;
  bitCount : Z;
  RMask : Z; GMask : Z; BMask : Z; AMask : Z
}.
End PixelFormat.

(** [struct DDSHeader], 124 bytes with [#pragma pack(1)]. *)
Module DDSHeader.
Record t : Type := mk {
  size : Z;
  flags : Z;
  height : Z;
  width : Z;
  pitchOrLinearSize : Z;
  depth : Z;
  mipMapCount : Z;
  reserved : list byte;
  pixelFormat : PixelFormat.t;
  caps : Z; caps2 : Z; caps3 : Z; caps4 : Z;
  reserved2 : Z
}.
End DDSHeader.

Definition sizeof_DDSHeader : nat := 124.
Definition sizeof_DDS10Header : nat := 20.

(** The header as [fread] lays it out from 124 bytes. *)
Definition read_DDSHeader (bs : list byte) : DDSHeader.t :=
  DDSHeader.mk (u32_at 0 bs) (u32_at 4 bs) (u32_at 8 bs) (u32_at 12 bs)
    (u32_at 16 bs) (u32_at 20 bs) (u32_at 24 bs) (take 44 (drop 28 bs))
    (PixelFormat.mk (u32_at 72 bs) (u32_at 76 bs) (take 4 (drop 80 bs))
       (u32_at 84 bs) (u32_at 88 bs) (u32_at 92 bs) (u32_at 96 bs) (u32_at 100 bs))
    (u32_at 104 bs) (u32_at 108 bs) (u32_at 112 bs) (u32_at 116 bs)
    (u32_at 120 bs).

Definition DDSSignature : Z := 0x20534444.

Definition DDPF_FOURCC : Z := 0x4.
Definition DDPF_ALPHAPIXELS : Z := 0x1.

Definition DDSD_CAPS : Z := 0x1.
Definition DDSD_HEIGHT : Z := 0x2.
Definition DDSD_WIDTH : Z := 0x4.
Definition DDSD_PITCH : Z := 0x8.
Definition DDSD_PIXELFORMAT : Z := 0x1000.
Definition DDSD_MIPMAPCOUNT : Z := 0x20000.
Definition DDSD_LINEARSIZE : Z := 0x80000.
Definition DDSD_DEPTH : Z := 0x800000.

(** [(value & flag) != 0]. *)
Definition has_flag (value flag : Z) : bool := negb (Z.land value flag =? 0).

(** A C string: the bytes before the first NUL. *)
Fixpoint cstr (bs : list byte) : list byte :=
  match bs with
  | [] => []
  | b :: bs' => if Byte.eqb b x00 then [] else b :: cstr bs'
  end.

(** [strcmp(fourCC, literal) == 0], [fourCC] being the local
    [char fourCC[5] = { 0 }] filled by [memcpy] from the header. *)
Fixpoint bytes_eqb (a b : list byte) : bool :=
  match a, b with
  | [], [] => true
  | x :: a', y :: b' => Byte.eqb x y && bytes_eqb a' b'
  | _, _ => false
  end.

Definition fourCC_is (h : DDSHeader.t) (literal : list byte) : bool :=
  bytes_eqb
    (cstr (take 4 (PixelFormat.fourCC (DDSHeader.pixelFormat h)) ++ [x00]))
    (cstr literal).

Definition DX10 : list byte := ["D"; "X"; "1"; "0"]%byte.
Definition DXT1 : list byte := ["D"; "X"; "T"; "1"]%byte.
Definition DXT3 : list byte := ["D"; "X"; "T"; "3"]%byte.
Definition DXT5 : list byte := ["D"; "X"; "T"; "5"]%byte.

Definition HaveDXT10Header (header : DDSHeader.t) : bool :=
  if has_flag (PixelFormat.flags (DDSHeader.pixelFormat header)) DDPF_FOURCC
  then fourCC_is header DX10
  else false.

Definition ValidateFlags (header : DDSHeader.t) : bool :=
  has_flag (DDSHeader.flags header) DDSD_CAPS
  && has_flag (DDSHeader.flags header) DDSD_HEIGHT
  && has_flag (DDSHeader.flags header) DDSD_WIDTH
  && has_flag (DDSHeader.flags header) DDSD_PIXELFORMAT.

Definition GetTextureFormat (header : DDSHeader.t) : DXGI_FORMAT :=
  if fourCC_is header DXT1 then DXGI_FORMAT_BC1_UNORM
  else if fourCC_is header DXT1
          && has_flag (PixelFormat.flags (DDSHeader.pixelFormat header))
               DDPF_ALPHAPIXELS
  then DXGI_FORMAT_BC1_UNORM
  else if fourCC_is header DXT3 then DXGI_FORMAT_BC2_UNORM
  else if fourCC_is header DXT5 then DXGI_FORMAT_BC3_UNORM
  else DXGI_FORMAT_UNKNOWN.

(** [struct TextureDesc] of DDS.h; [pData] is [None] for [nullptr] and
    otherwise the bytes of the allocated block. *)
Module TextureDesc.
Record t : Type := mk {
  pitch : Z;
  mipmapsCount : Z;
  fmt : DXGI_FORMAT;
  width : Z;
  height : Z;
  pData : option (list byte)
}.
End TextureDesc.

(** The default member initialisers of [TextureDesc]. *)
Definition TextureDesc_default : TextureDesc.t :=
  TextureDesc.mk 0 0 DXGI_FORMAT_UNKNOWN 0 0 None.

(** [fread(p, 1, n, pFile)] on the unread part of a file: the bytes read
    and the part left. *)
Definition fread (n : nat) (unread : list byte) : list byte * list byte :=
  (take n unread, drop n unread).

(** The loop "We have top level size - let's calculate the whole size",
    run [n] times. *)
Fixpoint whole_size (n : nat) (dataSize levelSize : Z) : Z :=
  match n with
  | O => dataSize
  | Datatypes.S n' =>
      whole_size n' (UINT_wrap (dataSize + levelSize)) (Z.max 16 (levelSize / 4))
  end.

(** "Get data size": the number of bytes [LoadDDS] goes on to read, when
    [unread] bytes of the file are left after the headers. *)
Definition DDS_dataSize (header : DDSHeader.t) (unread : nat) : Z :=
  let dataSize :=
    if has_flag (DDSHeader.flags header) DDSD_LINEARSIZE
    then DDSHeader.pitchOrLinearSize header else 0 in
  if dataSize =? 0 then UINT_wrap (Z.of_nat unread)
  else whole_size (Z.to_nat (DDSHeader.mipMapCount header - 1)) dataSize
         (dataSize / 4).

(** [LoadDDS].  The file is [None] when it cannot be opened, and its
    bytes otherwise; [malloc] is taken to succeed.  The result is the
    return value and [desc] as the call leaves it. *)
Definition LoadDDS (file : option (list byte)) (desc : TextureDesc.t)
  : bool * TextureDesc.t :=
  match file with
  | None => (false, desc)
  | Some bytes =>
      let '(sig, unread) := fread 4 bytes in
      if negb (length sig =? 4)%nat || negb (le32 sig =? DDSSignature)
      then (false, desc)
      else
        let '(hdr, unread) := fread sizeof_DDSHeader unread in
        let header := read_DDSHeader hdr in
        if negb (length hdr =? sizeof_DDSHeader)%nat
           || negb (Z.of_nat (length hdr) =? DDSHeader.size header)
        then (false, desc)
        else
          let '(short10, unread) :=
            if HaveDXT10Header header then
              let '(hdr10, unread) := fread sizeof_DDS10Header unread in
              (negb (length hdr10 =? sizeof_DDS10Header)%nat, unread)
            else (false, unread) in
          if short10 then (false, desc)
          else if negb (ValidateFlags header) then (false, desc)
          else
            let desc :=
              TextureDesc.mk
                (if has_flag (DDSHeader.flags header) DDSD_PITCH
                 then DDSHeader.pitchOrLinearSize header else 0)
                (if has_flag (DDSHeader.flags header) DDSD_MIPMAPCOUNT
                 then DDSHeader.mipMapCount header else 1)
                (GetTextureFormat header)
                (TextureDesc.width desc) (TextureDesc.height desc)
                (TextureDesc.pData desc) in
            match TextureDesc.fmt desc with
            | DXGI_FORMAT_UNKNOWN => (false, desc)
            | _ =>
                let desc :=
                  TextureDesc.mk (TextureDesc.pitch desc)
                    (TextureDesc.mipmapsCount desc) (TextureDesc.fmt desc)
                    (DDSHeader.width header) (DDSHeader.height header)
                    (TextureDesc.pData desc) in
                let dataSize := DDS_dataSize header (length unread) in
                let '(data, _) := fread (Z.to_nat dataSize) unread in
                if negb (Z.of_nat (length data) =? dataSize) then
                  (false,
                   TextureDesc.mk (TextureDesc.pitch desc)
                     (TextureDesc.mipmapsCount desc) (TextureDesc.fmt desc)
                     (TextureDesc.width desc) (TextureDesc.height desc) None)
                else
                  (true,
                   TextureDesc.mk (TextureDesc.pitch desc)
                     (TextureDesc.mipmapsCount desc) (TextureDesc.fmt desc)
                     (TextureDesc.width desc) (TextureDesc.height desc)
                     (Some data))
            end
  end.

(** InitScene, "Load texture": the table of [D3D11_SUBRESOURCE_DATA] the
    loop fills for [levels] mip levels.  An entry is the offset of
    [pSysMem] into the loaded block and [SysMemPitch]; the second
    component is the offset [pSrcData] ends at. *)
Fixpoint mip_table (levels : nat) (bytesPerBlock pSrcData blockWidth blockHeight pitch : Z)
  : list (Z * Z) * Z :=
  match levels with
  | O => ([], pSrcData)
  | Datatypes.S levels' =>
      let pSrcData' := pSrcData + UINT_wrap (pitch * blockHeight) in
      let blockHeight' := Z.max 1 (blockHeight / 2) in
      let blockWidth' := Z.max 1 (blockWidth / 2) in
      let pitch' := UINT_wrap (blockWidth' * bytesPerBlock) in
      let '(table, pEnd) :=
        mip_table levels' bytesPerBlock pSrcData' blockWidth' blockHeight' pitch' in
      ((pSrcData, pitch) :: table, pEnd)
  end.

(** The "Load texture" block of InitScene from the loaded description
    on (the block is the same in 6.Depth and 8.Instancing; the sources
    hold the loader of lesson 5, called here with two arguments).
    Where [GetBytesPerBlock] would assert, the release build goes on
    with 0. *)
Definition texture_subresources (textureDesc : TextureDesc.t) : list (Z * Z) * Z :=
  let bytesPerBlock :=
    match GetBytesPerBlock (TextureDesc.fmt textureDesc) with
    | Some n => n
    | None => 0
    end in
  let blockWidth := DivUp32 (TextureDesc.width textureDesc) 4 in
  let blockHeight := DivUp32 (TextureDesc.height textureDesc) 4 in
  let pitch := UINT_wrap (blockWidth * bytesPerBlock) in
  mip_table (Z.to_nat (TextureDesc.mipmapsCount textureDesc)) bytesPerBlock 0
    blockWidth blockHeight pitch.

(** The signature as it stands in a file. *)
Definition DDS_magic : list byte := ["D"; "D"; "S"; " "]%byte.

(** The header of a file: the 124 bytes after the signature. *)
Definition DDS_header_of (bytes : list byte) : DDSHeader.t :=
  read_DDSHeader (take sizeof_DDSHeader (drop 4 bytes)).

(** The description a load leaves behind once the format is known. *)
Definition loaded_desc (h : DDSHeader.t) (pData : option (list byte))
  : TextureDesc.t :=
  TextureDesc.mk
    (if has_flag (DDSHeader.flags h) DDSD_PITCH
     then DDSHeader.pitchOrLinearSize h else 0)
    (if has_flag (DDSHeader.flags h) DDSD_MIPMAPCOUNT
     then DDSHeader.mipMapCount h else 1)
    (GetTextureFormat h) (DDSHeader.width h) (DDSHeader.height h) pData.

(** *** An example file *)

(** A [UINT32] as its four bytes in memory. *)
Definition bytes_of_u32 (z : Z) : list byte :=
  map (fun i => default x00 (Byte.of_N (Z.to_N (Z.shiftr z (8 * i) mod 256))))
    [0; 1; 2; 3].

(** A header for a texture of [width] x [height] pixels. *)
Definition example_header (flags width height linearSize mips : Z)
    (fourCC : list byte) : list byte :=
  bytes_of_u32 124
  ++ bytes_of_u32 flags
  ++ bytes_of_u32 height ++ bytes_of_u32 width ++ bytes_of_u32 linearSize
  ++ bytes_of_u32 0 ++ bytes_of_u32 mips
  ++ replicate 44 x00
  ++ bytes_of_u32 32 ++ bytes_of_u32 DDPF_FOURCC ++ fourCC
  ++ replicate 20 x00
  ++ bytes_of_u32 0x401008 ++ replicate 16 x00.

(** The four flags [ValidateFlags] asks for. *)
Definition required_flags : Z :=
  DDSD_CAPS + DDSD_HEIGHT + DDSD_WIDTH + DDSD_PIXELFORMAT.

(** An 8 x 8 texture in DXT5 with two mip levels: 64 + 16 bytes. *)
Definition example_dds : list byte :=
  DDS_magic
  ++ example_header (required_flags + DDSD_MIPMAPCOUNT + DDSD_LINEARSIZE)
       8 8 64 2 DXT5
  ++ replicate 80 xff.

(** The same header announcing the DX10 extension. *)
Definition example_dds_DX10 : list byte :=
  DDS_magic
  ++ example_header (required_flags + DDSD_MIPMAPCOUNT + DDSD_LINEARSIZE)
       8 8 64 2 DX10
  ++ replicate 20 x00 ++ replicate 80 xff.

(** A header that gives no linear size: one 4 x 4 block in DXT1. *)
Definition example_header_plain : list byte :=
  example_header required_flags 4 4 0 0 DXT1.

(* ================================================================= *)
(** ** The "Lights" window of Renderer::Render *)

(** [struct Light] of Renderer.h. *)
Module Light.
Record t : Type := mk { pos : Point4f; color : Point4f }.
End Light.

(** The default member initialisers of [Light]. *)
Definition Light_default : Light.t :=
  Light.mk (Point4.mk (F32.of_Z 0) (F32.of_Z 0) (F32.of_Z 0) (F32.of_Z 0))
    (Point4.mk (F32.of_Z 1) (F32.of_Z 1) (F32.of_Z 1) (F32.of_Z 0)).

(** The two members of [m_sceneBuffer] the window works on:
    [lightCount.x], an [int], and the array [lights[10]]. *)
Module SceneBuffer.
Record t : Type := mk { lightCount_x : Z; lights : list Light.t }.
End SceneBuffer.

(** What the two widgets of one light do to the floats they are handed
    in a frame: [DragFloat3] gets the first three floats of [pos],
    [ColorEdit3] the first three of [color]. *)
Record LightWidgets : Type := mkWidgets {
  DragFloat3 : Point3f -> Point3f;
  ColorEdit3 : Point3f -> Point3f
}.

Definition edit_light (w : LightWidgets) (l : Light.t) : Light.t :=
  let p := Light.pos l in
  let c := Light.color l in
  let p' := DragFloat3 w (Point3.mk (Point4.x p) (Point4.y p) (Point4.z p)) in
  let c' := ColorEdit3 w (Point3.mk (Point4.x c) (Point4.y c) (Point4.z c)) in
  Light.mk (Point4.mk (Point3.x p') (Point3.y p') (Point3.z p') (Point4.w p))
    (Point4.mk (Point3.x c') (Point3.y c') (Point3.z c') (Point4.w c)).

(** The "Lights" window in one frame, from the two buttons on.  Writing
    [lights[i]] outside the array is undefined behaviour in C++; the
    model then leaves the array alone. *)
Definition LightsUI (add remove : bool) (widgets : nat -> LightWidgets)
    (sb : SceneBuffer.t) : SceneBuffer.t :=
  let sb :=
    if add && (SceneBuffer.lightCount_x sb <? 10) then
      let n := SceneBuffer.lightCount_x sb + 1 in
      SceneBuffer.mk n (<[Z.to_nat (n - 1) := Light_default]> (SceneBuffer.lights sb))
    else sb in
  let sb :=
    if remove && (0 <? SceneBuffer.lightCount_x sb) then
      SceneBuffer.mk (SceneBuffer.lightCount_x sb - 1) (SceneBuffer.lights sb)
    else sb in
  SceneBuffer.mk (SceneBuffer.lightCount_x sb)
    (fold_left (fun ls i => alter (edit_light (widgets i)) i ls)
       (seq 0 (Z.to_nat (SceneBuffer.lightCount_x sb))) (SceneBuffer.lights sb)).

(** What the window is given in one frame. *)
Record LightsFrame : Type := mkLightsFrame {
  lights_add : bool;
  lights_remove : bool;
  lights_widgets : nat -> LightWidgets
}.

Definition LightsUI_frames (frames : list LightsFrame) (sb : SceneBuffer.t)
  : SceneBuffer.t :=
  fold_left
    (fun sb f => LightsUI (lights_add f) (lights_remove f) (lights_widgets f) sb)
    frames sb.

(** The indices at which [Update] ("Move light bulb spheres") and
    [RenderSmallSpheres] read [lights] and [m_pSmallSphereGeomBuffers],
    both arrays of 10. *)
Definition bulb_indices (sb : SceneBuffer.t) : list nat :=
  seq 0 (Z.to_nat (SceneBuffer.lightCount_x sb)).

(** A frame in which no widget is touched. *)
Definition idle_widgets : nat -> LightWidgets :=
  fun _ => mkWidgets (fun p => p) (fun c => c).

(* ================================================================= *)
(** ** Keyboard and mouse (Renderer.cpp) *)

(** The five handlers are word for word the same in 6.Depth and
    8.Instancing; the window procedure that calls them is that of
    7.Lighting.cpp. *)

(** A character constant as an [int]. *)
Definition chr (c : ascii) : Z := Z.of_N (N_of_ascii c).

Definition PanSpeed : double := F64.of_Z 2.

(** [(float)M_PI * 2.0f]. *)
Definition CameraRotationSpeed : float := F32.mul M_PIf (F32.of_Z 2).

Definition double_add : double -> double -> double := SFadd F64.prec F64.emax.
Definition double_sub : double -> double -> double := SFsub F64.prec F64.emax.

Definition set_forwardDelta (v : double) (s : Renderer) : Renderer :=
  mkRenderer (m_pBackBufferRTV s) (m_pDepthBuffer s) (m_pDepthBufferDSV s)
    (m_width s) (m_height s)
    (m_geomBuffers s) (m_instCount s) (m_camera s) (m_rotateModel s)
    v (m_rightDelta s) (m_prevUSec s) (rand_calls s) (d3d_log s).

Definition set_rightDelta (v : double) (s : Renderer) : Renderer :=
  mkRenderer (m_pBackBufferRTV s) (m_pDepthBuffer s) (m_pDepthBufferDSV s)
    (m_width s) (m_height s)
    (m_geomBuffers s) (m_instCount s) (m_camera s) (m_rotateModel s)
    (m_forwardDelta s) v (m_prevUSec s) (rand_calls s) (d3d_log s).

(** [Renderer::KeyPressed]. *)
Definition KeyPressed (keyCode : Z) (s : Renderer) : Renderer :=
  if keyCode =? chr " " then set_rotateModel (negb (m_rotateModel s)) s
  else if (keyCode =? chr "W") || (keyCode =? chr "w") then
    set_forwardDelta (double_add (m_forwardDelta s) PanSpeed) s
  else if (keyCode =? chr "S") || (keyCode =? chr "s") then
    set_forwardDelta (double_sub (m_forwardDelta s) PanSpeed) s
  else if (keyCode =? chr "D") || (keyCode =? chr "d") then
    set_rightDelta (double_add (m_rightDelta s) PanSpeed) s
  else if (keyCode =? chr "A") || (keyCode =? chr "a") then
    set_rightDelta (double_sub (m_rightDelta s) PanSpeed) s
  else s.

(** [Renderer::KeyReleased]. *)
Definition KeyReleased (keyCode : Z) (s : Renderer) : Renderer :=
  if (keyCode =? chr "W") || (keyCode =? chr "w") then
    set_forwardDelta (double_sub (m_forwardDelta s) PanSpeed) s
  else if (keyCode =? chr "S") || (keyCode =? chr "s") then
    set_forwardDelta (double_add (m_forwardDelta s) PanSpeed) s
  else if (keyCode =? chr "D") || (keyCode =? chr "d") then
    set_rightDelta (double_sub (m_rightDelta s) PanSpeed) s
  else if (keyCode =? chr "A") || (keyCode =? chr "a") then
    set_rightDelta (double_add (m_rightDelta s) PanSpeed) s
  else s.

(** The members of [Renderer] that only the mouse handlers use; they are
    kept beside the record [Renderer]. *)
Record Mouse : Type := mkMouse {
  m_rbPressed : bool;
  m_prevMouseX : Z;
  m_prevMouseY : Z
}.

(** Their member initialisers. *)
Definition Mouse_ctor : Mouse := mkMouse false 0 0.

(** [Renderer::MouseRBPressed]. *)
Definition MouseRBPressed (pressed : bool) (x y : Z) (ms : Mouse) : Mouse :=
  if pressed then mkMouse pressed x y
  else mkMouse pressed (m_prevMouseX ms) (m_prevMouseY ms).

(** [std::max] and [std::min] of <algorithm>, on floats. *)
Definition std_max (a b : float) : float := if F32.ltb a b then b else a.
Definition std_min (a b : float) : float := if F32.ltb b a then b else a.

(** The two bounds of the clamp in [MouseMoved]. *)
Definition theta_lo : float := F32.div (F32.opp M_PIf) (F32.of_Z 2).
Definition theta_hi : float := F32.div M_PIf (F32.of_Z 2).

(** [Renderer::MouseMoved].  The differences [x - m_prevMouseX] and
    [y - m_prevMouseY] are [int]s; the coordinates are the 16-bit ones of
    the window messages, so they do not overflow. *)
Definition MouseMoved (x y : Z) (ms : Mouse) (s : Renderer) : Mouse * Renderer :=
  if m_rbPressed ms then
    let dx :=
      F32.mul (F32.div (F32.opp (F32.of_Z (x - m_prevMouseX ms)))
                 (F32.of_Z (m_width s)))
        CameraRotationSpeed in
    let dy :=
      F32.mul (F32.div (F32.of_Z (y - m_prevMouseY ms)) (F32.of_Z (m_width s)))
        CameraRotationSpeed in
    let c := m_camera s in
    let phi := F32.add (Camera.phi c) dx in
    let theta := F32.add (Camera.theta c) dy in
    let theta := std_min (std_max theta theta_lo) theta_hi in
    (mkMouse (m_rbPressed ms) x y,
     set_camera (Camera.mk (Camera.poi c) (Camera.r c) phi theta) s)
  else (ms, s).

(** [Renderer::MouseWheel]. *)
Definition MouseWheel (delta : Z) (s : Renderer) : Renderer :=
  let c := m_camera s in
  let r := F32.sub (Camera.r c) (F32.div (F32.of_Z delta) (F32.of_Z 100)) in
  let r := if F32.ltb r (F32.of_Z 1) then F32.of_Z 1 else r in
  set_camera (Camera.mk (Camera.poi c) r (Camera.phi c) (Camera.theta c)) s.

(* ================================================================= *)
(** ** The window procedure (7.Lighting.cpp) *)

(** The messages [WndProc] hands to the renderer, each with what it
    carries; for [WM_SIZE] the size of the client rectangle and the
    answers of Direct3D to the resize.  [WM_OTHER] stands for the
    messages that do not reach it. *)
Inductive Message : Type :=
| WM_SIZE (clientWidth clientHeight : Z) (a : ResizeAnswers)
| WM_RBUTTONDOWN (x y : Z)
| WM_RBUTTONUP (x y : Z)
| WM_MOUSEMOVE (x y : Z)
| WM_MOUSEWHEEL (delta : Z)
| WM_KEYDOWN (wParam : Z)
| WM_KEYUP (wParam : Z)
| WM_OTHER.

(** The globals [pRenderer] and [PressedKeys], the latter an array of
    [0xff] flags, all false at the start. *)
Record Window : Type := mkWindow {
  pRenderer : option (Renderer * Mouse);
  PressedKeys : list bool
}.

(** [if (pRenderer != nullptr) pRenderer->f(...)]. *)
Definition with_renderer (f : Renderer * Mouse -> Renderer * Mouse) (w : Window)
  : Window :=
  mkWindow (option_map f (pRenderer w)) (PressedKeys w).

(** [WndProc], for the messages the ImGui handler lets through.  Reading
    [PressedKeys] outside the array is undefined behaviour in C++; the
    model then ignores the message. *)
Definition WndProc (w : Window) (message : Message) : Window :=
  match message with
  | WM_SIZE width height a =>
      with_renderer (fun '(r, ms) => (snd (Resize width height a r), ms)) w
  | WM_RBUTTONDOWN x y =>
      with_renderer (fun '(r, ms) => (r, MouseRBPressed true x y ms)) w
  | WM_RBUTTONUP x y =>
      with_renderer (fun '(r, ms) => (r, MouseRBPressed false x y ms)) w
  | WM_MOUSEMOVE x y =>
      with_renderer
        (fun '(r, ms) => let '(ms', r') := MouseMoved x y ms r in (r', ms')) w
  | WM_MOUSEWHEEL delta =>
      with_renderer (fun '(r, ms) => (MouseWheel delta r, ms)) w
  | WM_KEYDOWN wParam =>
      match PressedKeys w !! Z.to_nat wParam with
      | Some false =>
          let w := with_renderer (fun '(r, ms) => (KeyPressed wParam r, ms)) w in
          mkWindow (pRenderer w) (<[Z.to_nat wParam := true]> (PressedKeys w))
      | _ => w
      end
  | WM_KEYUP wParam =>
      match PressedKeys w !! Z.to_nat wParam with
      | Some true =>
          let w := with_renderer (fun '(r, ms) => (KeyReleased wParam r, ms)) w in
          mkWindow (pRenderer w) (<[Z.to_nat wParam := false]> (PressedKeys w))
      | _ => w
      end
  | WM_OTHER => w
  end.

Definition dispatch (messages : list Message) (w : Window) : Window :=
  fold_left WndProc messages w.

(** Whether a key is down according to [PressedKeys], as 0 or 1. *)
Definition held (keys : list bool) (c : ascii) : Z :=
  match keys !! Z.to_nat (chr c) with
  | Some true => 1
  | _ => 0
  end.

(* ================================================================= *)
(** ** The sphere mesh (GetSphereDataSize and CreateSphere) *)

Definition UINT16_wrap (n : Z) : Z := n mod 2 ^ 16.

(** [GetSphereDataSize]: [(indexCount, vertexCount)]. *)
Definition GetSphereDataSize (latCells lonCells : Z) : Z * Z :=
  (size_t_wrap (size_t_wrap (latCells * lonCells) * 6),
   size_t_wrap (size_t_wrap (latCells + 1) * size_t_wrap (lonCells + 1))).

(** The slot of [pPos] the first loop nest of [CreateSphere] writes the
    vertex of row [lat] and column [lon] to. *)
Definition vertex_index (lonCells lat lon : Z) : Z :=
  size_t_wrap (size_t_wrap (lat * size_t_wrap (lonCells + 1)) + lon).

(** The body of the second loop nest of [CreateSphere], in the order of
    its six assignments.  Writing outside the array is undefined
    behaviour in C++; the model then leaves the array alone. *)
Definition CreateSphere_cell (latCells lonCells : Z) (pIndices : list Z)
    (cell : Z * Z) : list Z :=
  let '(lat, lon) := cell in
  let index :=
    Z.to_nat (size_t_wrap (size_t_wrap (size_t_wrap (lat * lonCells) * 6)
                           + size_t_wrap (lon * 6))) in
  let row := size_t_wrap (lat * size_t_wrap (latCells + 1)) in
  let pIndices :=
    <[(index + 0)%nat := UINT16_wrap (size_t_wrap (size_t_wrap (row + lon) + 0))]>
      pIndices in
  let pIndices :=
    <[(index + 2)%nat := UINT16_wrap (size_t_wrap (size_t_wrap (row + lon) + 1))]>
      pIndices in
  let pIndices :=
    <[(index + 1)%nat :=
        UINT16_wrap (size_t_wrap (size_t_wrap (size_t_wrap (row + latCells) + 1) + lon))]>
      pIndices in
  let pIndices :=
    <[(index + 3)%nat := UINT16_wrap (size_t_wrap (size_t_wrap (row + lon) + 1))]>
      pIndices in
  let pIndices :=
    <[(index + 5)%nat :=
        UINT16_wrap (size_t_wrap (size_t_wrap
          (size_t_wrap (size_t_wrap (row + latCells) + 1) + lon) + 1))]>
      pIndices in
  <[(index + 4)%nat :=
      UINT16_wrap (size_t_wrap (size_t_wrap (size_t_wrap (row + latCells) + 1) + lon))]>
    pIndices.

(** [0, 1, ..., n - 1] as [size_t] loop counters. *)
Definition counters (n : Z) : list Z := map Z.of_nat (seq 0 (Z.to_nat n)).

(** The second loop nest of [CreateSphere] on the index array. *)
Definition CreateSphere_indices (latCells lonCells : Z) (pIndices : list Z)
  : list Z :=
  fold_left
    (fun pIndices lat =>
       fold_left
         (fun pIndices lon => CreateSphere_cell latCells lonCells pIndices (lat, lon))
         (counters lonCells) pIndices)
    (counters latCells) pIndices.

(** The index array as [InitSphere] and [InitSmallSphere] build it:
    [indices.resize(indexCount)], then [CreateSphere]. *)
Definition sphere_indices (SphereSteps : Z) : list Z :=
  CreateSphere_indices SphereSteps SphereSteps
    (replicate (Z.to_nat (fst (GetSphereDataSize SphereSteps SphereSteps))) 0).

(** *** Example states *)

(** The lights as [Init] leaves them: [lightCount.x = 1],
    [lights[0].pos = Point4f{0, 1.05f, 0, 1}] and
    [lights[0].color = Point4f{1,1,0}]; the other nine slots keep the
    default member initialisers. *)
Definition example_lights : SceneBuffer.t :=
  SceneBuffer.mk 1
    (Light.mk
       (Point4.mk (F32.of_Z 0) (F32.lit 105 100) (F32.of_Z 0) (F32.of_Z 1))
       (Point4.mk (F32.of_Z 1) (F32.of_Z 1) (F32.of_Z 0) (F32.of_Z 0))
     :: replicate 9 Light_default).

(** The window once the renderer exists, no key down. *)
Definition example_window : Window :=
  mkWindow (Some (InitCamera Renderer_ctor, Mouse_ctor)) (replicate 255 false).

(** [E_FAIL] of <winerror.h>, 0x80004005 as a signed 32-bit code. *)
Definition E_FAIL : HRESULT := -2147467259.

(** Direct3D refuses the back buffer. *)
Definition example_answers_failing : ResizeAnswers := {|
  hr_ResizeBuffers := S_OK;
  hr_GetBuffer := E_FAIL;
  the_pBackBuffer := 1000;
  hr_CreateRenderTargetView := S_OK;
  new_BackBufferRTV := 1001;
  hr_CreateTexture2D := S_OK;
  new_DepthBuffer := 1002;
  hr_NameDepthBuffer := S_OK;
  hr_CreateDepthStencilView := S_OK;
  new_DepthBufferDSV := 1003;
  hr_NameDepthBufferView := S_OK
|}.

(** ** The lights *)

Definition lights_wf (sb : SceneBuffer.t) : Prop :=
  0 <= SceneBuffer.lightCount_x sb <= 10
  /\ length (SceneBuffer.lights sb) = 10%nat.

(** The pan speeds the keys held down call for. *)
Definition forward_of (keys : list bool) : double :=
  F64.of_Z (2 * (held keys "W" + held keys "w" - held keys "S" - held keys "s")).
Definition right_of (keys : list bool) : double :=
  F64.of_Z (2 * (held keys "D" + held keys "d" - held keys "A" - held keys "a")).

(** ** Keys *)


Definition keys_agree (w : Window) : Prop :=
  length (PressedKeys w) = 255%nat
  /\ exists r ms,
       pRenderer w = Some (r, ms)
       /\ m_forwardDelta r = forward_of (PressedKeys w)
       /\ m_rightDelta r = right_of (PressedKeys w).

(** The members the three resize functions leave alone. *)
Definition untouched_by_resize (s s' : Renderer) : Prop :=
  m_forwardDelta s' = m_forwardDelta s
  /\ m_rightDelta s' = m_rightDelta s
  /\ m_camera s' = m_camera s
  /\ m_rotateModel s' = m_rotateModel s.

(** The corner of its cell that each of the six slots refers to, as
    (rows down, columns right). *)
Definition cell_corner (k : nat) : Z * Z :=
  match k with
  | 0%nat => (0, 0) | 1%nat => (1, 0) | 2%nat => (0, 1)
  | 3%nat => (0, 1) | 4%nat => (1, 0) | _ => (1, 1)
  end.

(** The index [CreateSphere] stores for a corner: rows are counted in
    steps of [latCells + 1]. *)
Definition stored_index (latCells lat lon : Z) (k : nat) : Z :=
  (lat + fst (cell_corner k)) * (latCells + 1) + lon + snd (cell_corner k).

(** The cells in the order the two loops visit them. *)
Definition sphere_cells (latCells lonCells : Z) : list (Z * Z) :=
  flat_map (fun lat => map (pair lat) (counters lonCells)) (counters latCells).

(** The cell a slot of the index array belongs to. *)
Definition cell_of (M : Z) (j : nat) : Z * Z :=
  (Z.of_nat j / 6 / M, (Z.of_nat j / 6) mod M).

(** The elevation of the camera lies between the two bounds. *)
Definition theta_in_range (c : Camera.t) : bool :=
  F32.leb theta_lo (Camera.theta c) && F32.leb (Camera.theta c) theta_hi.

(** Every [WM_SIZE] among the messages carries a positive width. *)
Definition positive_widths (messages : list Message) : Prop :=
  Forall (fun m => match m with
                   | WM_SIZE width _ _ => 0 < width < 2 ^ 32
                   | _ => True
                   end) messages.

Definition camera_clamped (w : Window) : Prop :=
  exists r ms,
    pRenderer w = Some (r, ms)
    /\ 0 < m_width r < 2 ^ 32
    /\ theta_in_range (m_camera r) = true.

(* ================================================================= *)
(** ** Renderer::Init: the choice of the adapter *)

Definition BasicRenderDriver : string := "Microsoft Basic Render Driver".

(** The loop "Select hardware adapter" from [adapterIdx] on, run on the
    descriptions of the adapters the factory enumerates: the index of
    [pSelectedAdapter], if any, and the adapters released on the way.
    [EnumAdapters] fails past the last adapter. *)
Fixpoint select_adapter (adapters : list string) (adapterIdx : nat)
  : option nat * list nat :=
  match adapters with
  | [] => (None, [])
  | Description :: adapters' =>
      if negb (String.eqb Description BasicRenderDriver) then (Some adapterIdx, [])
      else
        let '(pSelectedAdapter, released) :=
          select_adapter adapters' (Datatypes.S adapterIdx) in
        (pSelectedAdapter, adapterIdx :: released)
  end.

(* ================================================================= *)
(** ** Renderer::RenderRects: the order of the two rectangles *)

(** The loop over the four corners of a rectangle: [d = 0.0f], then
    [d = std::max(d, (cameraPos - v[i]).lengthSqr())] for each.  The
    squared distances are inputs; [lengthSqr] is of Math/Point.h. *)
Definition farthest (lengthSqrs : list float) : float :=
  fold_left std_max lengthSqrs (F32.of_Z 0).

(** The geometry buffers of the two rectangles. *)
Inductive RectGeomBuffer : Type := m_pRectGeomBuffer | m_pRectGeomBuffer2.

(** The two calls of [DrawIndexed] in [RenderRects], in order, given the
    squared distances from the camera to the corners of the first and
    of the second rectangle. *)
Definition RenderRects (lengthSqrs0 lengthSqrs1 : list float)
  : list RectGeomBuffer :=
  let d0 := farthest lengthSqrs0 in
  let d1 := farthest lengthSqrs1 in
  if F32.ltb d1 d0 then [m_pRectGeomBuffer; m_pRectGeomBuffer2]
  else [m_pRectGeomBuffer2; m_pRectGeomBuffer].

(** The distance [RenderRects] attributes to a rectangle. *)
Definition rect_distance (lengthSqrs0 lengthSqrs1 : list float)
    (r : RectGeomBuffer) : float :=
  match r with
  | m_pRectGeomBuffer => farthest lengthSqrs0
  | m_pRectGeomBuffer2 => farthest lengthSqrs1
  end.

(** One step of [InitScene] fails. *)
Definition example_hr_failing (c : InitSceneCall) : HRESULT :=
  match c with
  | CreateIndexBuffer => E_FAIL
  | _ => S_OK
  end.

(** A 16 x 16 texture in DXT1 with its five mip levels, 128 + 32 + 8 +
    8 + 8 bytes, nothing after them. *)
Definition example_dds_DXT1 : list byte :=
  DDS_magic
  ++ example_header (required_flags + DDSD_MIPMAPCOUNT + DDSD_LINEARSIZE)
       16 16 128 5 DXT1
  ++ replicate 184 xff.

(* ================================================================= *)
(** ** Proof steps for the order of floats *)

(** Case analysis on the comparisons of exponents and mantissas. *)
Ltac cmp_cases :=
  repeat match goal with
  | H : context [Z.compare ?a ?b] |- _ => destruct (Z.compare_spec a b); simpl in H
  | H : context [Pos.compare_cont Eq ?a ?b] |- _ =>
      change (Pos.compare_cont Eq a b) with (Pos.compare a b) in H;
      destruct (Pos.compare_spec a b); simpl in H
  | |- context [Z.compare ?a ?b] => destruct (Z.compare_spec a b); simpl
  | |- context [Pos.compare_cont Eq ?a ?b] =>
      change (Pos.compare_cont Eq a b) with (Pos.compare a b);
      destruct (Pos.compare_spec a b); simpl
  end.

Ltac float_order :=
  unfold F32.leb, F32.ltb, F32.eqb, SFleb, SFltb, SFeqb, SFcompare in *;
  repeat match goal with
  | x : spec_float |- _ => destruct x
  | b : bool |- _ => destruct b
  end; simpl in *; try discriminate; try reflexivity;
  cmp_cases; subst; try discriminate; try reflexivity; try lia.

(* ***************************************************************** *)
(** * Properties *)
(* ***************************************************************** *)

(* ================================================================= *)
(** ** Floating-point facts *)

Lemma F32_leb_refl (a : float) : not_nan a = true -> F32.leb a a = true.
Proof. intros H. float_order. Qed.

Lemma F32_leb_total (a b : float) :
  not_nan a = true -> not_nan b = true -> F32.ltb b a = false -> F32.leb a b = true.
Proof. intros Ha Hb H. float_order. Qed.

Lemma F32_leb_trans (a b c : float) :
  F32.leb a b = true -> F32.leb b c = true -> F32.leb a c = true.
Proof. intros H1 H2. float_order. Qed.

(** [F64.M_PI] is a binary64 number within half a unit in the last place
    (2^-52) of the decimal 3.14159265358979323846 that <math.h> gives for
    [M_PI], and [(float)M_PI] is 13176795 * 2^-22. *)
Lemma M_PI_is_the_nearest_double :
  valid_binary F64.prec F64.emax F64.M_PI = true /\
  2 * Z.abs (7074237752028440 * 10 ^ 20 - 314159265358979323846 * 2 ^ 51)
    <= 10 ^ 20 /\
  M_PIf = S754_finite false 13176795 (-22).
Proof. repeat split. vm_compute. discriminate. Qed.

(** [x == 0] holds exactly of the two zeros. *)
Lemma F32_eqb_zero (a : float) :
  F32.eqb a (F32.of_Z 0) = true <-> exists s, a = S754_zero s.
Proof.
  change (F32.of_Z 0) with (S754_zero false). split.
  - destruct a as [s|s| |s m e]; try (destruct s; discriminate).
    + intros _. now exists s.
    + discriminate.
  - intros [s ->]. reflexivity.
Qed.

(** A finite value times a zero is a zero. *)
Lemma F32_mul_zero_l (s : bool) (a : float) :
  F32.is_finite a = true -> exists s', F32.mul (S754_zero s) a = S754_zero s'.
Proof.
  destruct a as [sa|sa| |sa m e]; try discriminate; intros _; simpl; eauto.
Qed.

Lemma F32_mul_zero_r (s : bool) (a : float) :
  F32.is_finite a = true -> exists s', F32.mul a (S754_zero s) = S754_zero s'.
Proof.
  destruct a as [sa|sa| |sa m e]; try discriminate; intros _; simpl; eauto.
Qed.

Lemma F32_add_zero_r (a : float) (s : bool) : same_value a (F32.add a (S754_zero s)).
Proof.
  unfold same_value.
  destruct a as [sa|sa| |sa m e]; simpl; auto.
  destruct sa, s; simpl; auto.
Qed.

(* ================================================================= *)
(** ** Bounding boxes *)

Lemma fminf_not_nan (a b : float) :
  not_nan a = true -> not_nan b = true -> not_nan (fminf a b) = true.
Proof. unfold fminf. now destruct (F32.ltb b a). Qed.

Lemma fmaxf_not_nan (a b : float) :
  not_nan a = true -> not_nan b = true -> not_nan (fmaxf a b) = true.
Proof. unfold fmaxf. now destruct (F32.ltb a b). Qed.

(** Whatever the bounds were, once a point is added they are ordered. *)
Lemma fminf_le_fmaxf (lo hi p : float) :
  not_nan lo = true -> not_nan hi = true -> not_nan p = true ->
  F32.leb (fminf lo p) (fmaxf hi p) = true.
Proof.
  intros Hlo Hhi Hp.
  apply F32_leb_trans with (b := p).
  - unfold fminf. destruct (F32.ltb p lo) eqn:E.
    + now apply F32_leb_refl.
    + now apply F32_leb_total.
  - unfold fmaxf. destruct (F32.ltb hi p) eqn:E.
    + now apply F32_leb_refl.
    + now apply F32_leb_total.
Qed.

Lemma AABB_add_not_nan (bb : AABB float) (p : Point3f) :
  AABB_not_nan bb = true -> Point3f_not_nan p = true ->
  AABB_not_nan (AABB_add bb p) = true.
Proof.
  unfold AABB_not_nan, Point3f_not_nan, AABB_add. simpl.
  rewrite !andb_true_iff.
  intros [[[? ?] ?] [[? ?] ?]] [[? ?] ?].
  repeat split; auto using fminf_not_nan, fmaxf_not_nan.
Qed.

Lemma AABB_fold_not_nan (ps : list Point3f) (bb : AABB float) :
  AABB_not_nan bb = true -> forallb Point3f_not_nan ps = true ->
  AABB_not_nan (fold_left AABB_add ps bb) = true.
Proof.
  revert bb. induction ps as [|p ps IH]; intros bb Hbb Hps; simpl in *; [assumption|].
  apply andb_true_iff in Hps as [Hp Hps].
  apply IH; [now apply AABB_add_not_nan | assumption].
Qed.

Lemma AABB_add_ordered (bb : AABB float) (p : Point3f) :
  AABB_not_nan bb = true -> Point3f_not_nan p = true ->
  AABB_min_le_max (AABB_add bb p) = true.
Proof.
  unfold AABB_not_nan, Point3f_not_nan, AABB_min_le_max, AABB_add. simpl.
  rewrite !andb_true_iff.
  intros [[[? ?] ?] [[? ?] ?]] [[? ?] ?].
  repeat split; now apply fminf_le_fmaxf.
Qed.

(** C5, as the specification words it, fails: the corners of the empty
    box are not at infinity. *)
Lemma AABB_default_not_at_infinity : ~ default_box_at_infinity.
Proof. intros [H _]. discriminate H. Qed.

(** C5 (amended): a default-constructed bounding box has every component
    of its min corner at the largest finite float
    [(2^24 - 1) * 2^104] and every component of its max corner at the
    lowest finite float, its negation, so [min <= max] fails on every
    axis; and a box populated from at least one point without NaN
    coordinates satisfies [min <= max] on every axis. *)
Theorem AABB_default_extremes_and_populated_ordered (ps : list Point3f) :
  ps <> [] ->
  forallb Point3f_not_nan ps = true ->
  vmin AABB_default = Point3.mk F32.max F32.max F32.max /\
  vmax AABB_default = Point3.mk F32.lowest F32.lowest F32.lowest /\
  F32.max = S754_finite false (2 ^ 24 - 1) 104 /\
  F32.lowest = S754_finite true (2 ^ 24 - 1) 104 /\
  F32.is_finite F32.max = true /\ F32.is_finite F32.lowest = true /\
  AABB_min_le_max_fails AABB_default = true /\
  AABB_min_le_max (AABB_of_points ps) = true.
Proof.
  intros Hne Hps.
  repeat (split; [reflexivity|]).
  destruct (exists_last Hne) as [qs [p ->]].
  unfold AABB_of_points. rewrite fold_left_app. simpl.
  rewrite forallb_app in Hps. apply andb_true_iff in Hps as [Hqs Hp].
  simpl in Hp. rewrite andb_true_r in Hp.
  apply AABB_add_ordered; [|assumption].
  now apply AABB_fold_not_nan.
Qed.

Lemma AABB_default_extremes_and_populated_ordered_witness :
  AABB_min_le_max cube_AABB = true.
Proof.
  apply (AABB_default_extremes_and_populated_ordered cube_positions).
  - discriminate.
  - vm_compute. reflexivity.
Defined.

(* ================================================================= *)
(** ** The instance store: capacity and stale records *)

Section StoreFacts.
Context {P : Platform}.

Lemma set_instCount_same (s : Renderer) : set_instCount (m_instCount s) s = s.
Proof. now destruct s. Qed.

Lemma set_instCount_twice (a b : Z) (s : Renderer) :
  set_instCount a (set_instCount b s) = set_instCount a s.
Proof. reflexivity. Qed.

Lemma UINT_wrap_small (n : Z) : 0 <= n <= MaxInst -> UINT_wrap n = n.
Proof. unfold UINT_wrap, MaxInst. intros H. apply Z.mod_small. lia. Qed.

(** [InitGeom] draws five random numbers and changes nothing else. *)
Lemma InitGeom_state (g : GeomBuffer.t) (s : Renderer) :
  snd (InitGeom g s) = set_rand_calls (rand_calls s + 5) s.
Proof.
  unfold InitGeom, randNormf, rand. cbn [snd set_rand_calls rand_calls].
  destruct s; unfold set_rand_calls; cbn. f_equal. lia.
Qed.

Lemma InitGeom_at_instCount (i : nat) (s : Renderer) :
  m_instCount (InitGeom_at i s) = m_instCount s.
Proof.
  unfold InitGeom_at. destruct (m_geomBuffers s !! i) as [g|]; [|reflexivity].
  pose proof (InitGeom_state g s) as H.
  destruct (InitGeom g s) as [g' s']. simpl in H. subst s'. reflexivity.
Qed.

Lemma InitGeom_at_spec (i : nat) (g : GeomBuffer.t) (s : Renderer) :
  m_geomBuffers s !! i = Some g ->
  InitGeom_at i s =
    set_geomBuffers (<[i := fst (InitGeom g s)]> (m_geomBuffers s))
      (set_rand_calls (rand_calls s + 5) s).
Proof.
  intros Hg. unfold InitGeom_at. rewrite Hg.
  pose proof (InitGeom_state g s) as H.
  destruct (InitGeom g s) as [g' s']. simpl in H. subst s'. reflexivity.
Qed.

Lemma zero_test_iff (p : Point4f) :
  F32.eqb (Point4.x p) (F32.of_Z 0) && F32.eqb (Point4.y p) (F32.of_Z 0)
    && F32.eqb (Point4.z p) (F32.of_Z 0) = true
  <-> zero_vector p.
Proof.
  unfold zero_vector. rewrite !andb_true_iff, !F32_eqb_zero. tauto.
Qed.

Lemma AddInstance_instCount (s : Renderer) :
  m_instCount (AddInstance s) =
    if m_instCount s <? MaxInst then UINT_wrap (m_instCount s + 1) else m_instCount s.
Proof.
  unfold AddInstance. destruct (m_instCount s <? MaxInst); [|reflexivity].
  cbn [set_instCount m_instCount].
  destruct (m_geomBuffers s !! Z.to_nat (m_instCount s)) as [g|]; [|reflexivity].
  match goal with |- context [if ?b then _ else _] => destruct b end;
    [now rewrite InitGeom_at_instCount | reflexivity].
Qed.

Lemma RemoveInstance_instCount (s : Renderer) :
  m_instCount (RemoveInstance s) =
    if 0 <? m_instCount s then UINT_wrap (m_instCount s - 1) else m_instCount s.
Proof.
  unfold RemoveInstance. destruct (0 <? m_instCount s); reflexivity.
Qed.

Lemma AddInstance_bounds (s : Renderer) :
  0 <= m_instCount s <= MaxInst -> 0 <= m_instCount (AddInstance s) <= MaxInst.
Proof.
  intros H. rewrite AddInstance_instCount.
  destruct (Z.ltb_spec (m_instCount s) MaxInst); [|assumption].
  rewrite UINT_wrap_small; lia.
Qed.

Lemma RemoveInstance_bounds (s : Renderer) :
  0 <= m_instCount s <= MaxInst -> 0 <= m_instCount (RemoveInstance s) <= MaxInst.
Proof.
  intros H. rewrite RemoveInstance_instCount.
  destruct (Z.ltb_spec 0 (m_instCount s)); [|assumption].
  rewrite UINT_wrap_small; lia.
Qed.

Lemma UpdateCubes_instCount (dt : double) (s : Renderer) :
  m_instCount (UpdateCubes dt s) = m_instCount s.
Proof. unfold UpdateCubes. now destruct (m_rotateModel s). Qed.

Lemma Update_instCount (usec : Z) (hr : HRESULT) (s : Renderer) :
  m_instCount (snd (Update usec hr s)) = m_instCount s.
Proof.
  unfold Update. cbn [snd]. cbn [set_prevUSec m_instCount].
  rewrite UpdateCubes_instCount. cbn [set_camera m_instCount].
  unfold Update_initial. now destruct (m_prevUSec s =? 0).
Qed.

Lemma SetupBackBuffer_instCount (a : ResizeAnswers) (s : Renderer) :
  m_instCount (snd (SetupBackBuffer a s)) = m_instCount s.
Proof.
  unfold SetupBackBuffer.
  repeat match goal with
  | |- context [if ?b then _ else _] => destruct b
  end; reflexivity.
Qed.

Lemma SAFE_RELEASE_instCount (s : Renderer) :
  m_instCount
    (SAFE_RELEASE_pDepthBufferDSV
       (SAFE_RELEASE_pDepthBuffer (SAFE_RELEASE_pBackBufferRTV s)))
  = m_instCount s.
Proof.
  unfold SAFE_RELEASE_pDepthBufferDSV, SAFE_RELEASE_pDepthBuffer,
    SAFE_RELEASE_pBackBufferRTV.
  repeat match goal with
  | |- context [match ?o with Some _ => _ | None => _ end] => destruct o
  end; reflexivity.
Qed.

Lemma Resize_instCount (w h : Z) (a : ResizeAnswers) (s : Renderer) :
  m_instCount (snd (Resize w h a s)) = m_instCount s.
Proof.
  unfold Resize.
  destruct (negb (w =? m_width s) || negb (h =? m_height s)); [|reflexivity].
  destruct (SUCCEEDED (hr_ResizeBuffers a)).
  - match goal with
    | |- context [SetupBackBuffer a ?t] =>
        pose proof (SetupBackBuffer_instCount a t) as H;
        destruct (SetupBackBuffer a t) as [r t']
    end.
    cbn [snd d3d m_instCount] in *. rewrite H.
    cbn [set_size d3d m_instCount]. apply SAFE_RELEASE_instCount.
  - cbn [snd d3d m_instCount]. apply SAFE_RELEASE_instCount.
Qed.

Lemma handle_bounds (e : Event) (s : Renderer) :
  0 <= m_instCount s <= MaxInst -> 0 <= m_instCount (handle s e) <= MaxInst.
Proof.
  intros H. destruct e as [ui hr|usec hr|w h a|]; cbn [handle].
  - unfold Render. cbn [snd d3d m_instCount].
    assert (H1 : 0 <= m_instCount
                   (if ui_add ui
                    then AddInstance (d3d (DrawIndexedInstanced 36 (m_instCount s)) s)
                    else d3d (DrawIndexedInstanced 36 (m_instCount s)) s) <= MaxInst).
    { destruct (ui_add ui); [apply AddInstance_bounds|]; exact H. }
    destruct (ui_remove ui); [now apply RemoveInstance_bounds | exact H1].
  - now rewrite Update_instCount.
  - now rewrite Resize_instCount.
  - exact H.
Qed.

Lemma run_bounds (es : list Event) (s : Renderer) :
  0 <= m_instCount s <= MaxInst -> 0 <= m_instCount (run es s) <= MaxInst.
Proof.
  revert s. induction es as [|e es IH]; intros s H; [exact H|].
  apply IH. now apply handle_bounds.
Qed.

(** C3: with the active count [k] in [0 .. MaxInst], "+" at
    [k = MaxInst] changes nothing (and [Render] reports no error for
    it), "-" at [k = 0] changes nothing, and whatever is asked of the
    renderer afterwards the count stays in [0 .. MaxInst]. *)
Theorem instance_count_stays_within_capacity (s : Renderer) :
  0 <= m_instCount s <= MaxInst ->
  (m_instCount s = MaxInst ->
     AddInstance s = s /\
     forall hr, fst (Render (mkUI true false) hr s) = SUCCEEDED hr /\
                m_instCount (snd (Render (mkUI true false) hr s)) = m_instCount s) /\
  (m_instCount s = 0 ->
     RemoveInstance s = s /\
     forall hr, fst (Render (mkUI false true) hr s) = SUCCEEDED hr /\
                m_instCount (snd (Render (mkUI false true) hr s)) = m_instCount s) /\
  (forall es, 0 <= m_instCount (run es s) <= MaxInst).
Proof.
  intros H. split; [|split].
  - intros Hk. split.
    + unfold AddInstance. now rewrite Hk.
    + intros hr. split; [reflexivity|].
      unfold Render. cbn [snd ui_add ui_remove d3d m_instCount].
      rewrite AddInstance_instCount. cbn [d3d m_instCount]. now rewrite Hk.
  - intros Hk. split.
    + unfold RemoveInstance. now rewrite Hk.
    + intros hr. split; [reflexivity|].
      unfold Render. cbn [snd ui_add ui_remove d3d m_instCount].
      rewrite RemoveInstance_instCount. cbn [d3d m_instCount]. now rewrite Hk.
  - intros es. now apply run_bounds.
Qed.

Lemma RemoveInstance_spec (s : Renderer) :
  0 < m_instCount s <= MaxInst ->
  RemoveInstance s = set_instCount (m_instCount s - 1) s.
Proof.
  intros H. unfold RemoveInstance.
  destruct (Z.ltb_spec 0 (m_instCount s)); [|lia].
  rewrite UINT_wrap_small by lia. reflexivity.
Qed.

(** C6: "-" only decrements the active count: every record, the one beyond
    the new count included, is kept.  A following "+" takes that stale
    record back as it is, without drawing a random number, whenever its
    stored position is not exactly the zero vector; only when the stored
    position is exactly (0,0,0) is the slot given fresh pseudo-random data
    by [InitGeom]. *)
Theorem RemoveInstance_keeps_records_AddInstance_reuses_them
  (s : Renderer) (g : GeomBuffer.t) :
  0 < m_instCount s <= MaxInst ->
  m_geomBuffers s !! Z.to_nat (m_instCount s - 1) = Some g ->
  (m_instCount (RemoveInstance s) = m_instCount s - 1 /\
   m_geomBuffers (RemoveInstance s) = m_geomBuffers s /\
   rand_calls (RemoveInstance s) = rand_calls s) /\
  (~ zero_vector (GeomBuffer.posAngle g) ->
   AddInstance (RemoveInstance s) = s) /\
  (zero_vector (GeomBuffer.posAngle g) ->
   m_instCount (AddInstance (RemoveInstance s)) = m_instCount s /\
   m_geomBuffers (AddInstance (RemoveInstance s)) =
     <[Z.to_nat (m_instCount s - 1) := fst (InitGeom g (RemoveInstance s))]>
       (m_geomBuffers s) /\
   rand_calls (AddInstance (RemoveInstance s)) = (rand_calls s + 5)%nat).
Proof.
  intros Hk Hg.
  rewrite (RemoveInstance_spec s Hk).
  split; [repeat split|].
  set (s1 := set_instCount (m_instCount s - 1) s).
  assert (Hlt : (m_instCount s1 <? MaxInst) = true).
  { apply Z.ltb_lt. subst s1. cbn. lia. }
  assert (Hg1 : m_geomBuffers s1 !! Z.to_nat (m_instCount s1) = Some g) by exact Hg.
  assert (Hw : UINT_wrap (m_instCount s - 1 + 1) = m_instCount s).
  { rewrite UINT_wrap_small by lia. lia. }
  split.
  - intros Hnz. unfold AddInstance. rewrite Hlt, Hg1.
    destruct (F32.eqb _ _ && F32.eqb _ _ && F32.eqb _ _) eqn:E.
    + exfalso. apply Hnz. now apply zero_test_iff.
    + subst s1. cbn [set_instCount m_instCount]. rewrite Hw.
      now destruct s.
  - intros Hz. apply zero_test_iff in Hz.
    unfold AddInstance. rewrite Hlt, Hg1, Hz.
    rewrite (InitGeom_at_spec _ g s1 Hg1).
    subst s1. cbn. rewrite Hw. repeat split.
Qed.

End StoreFacts.

(* ================================================================= *)
(** ** Scene initialisation *)

Lemma all_from_spec (k : nat) (f : Z -> bool) :
  forall z, all_from k z f = true ->
            forall n, z <= n < z + Z.of_nat k -> f n = true.
Proof.
  induction k as [|k IH]; intros z H n Hn; [lia|].
  cbn [all_from] in H. apply andb_true_iff in H as [Hz H].
  destruct (Z.eq_dec n z) as [->|Hne]; [assumption|].
  apply (IH (Z.succ z)); [assumption | lia].
Qed.

Lemma draw_ok_sound (n : Z) :
  draw_ok n = coord_in_range n && speed_zero_or_animated n.
Proof.
  unfold draw_ok, coord_in_range, speed_zero_or_animated, offset_coord.
  change (F32.of_Z RAND_MAX) with (S754_finite false 16776704 (-9)).
  change (F32.of_Z 7) with (S754_finite false 14680064 (-21)).
  change (F32.lit 7 2) with (S754_finite false 14680064 (-22)).
  change (F32.of_Z 2) with (S754_finite false 8388608 (-22)).
  change (F32.of_Z 0) with (S754_zero false).
  change M_PIf with (S754_finite false 13176795 (-22)).
  change (F64.lit 1 10000) with (S754_finite false 7378697629483821 (-66)).
  reflexivity.
Qed.

(** Every value [rand()] can return gives an offset coordinate in
    [-3.5, 3.5] and a speed that is zero or animated: checked on each of
    the [RAND_MAX + 1] values. *)
Lemma every_draw_ok : all_from (Z.to_nat (RAND_MAX + 1)) 0 draw_ok = true.
Proof. vm_compute. reflexivity. Qed.

Lemma draw_ok_spec (n : Z) :
  0 <= n <= RAND_MAX ->
  coord_in_range n = true /\ speed_zero_or_animated n = true.
Proof.
  intros H. apply andb_true_iff. rewrite <- draw_ok_sound.
  apply (all_from_spec _ _ 0 every_draw_ok).
  rewrite Z2Nat.id by (unfold RAND_MAX; lia). lia.
Qed.

Section SceneFacts.
Context {P : Platform}.

Lemma rand_value_range (k : nat) : 0 <= rand_seq k mod (RAND_MAX + 1) <= RAND_MAX.
Proof.
  pose proof (Z.mod_pos_bound (rand_seq k) (RAND_MAX + 1)) as H.
  unfold RAND_MAX in *. lia.
Qed.

Lemma offset_coord_range (k : nat) :
  F32.leb (F32.opp (F32.lit 7 2)) (offset_coord (randNorm_at k)) = true /\
  F32.leb (offset_coord (randNorm_at k)) (F32.lit 7 2) = true.
Proof.
  destruct (draw_ok_spec _ (rand_value_range k)) as [H _].
  unfold coord_in_range in H. now apply andb_true_iff in H.
Qed.

Lemma InitGeom_fst (g : GeomBuffer.t) (s : Renderer) :
  fst (InitGeom g s) = InitGeom_draw (rand_calls s) g.
Proof. destruct s. reflexivity. Qed.

Lemma InitGeom_draw_posAngle (k : nat) (g : GeomBuffer.t) :
  GeomBuffer.posAngle (InitGeom_draw k g) =
    Point4.mk (offset_coord (randNorm_at k)) (offset_coord (randNorm_at (S k)))
      (offset_coord (randNorm_at (S (S k)))) (F32.of_Z 0).
Proof. reflexivity. Qed.

Lemma InitGeom_draw_speed (k : nat) (g : GeomBuffer.t) :
  Point4.y (GeomBuffer.shineSpeedTexIdNM (InitGeom_draw k g)) =
    F32.mul (F32.mul (randNorm_at (4 + k)) (F32.of_Z 2)) M_PIf.
Proof. reflexivity. Qed.

Lemma InitGeom_draw_matrices (k : nat) (g : GeomBuffer.t) :
  GeomBuffer.m (InitGeom_draw k g) = GeomBuffer.m g /\
  GeomBuffer.normalM (InitGeom_draw k g) = GeomBuffer.normalM g.
Proof. split; reflexivity. Qed.

Lemma InitGeom_draw_in_cube (k : nat) (g : GeomBuffer.t) :
  in_cube (GeomBuffer.posAngle (InitGeom_draw k g)) = true.
Proof.
  rewrite InitGeom_draw_posAngle. unfold in_cube. cbn [Point4.x Point4.y Point4.z].
  destruct (offset_coord_range k) as [-> ->].
  destruct (offset_coord_range (S k)) as [-> ->].
  destruct (offset_coord_range (S (S k))) as [-> ->].
  reflexivity.
Qed.

Lemma InitGeom_range_spec (n : nat) : forall (a : nat) (s : Renderer),
  (a + n <= length (m_geomBuffers s))%nat ->
  rand_calls (InitGeom_range a n s) = (rand_calls s + 5 * n)%nat /\
  m_instCount (InitGeom_range a n s) = m_instCount s /\
  (forall j, (j < a \/ a + n <= j)%nat ->
     m_geomBuffers (InitGeom_range a n s) !! j = m_geomBuffers s !! j) /\
  (forall i g, (a <= i < a + n)%nat -> m_geomBuffers s !! i = Some g ->
     m_geomBuffers (InitGeom_range a n s) !! i
     = Some (InitGeom_draw (rand_calls s + 5 * (i - a)) g)).
Proof.
  induction n as [|n IH]; intros a s Hlen.
  - cbn. repeat split; try lia.
  - destruct (lookup_lt_is_Some_2 (m_geomBuffers s) a ltac:(lia)) as [ga Hga].
    change (InitGeom_range a (S n) s)
      with (InitGeom_range (S a) n (InitGeom_at a s)).
    rewrite (InitGeom_at_spec a ga s Hga).
    set (s1 := set_geomBuffers _ _).
    assert (Hlen1 : (S a + n <= length (m_geomBuffers s1))%nat).
    { subst s1. cbn [set_geomBuffers m_geomBuffers set_rand_calls rand_calls m_instCount]. rewrite length_insert. lia. }
    destruct (IH (S a) s1 Hlen1) as (Hr & Hc & Hout & Hin).
    repeat split.
    + rewrite Hr. subst s1. cbn [set_geomBuffers m_geomBuffers set_rand_calls rand_calls m_instCount]. lia.
    + rewrite Hc. reflexivity.
    + intros j Hj. rewrite Hout by lia. subst s1. cbn [set_geomBuffers m_geomBuffers set_rand_calls rand_calls m_instCount].
      apply list_lookup_insert_ne. lia.
    + intros i g Hi Hg.
      destruct (Nat.eq_dec i a) as [->|Hne].
      * rewrite Hout by lia. subst s1. cbn [set_geomBuffers m_geomBuffers set_rand_calls rand_calls m_instCount].
        rewrite list_lookup_insert_eq by (eapply lookup_lt_Some; eassumption).
        rewrite Hga in Hg. injection Hg as ->.
        rewrite InitGeom_fst. do 2 f_equal. lia.
      * rewrite (Hin i g) by (try lia; subst s1; cbn [set_geomBuffers m_geomBuffers];
                              rewrite list_lookup_insert_ne by lia; exact Hg).
        subst s1. cbn [set_geomBuffers m_geomBuffers set_rand_calls rand_calls m_instCount]. do 2 f_equal. lia.
Qed.

Lemma guarded_fold_failed (hr : InitSceneCall -> HRESULT) (cs : list InitSceneCall)
  (r : HRESULT) :
  SUCCEEDED r = false -> fold_left (guarded hr) cs r = r.
Proof.
  intros H. induction cs as [|c cs IH]; [reflexivity|].
  simpl. unfold guarded at 2. now rewrite H.
Qed.

(** A successful [InitScene] has run the block that fills the store. *)
Lemma InitScene_success (hr : InitSceneCall -> HRESULT) (s : Renderer) :
  SUCCEEDED (fst (InitScene hr s)) = true ->
  snd (InitScene hr s) = InitScene_instances s.
Proof.
  unfold InitScene. cbn [fst snd].
  destruct (SUCCEEDED (fold_left (guarded hr) InitScene_before S_OK)) eqn:E;
    [reflexivity|].
  rewrite guarded_fold_failed by exact E. rewrite E. discriminate.
Qed.

(** C8: after a successful [InitScene] the active count is 10; instance 0
    is at (0.00001f, 0, 0) with rotation speed [(float)M_PI / 2.0f];
    instance 1 is at (2, 0, 0) with rotation speed 0; and instance [i],
    for [i] from 2 to 9, is the record [InitGeom] draws from the five
    calls of [rand()] numbered [5 * (i - 2)] onwards, whose position lies
    in the cube [-3.5, 3.5]^3.  With [r j] the quotient
    [(float)rand() / RAND_MAX] of the [j]-th of these five calls, the
    record is spelled out: position [r j * 7.0f - 3.5f] for [j] = 0, 1, 2
    and angle 0; shininess 64 if [0.5f < r 3] and 0 otherwise; rotation
    speed [r 4 * 2.0f * (float)M_PI]; texture 0 with the normal map on;
    the two matrices as they were.  The eight instances use up forty
    calls of [rand()]. *)
Theorem InitScene_fills_ten_instances
  (hr : InitSceneCall -> HRESULT) (s : Renderer) :
  length (m_geomBuffers s) = Z.to_nat MaxInst ->
  SUCCEEDED (fst (InitScene hr s)) = true ->
  m_instCount (snd (InitScene hr s)) = 10 /\
  (exists g0,
     m_geomBuffers (snd (InitScene hr s)) !! 0%nat = Some g0 /\
     GeomBuffer.posAngle g0
       = Point4.mk (S754_finite false 10995116 (-40)) F32.zero F32.zero F32.zero /\
     F32.lit 1 100000 = S754_finite false 10995116 (-40) /\
     Point4.y (GeomBuffer.shineSpeedTexIdNM g0) = F32.div M_PIf (F32.of_Z 2) /\
     F32.div M_PIf (F32.of_Z 2) = S754_finite false 13176795 (-23)) /\
  (exists g1,
     m_geomBuffers (snd (InitScene hr s)) !! 1%nat = Some g1 /\
     GeomBuffer.posAngle g1 = Point4.mk (F32.of_Z 2) F32.zero F32.zero F32.zero /\
     Point4.y (GeomBuffer.shineSpeedTexIdNM g1) = F32.zero) /\
  (forall i, (2 <= i < 10)%nat ->
     let k := (rand_calls s + 5 * (i - 2))%nat in
     let r := fun j : nat =>
       F32.div (F32.of_Z (rand_seq (j + k) mod (RAND_MAX + 1)))
         (F32.of_Z RAND_MAX) in
     exists old gi,
       m_geomBuffers s !! i = Some old /\
       m_geomBuffers (snd (InitScene hr s)) !! i = Some gi /\
       gi = InitGeom_draw (rand_calls s + 5 * (i - 2)) old /\
       in_cube (GeomBuffer.posAngle gi) = true /\
       gi = GeomBuffer.mk (GeomBuffer.m old) (GeomBuffer.normalM old)
              (Point4.mk
                 (if F32.ltb (F32.lit 1 2) (r 3%nat)
                  then F32.of_Z 64 else F32.of_Z 0)
                 (F32.mul (F32.mul (r 4%nat) (F32.of_Z 2)) M_PIf)
                 (F32.of_Z 0)
                 (F32.of_bits_small 1))
              (Point4.mk
                 (F32.sub (F32.mul (r 0%nat) (F32.of_Z 7)) (F32.lit 7 2))
                 (F32.sub (F32.mul (r 1%nat) (F32.of_Z 7)) (F32.lit 7 2))
                 (F32.sub (F32.mul (r 2%nat) (F32.of_Z 7)) (F32.lit 7 2))
                 (F32.of_Z 0))) /\
  rand_calls (snd (InitScene hr s)) = (rand_calls s + 40)%nat.
Proof.
  intros Hlen Hok. rewrite (InitScene_success hr s Hok).
  change (Z.to_nat MaxInst) with 100%nat in Hlen.
  unfold InitScene_instances.
  set (l1 := alter _ 0%nat (m_geomBuffers s)).
  set (s1 := set_geomBuffers l1 s).
  set (l2 := alter _ 1%nat (m_geomBuffers s1)).
  set (s2 := set_geomBuffers l2 s1).
  change (fold_left (fun s i => InitGeom_at i s) (seq 2 8) s2)
    with (InitGeom_range 2 8 s2).
  assert (Hlen2 : length (m_geomBuffers s2) = 100%nat).
  { subst s2 l2 s1 l1. cbn [set_geomBuffers m_geomBuffers].
    rewrite !length_alter. exact Hlen. }
  destruct (InitGeom_range_spec 8 2 s2 ltac:(lia)) as (Hr & Hc & Hout & Hin).
  cbn [set_instCount m_instCount m_geomBuffers].
  destruct (lookup_lt_is_Some_2 (m_geomBuffers s) 0 ltac:(lia)) as [a0 Ha0].
  destruct (lookup_lt_is_Some_2 (m_geomBuffers s) 1 ltac:(lia)) as [a1 Ha1].
  split; [reflexivity|]. split; [|split; [|split]].
  - eexists. split.
    + rewrite Hout by lia. subst s2 l2 s1 l1. cbn [set_geomBuffers m_geomBuffers].
      rewrite list_lookup_alter_ne by lia. rewrite list_lookup_alter_eq, Ha0.
      reflexivity.
    + cbn. repeat split; reflexivity.
  - eexists. split.
    + rewrite Hout by lia. subst s2 l2 s1 l1. cbn [set_geomBuffers m_geomBuffers].
      rewrite list_lookup_alter_eq, list_lookup_alter_ne by lia. rewrite Ha1.
      reflexivity.
    + cbn. split; reflexivity.
  - intros i Hi.
    destruct (lookup_lt_is_Some_2 (m_geomBuffers s) i ltac:(lia)) as [old Hold].
    exists old, (InitGeom_draw (rand_calls s + 5 * (i - 2)) old).
    split; [exact Hold|].
    split; [|split; [reflexivity | split; [apply InitGeom_draw_in_cube | reflexivity]]].
    apply Hin; [lia|].
    subst s2 l2 s1 l1. cbn [set_geomBuffers m_geomBuffers].
    rewrite !list_lookup_alter_ne by lia. exact Hold.
  - cbn [set_instCount rand_calls]. rewrite Hr. reflexivity.
Qed.

End SceneFacts.

(* ================================================================= *)
(** ** Animation *)

Lemma fold_alter_seq_lookup {A : Type} (f : A -> A) (n : nat) :
  forall (l : list A) (i : nat),
    fold_left (fun l i => alter f i l) (seq 0 n) l !! i
    = if (i <? n)%nat then f <$> l !! i else l !! i.
Proof.
  induction n as [|n IH]; intros l i; [reflexivity|].
  rewrite seq_S, fold_left_app. simpl.
  destruct (Nat.eq_dec i n) as [->|Hne].
  - rewrite list_lookup_alter_eq, IH.
    rewrite Nat.ltb_irrefl. now rewrite (proj2 (Nat.ltb_lt n (S n))) by lia.
  - rewrite list_lookup_alter_ne by lia. rewrite IH.
    destruct (Nat.ltb_spec i n), (Nat.ltb_spec i (S n)); try reflexivity; lia.
Qed.

Lemma UpdateCubes_lookup (deltaSec : double) (s : Renderer) (i : nat) :
  m_rotateModel s = true ->
  m_geomBuffers (UpdateCubes deltaSec s) !! i
  = if (Z.of_nat i <? m_instCount s)
    then UpdateCube deltaSec <$> m_geomBuffers s !! i
    else m_geomBuffers s !! i.
Proof.
  intros Hrot. unfold UpdateCubes. rewrite Hrot.
  cbn [d3d set_geomBuffers m_geomBuffers].
  rewrite fold_alter_seq_lookup.
  destruct (Nat.ltb_spec i (Z.to_nat (m_instCount s))),
    (Z.ltb_spec (Z.of_nat i) (m_instCount s)); try reflexivity; lia.
Qed.

(** Every speed [InitGeom] can draw is a zero or passes the threshold of
    [UpdateCubes]; so do the two speeds [InitScene] writes. *)
Lemma generated_speeds_zero_or_animated {P : Platform} (k : nat) (g : GeomBuffer.t) :
  let speed := Point4.y (GeomBuffer.shineSpeedTexIdNM (InitGeom_draw k g)) in
  F32.eqb speed (F32.of_Z 0) || animated (InitGeom_draw k g) = true.
Proof.
  cbv zeta. unfold animated. rewrite InitGeom_draw_speed.
  destruct (draw_ok_spec _ (rand_value_range (4 + k))) as [_ H]. exact H.
Qed.

(** C4, as the specification words it, fails: with rotation switched off
    by the space bar, instance 0 of the initial scene keeps its angle
    although its speed is [(float)M_PI / 2]. *)
Lemma Animate_as_specified_fails : ~ Animate_as_specified.
Proof.
  intros H.
  destruct (H (F64.of_Z 1) (KeyPressed_space example_scene) 0%nat
              (GeomBuffer.mk XMMatrixZeroed XMMatrixZeroed
                 (Point4.mk (F32.of_Z 0) ModelRotationSpeed (F32.of_Z 0)
                    (F32.of_bits_small 1))
                 (Point4.mk (F32.lit 1 100000) (F32.of_Z 0) (F32.of_Z 0) (F32.of_Z 0))))
    as [g' [Hg' Hangle]].
  - vm_compute. reflexivity.
  - vm_compute. reflexivity.
  - vm_compute. reflexivity.
  - vm_compute in Hg'. injection Hg' as <-. vm_compute in Hangle. discriminate.
Qed.

(** C4 (amended): when model rotation is off, [UpdateCubes] changes
    nothing and uploads nothing.  When it is on, every active instance
    whose rotation speed exceeds 0.0001 in absolute value gets its angle
    advanced by [(float)deltaSec] times the speed, its model matrix
    recomputed as the rotation about the y axis by the negated new angle
    times the translation to its position, and its normal matrix as the
    transposed inverse of the model matrix; every other record, in
    particular one with rotation speed zero, keeps all its fields; and
    the whole store, as updated, is uploaded once into the instance
    buffer. *)
Theorem UpdateCubes_animates_while_rotation_is_on (deltaSec : double) (s : Renderer) :
  (m_rotateModel s = false -> UpdateCubes deltaSec s = s) /\
  (m_rotateModel s = true ->
   (forall i g, m_geomBuffers s !! i = Some g ->
      exists g',
        m_geomBuffers (UpdateCubes deltaSec s) !! i = Some g' /\
        (if (Z.of_nat i <? m_instCount s) && animated g
         then
           let pa := GeomBuffer.posAngle g in
           let speed := Point4.y (GeomBuffer.shineSpeedTexIdNM g) in
           let angle := F32.add (Point4.w pa) (F32.mul (F32.of_double deltaSec) speed) in
           GeomBuffer.posAngle g'
             = Point4.mk (Point4.x pa) (Point4.y pa) (Point4.z pa) angle /\
           GeomBuffer.m g'
             = XMMatrixMultiply
                 (XMMatrixRotationAxis
                    (XMVectorSet (F32.of_Z 0) (F32.of_Z 1) (F32.of_Z 0) (F32.of_Z 1))
                    (F32.opp angle))
                 (XMMatrixTranslation (Point4.x pa) (Point4.y pa) (Point4.z pa)) /\
           GeomBuffer.normalM g' = XMMatrixTranspose (XMMatrixInverse (GeomBuffer.m g')) /\
           GeomBuffer.shineSpeedTexIdNM g' = GeomBuffer.shineSpeedTexIdNM g
         else g' = g) /\
        ((exists sg, Point4.y (GeomBuffer.shineSpeedTexIdNM g) = S754_zero sg) ->
         g' = g)) /\
   length (m_geomBuffers (UpdateCubes deltaSec s)) = length (m_geomBuffers s) /\
   d3d_log (UpdateCubes deltaSec s)
     = d3d_log s
       ++ [UpdateSubresource_GeomBufferInst (m_geomBuffers (UpdateCubes deltaSec s))]).
Proof.
  split.
  - intros Hrot. unfold UpdateCubes. now rewrite Hrot.
  - intros Hrot. split; [|split].
    + intros i g Hg. rewrite (UpdateCubes_lookup deltaSec s i Hrot), Hg.
      unfold animated.
      destruct (Z.of_nat i <? m_instCount s); cbn [fmap option_fmap option_map andb].
      * unfold UpdateCube.
        destruct (F64.ltb (F64.lit 1 10000)
                    (F64.of_float (F32.abs (Point4.y (GeomBuffer.shineSpeedTexIdNM g)))))
          eqn:E.
        -- eexists. split; [reflexivity|]. split.
           ++ cbn. repeat split; reflexivity.
           ++ intros [sg Hsg]. rewrite Hsg in E. discriminate E.
        -- exists g. repeat split; reflexivity.
      * exists g. repeat split; reflexivity.
    + assert (Hlen : forall n (l : list GeomBuffer.t),
                 length (fold_left (fun l i => alter (UpdateCube deltaSec) i l)
                           (seq 0 n) l) = length l).
      { induction n as [|n IH]; intros l; [reflexivity|].
        rewrite seq_S, fold_left_app. simpl. now rewrite length_alter. }
      unfold UpdateCubes. rewrite Hrot.
      cbn [d3d set_geomBuffers m_geomBuffers]. apply Hlen.
    + unfold UpdateCubes. rewrite Hrot. reflexivity.
Qed.

Lemma UpdateCubes_animates_while_rotation_is_on_witness :
  UpdateCubes (F64.lit 1 60) (KeyPressed_space example_scene)
  = KeyPressed_space example_scene.
Proof.
  apply (proj1 (UpdateCubes_animates_while_rotation_is_on
                  (F64.lit 1 60) (KeyPressed_space example_scene))).
  vm_compute. reflexivity.
Defined.

(* ================================================================= *)
(** ** The first update *)

Section UpdateFacts.
Context {P : Platform}.

Lemma same_value_refl (a : float) : same_value a a.
Proof. now left. Qed.

(** Unless the old value is the negative zero, the value is the same bit
    for bit. *)
Lemma same_value_exact (old new : float) :
  same_value old new -> old <> S754_zero true -> new = old.
Proof. intros [H|[H _]] Hne; [exact H | contradiction]. Qed.

(** Adding the product of a zero and a finite value changes nothing. *)
Lemma F32_add_zero_product (a b : float) (s : bool) :
  F32.is_finite b = true -> same_value a (F32.add a (F32.mul (S754_zero s) b)).
Proof.
  intros Hb. destruct (F32_mul_zero_l s b Hb) as [s' ->]. apply F32_add_zero_r.
Qed.

Lemma F32_add_product_zero (a b : float) (s : bool) :
  F32.is_finite b = true -> same_value a (F32.add a (F32.mul b (S754_zero s))).
Proof.
  intros Hb. destruct (F32_mul_zero_r s b Hb) as [s' ->]. apply F32_add_zero_r.
Qed.

Lemma Update_initial_sentinel (usec : Z) (s : Renderer) :
  m_prevUSec s = 0 -> Update_initial usec s = set_prevUSec usec s.
Proof. intros H. unfold Update_initial. now rewrite H. Qed.

Lemma first_deltaSec_zero (usec : Z) (s : Renderer) :
  m_prevUSec s = 0 ->
  Update_deltaSec usec (Update_initial usec s) = S754_zero false.
Proof.
  intros H. rewrite (Update_initial_sentinel usec s H).
  unfold Update_deltaSec. cbn [set_prevUSec m_prevUSec].
  rewrite Z.sub_diag. reflexivity.
Qed.

Lemma UpdateCube_zero_time (g : GeomBuffer.t) :
  F32.is_finite (Point4.y (GeomBuffer.shineSpeedTexIdNM g)) = true ->
  same_value (Point4.w (GeomBuffer.posAngle g))
    (Point4.w (GeomBuffer.posAngle (UpdateCube (S754_zero false) g))) /\
  Point4.x (GeomBuffer.posAngle (UpdateCube (S754_zero false) g))
    = Point4.x (GeomBuffer.posAngle g) /\
  Point4.y (GeomBuffer.posAngle (UpdateCube (S754_zero false) g))
    = Point4.y (GeomBuffer.posAngle g) /\
  Point4.z (GeomBuffer.posAngle (UpdateCube (S754_zero false) g))
    = Point4.z (GeomBuffer.posAngle g) /\
  GeomBuffer.shineSpeedTexIdNM (UpdateCube (S754_zero false) g)
    = GeomBuffer.shineSpeedTexIdNM g.
Proof.
  intros Hfin. unfold UpdateCube.
  destruct (F64.ltb _ _).
  - cbn [GeomBuffer.posAngle GeomBuffer.shineSpeedTexIdNM Point4.x Point4.y
           Point4.z Point4.w].
    split; [|repeat split].
    change (F32.of_double (S754_zero false)) with (S754_zero false).
    now apply F32_add_zero_product.
  - split; [apply same_value_refl | repeat split].
Qed.

(** C10: on a call of [Update] that finds the sentinel 0 in
    [m_prevUSec], the elapsed time is computed as [+0.0]; the point of
    interest of the camera and the rotation angle of every instance keep
    their values (a negative zero may turn into the positive zero), the
    positions and speeds are untouched, and [m_prevUSec] holds the clock
    reading afterwards.  The pan direction and the rotation speeds are
    required to be finite, as those the program produces are. *)
Theorem Update_first_call_elapsed_time_zero
  (usec : Z) (hr_Map : HRESULT) (s : Renderer) :
  m_prevUSec s = 0 ->
  Point3f.is_finite (pan_direction s) = true ->
  (forall i g, m_geomBuffers s !! i = Some g ->
     F32.is_finite (Point4.y (GeomBuffer.shineSpeedTexIdNM g)) = true) ->
  Update_deltaSec usec (Update_initial usec s) = S754_zero false /\
  same_point (Camera.poi (m_camera s))
    (Camera.poi (m_camera (snd (Update usec hr_Map s)))) /\
  (forall i g, m_geomBuffers s !! i = Some g ->
     exists g',
       m_geomBuffers (snd (Update usec hr_Map s)) !! i = Some g' /\
       same_value (Point4.w (GeomBuffer.posAngle g)) (Point4.w (GeomBuffer.posAngle g')) /\
       Point4.x (GeomBuffer.posAngle g') = Point4.x (GeomBuffer.posAngle g) /\
       Point4.y (GeomBuffer.posAngle g') = Point4.y (GeomBuffer.posAngle g) /\
       Point4.z (GeomBuffer.posAngle g') = Point4.z (GeomBuffer.posAngle g) /\
       GeomBuffer.shineSpeedTexIdNM g' = GeomBuffer.shineSpeedTexIdNM g) /\
  m_prevUSec (snd (Update usec hr_Map s)) = usec.
Proof.
  intros Hprev Hpan Hspeed.
  pose proof (first_deltaSec_zero usec s Hprev) as Hdt.
  split; [exact Hdt|].
  unfold Update. rewrite Hdt.
  rewrite (Update_initial_sentinel usec s Hprev).
  change (F32.of_double (S754_zero false)) with (S754_zero false).
  change (pan_direction (set_prevUSec usec s)) with (pan_direction s).
  cbn [snd set_prevUSec m_camera m_prevUSec m_geomBuffers].
  set (cam := Camera.mk _ _ _ _).
  set (s1 := set_camera cam (set_prevUSec usec s)).
  assert (Hcam : m_camera (UpdateCubes (S754_zero false) s1) = cam).
  { unfold UpdateCubes. now destruct (m_rotateModel s1). }
  rewrite Hcam. split; [|split; [|reflexivity]].
  - subst cam. cbn [Camera.poi].
    unfold Point3f.is_finite in Hpan. rewrite !andb_true_iff in Hpan.
    destruct Hpan as [[Hx Hy] Hz].
    unfold same_point, Point3f.add, Point3f.scale.
    cbn [Point3.x Point3.y Point3.z].
    repeat split; now apply F32_add_product_zero.
  - intros i g Hg.
    assert (Hg1 : m_geomBuffers s1 !! i = Some g) by exact Hg.
    destruct (m_rotateModel s1) eqn:Hrot.
    + rewrite (UpdateCubes_lookup _ s1 i Hrot), Hg1.
      destruct (Z.of_nat i <? m_instCount s1); cbn [fmap option_fmap option_map].
      * eexists. split; [reflexivity|].
        apply UpdateCube_zero_time. now apply (Hspeed i).
      * exists g. split; [reflexivity|].
        split; [apply same_value_refl | repeat split].
    + unfold UpdateCubes. rewrite Hrot. exists g. split; [exact Hg1|].
      split; [apply same_value_refl | repeat split].
Qed.

End UpdateFacts.

Lemma Update_first_call_elapsed_time_zero_witness :
  Update_deltaSec 123456789
    (Update_initial 123456789 example_scene) = S754_zero false.
Proof.
  refine (proj1 (Update_first_call_elapsed_time_zero (P := example_platform)
                   123456789 S_OK example_scene _ _ _)).
  - reflexivity.
  - vm_compute. reflexivity.
  - intros i g Hg.
    assert (Hall : forallb
              (fun g => F32.is_finite (Point4.y (GeomBuffer.shineSpeedTexIdNM g)))
              (m_geomBuffers example_scene) = true) by (vm_compute; reflexivity).
    rewrite forallb_forall in Hall. apply Hall.
    apply list_elem_of_In. eapply list_elem_of_lookup_2. exact Hg.
Defined.


(* ================================================================= *)
(** ** Resizing *)

Lemma releases_spec (s : Renderer) :
  let s1 := SAFE_RELEASE_pDepthBufferDSV
              (SAFE_RELEASE_pDepthBuffer (SAFE_RELEASE_pBackBufferRTV s)) in
  d3d_log s1 = d3d_log s ++ map Release (live_views s) /\
  m_pBackBufferRTV s1 = None /\ m_pDepthBuffer s1 = None /\
  m_pDepthBufferDSV s1 = None /\
  m_width s1 = m_width s /\ m_height s1 = m_height s.
Proof.
  destruct s as [rtv db dsv w h bufs n cam rot fd rd prev rc log].
  unfold live_views, SAFE_RELEASE_pDepthBufferDSV, SAFE_RELEASE_pDepthBuffer,
    SAFE_RELEASE_pBackBufferRTV.
  destruct rtv, db, dsv; cbn; rewrite <- ?app_assoc, ?app_nil_r;
    repeat split; reflexivity.
Qed.

Lemma SetupBackBuffer_spec (a : ResizeAnswers) (s : Renderer) :
  m_width (snd (SetupBackBuffer a s)) = m_width s /\
  m_height (snd (SetupBackBuffer a s)) = m_height s /\
  (exists mid, d3d_log (snd (SetupBackBuffer a s)) = d3d_log s ++ GetBuffer :: mid) /\
  (creations_succeed a = true ->
   fst (SetupBackBuffer a s) = hr_NameDepthBufferView a /\
   m_pBackBufferRTV (snd (SetupBackBuffer a s)) = Some (new_BackBufferRTV a) /\
   m_pDepthBuffer (snd (SetupBackBuffer a s)) = Some (new_DepthBuffer a) /\
   m_pDepthBufferDSV (snd (SetupBackBuffer a s)) = Some (new_DepthBufferDSV a) /\
   d3d_log (snd (SetupBackBuffer a s))
   = d3d_log s
     ++ [GetBuffer; CreateRenderTargetView; Release (the_pBackBuffer a);
         CreateTexture2D_depth (m_width s) (m_height s);
         SetResourceName "DepthBuffer"; CreateDepthStencilView;
         SetResourceName "DepthBufferView"]).
Proof.
  unfold SetupBackBuffer, creations_succeed.
  destruct (SUCCEEDED (hr_GetBuffer a)) eqn:E1;
    destruct (SUCCEEDED (hr_CreateRenderTargetView a)) eqn:E2;
    destruct (SUCCEEDED (hr_CreateTexture2D a)) eqn:E3;
    destruct (SUCCEEDED (hr_NameDepthBuffer a)) eqn:E4;
    destruct (SUCCEEDED (hr_CreateDepthStencilView a)) eqn:E5;
    repeat (progress (cbn; rewrite ?E1, ?E2, ?E3, ?E4, ?E5));
    rewrite <- ?app_assoc; cbn;
    (split; [reflexivity|]); (split; [reflexivity|]);
    (split; [eexists; reflexivity|]); intros Hall; try discriminate Hall;
    repeat split; reflexivity.
Qed.

(** C9: [Resize] with the current width and height releases and rebuilds
    nothing, makes no Direct3D call and returns true.  With a new width
    or height it releases the back buffer view, the depth buffer and the
    depth view it holds and asks the swap chain for the new size; if the
    swap chain refuses, it stops there and returns false; otherwise it
    records the new size, runs [SetupBackBuffer], uploads the skybox
    sphere for the new size and returns whether [SetupBackBuffer]
    succeeded, the three views being the new ones when every creation
    succeeded. *)
Theorem Resize_rebuilds_only_on_a_new_size
  (width height : Z) (a : ResizeAnswers) (s : Renderer) :
  (width = m_width s /\ height = m_height s -> Resize width height a s = (true, s)) /\
  (width <> m_width s \/ height <> m_height s ->
   exists tail,
     d3d_log (snd (Resize width height a s))
     = d3d_log s ++ map Release (live_views s)
       ++ ResizeBuffers 2 width height :: tail /\
     if SUCCEEDED (hr_ResizeBuffers a) then
       m_width (snd (Resize width height a s)) = width /\
       m_height (snd (Resize width height a s)) = height /\
       (exists mid,
          tail = GetBuffer :: mid
                 ++ [UpdateSubresource_SphereGeomBuffer width height]) /\
       (creations_succeed a = true ->
        fst (Resize width height a s) = SUCCEEDED (hr_NameDepthBufferView a) /\
        m_pBackBufferRTV (snd (Resize width height a s)) = Some (new_BackBufferRTV a) /\
        m_pDepthBuffer (snd (Resize width height a s)) = Some (new_DepthBuffer a) /\
        m_pDepthBufferDSV (snd (Resize width height a s)) = Some (new_DepthBufferDSV a) /\
        tail = [GetBuffer; CreateRenderTargetView; Release (the_pBackBuffer a);
                CreateTexture2D_depth width height;
                SetResourceName "DepthBuffer"; CreateDepthStencilView;
                SetResourceName "DepthBufferView";
                UpdateSubresource_SphereGeomBuffer width height])
     else
       tail = [] /\
       fst (Resize width height a s) = false /\
       m_width (snd (Resize width height a s)) = m_width s /\
       m_height (snd (Resize width height a s)) = m_height s /\
       m_pBackBufferRTV (snd (Resize width height a s)) = None /\
       m_pDepthBuffer (snd (Resize width height a s)) = None /\
       m_pDepthBufferDSV (snd (Resize width height a s)) = None).
Proof.
  split.
  - intros [-> ->]. unfold Resize. now rewrite !Z.eqb_refl.
  - intros Hnew.
    assert (Hcond : negb (width =? m_width s) || negb (height =? m_height s) = true).
    { apply orb_true_iff.
      destruct Hnew as [H|H]; [left|right]; apply negb_true_iff, Z.eqb_neq; exact H. }
    unfold Resize. rewrite Hcond.
    destruct (releases_spec s) as (Hlog & Hrtv & Hdb & Hdsv & Hw & Hh).
    set (s1 := SAFE_RELEASE_pDepthBufferDSV _) in *.
    destruct (SUCCEEDED (hr_ResizeBuffers a)) eqn:Hres.
    + set (s2 := set_size width height (d3d (ResizeBuffers 2 width height) s1)).
      destruct (SetupBackBuffer_spec a s2) as (Hw2 & Hh2 & [mid Hmid] & Hall).
      destruct (SetupBackBuffer a s2) as [result s3].
      cbn [fst snd] in *.
      exists (GetBuffer :: mid ++ [UpdateSubresource_SphereGeomBuffer width height]).
      cbn [d3d d3d_log m_width m_height m_pBackBufferRTV m_pDepthBuffer
             m_pDepthBufferDSV].
      rewrite Hw2, Hh2, Hmid. subst s2.
      cbn [set_size d3d d3d_log m_width m_height]. rewrite Hlog.
      split; [now rewrite <- !app_assoc|].
      split; [reflexivity|]. split; [reflexivity|]. split; [now exists mid|].
      intros Hc. destruct (Hall Hc) as (-> & Hr1 & Hr2 & Hr3 & Hl).
      split; [reflexivity|]. repeat (split; [assumption|]).
      rewrite Hmid in Hl. cbn [set_size d3d d3d_log] in Hl.
      apply app_inv_head in Hl. injection Hl as ->. reflexivity.
    + exists []. cbn [fst snd d3d d3d_log m_width m_height m_pBackBufferRTV
                       m_pDepthBuffer m_pDepthBufferDSV].
      rewrite Hlog. split; [now rewrite <- app_assoc|]. tauto.
Qed.

Lemma Resize_rebuilds_only_on_a_new_size_witness :
  Resize 16 16 example_answers example_scene = (true, example_scene).
Proof.
  apply (proj1 (Resize_rebuilds_only_on_a_new_size 16 16 example_answers example_scene)).
  split; vm_compute; reflexivity.
Defined.

(* ================================================================= *)
(** ** The box-frustum test *)

Lemma corner_index_range (idx : Z) :
  In idx [0; 1; 2; 3; 4; 5; 6; 7] <-> 0 <= idx < 8.
Proof.
  split.
  - intros H. repeat (destruct H as [<-|H]; [lia|]). destruct H.
  - intros H. cbn.
    assert (idx = 0 \/ idx = 1 \/ idx = 2 \/ idx = 3 \/ idx = 4 \/ idx = 5
            \/ idx = 6 \/ idx = 7) by lia.
    intuition auto.
Qed.

(** The test, whatever the scalars: culled exactly when one plane has
    all eight corners strictly on its negative side. *)
Lemma IsBoxCulled_iff {T : Type} {S : Scalar T}
  (fr : Frustum T) (M : Matrix4 T) (bb : AABB T) :
  IsBoxCulled fr M bb = true <->
  exists pl, In pl (planes fr) /\
             forall idx, 0 <= idx < 8 -> corner_outside pl M bb idx = true.
Proof.
  unfold IsBoxCulled. rewrite existsb_exists.
  split; intros [pl [Hin H]]; exists pl; (split; [exact Hin|]).
  - rewrite forallb_forall in H. intros idx Hidx.
    apply H. now apply corner_index_range.
  - apply forallb_forall. intros idx Hidx.
    apply H. now apply corner_index_range.
Qed.

Lemma corner_outside_Q (pl : Point4.t Q) (M : Matrix4 Q) (bb : AABB Q) (idx : Z) :
  corner_outside pl M bb idx = true
  <-> (plane_side pl (transform_point M (GetVert bb idx)) < 0)%Q.
Proof.
  unfold corner_outside. cbn [s_ltb s_zero Scalar_Q]. rewrite Qlt_alt.
  destruct (_ ?= _)%Q; split; intros H; try reflexivity; discriminate.
Qed.

(** Corner 0 is the min corner and corner 7 the max corner. *)
Lemma GetVert_0 {T : Type} (bb : AABB T) : GetVert bb 0 = vmin bb.
Proof. now destruct bb as [[? ? ?] ?]. Qed.

Lemma GetVert_7 {T : Type} (bb : AABB T) : GetVert bb 7 = vmax bb.
Proof. now destruct bb as [? [? ? ?]]. Qed.

(** The plane function is affine and the centre is the midpoint of the
    corners 0 and 7. *)
Lemma plane_side_center (pl : Point4.t Q) (M : Matrix4 Q) (bb : AABB Q) :
  (plane_side pl (transform_point M (AABB_center bb))
   == (plane_side pl (transform_point M (GetVert bb 0))
       + plane_side pl (transform_point M (GetVert bb 7))) * (1 # 2))%Q.
Proof.
  rewrite GetVert_0, GetVert_7.
  destruct pl as [a b c d], M as [[m00 m01 m02 m03] [m10 m11 m12 m13]
    [m20 m21 m22 m23] [m30 m31 m32 m33]], bb as [[x0 y0 z0] [x1 y1 z1]].
  unfold plane_side, transform_point, AABB_center.
  cbn [s_add s_mul Scalar_Q Point3.x Point3.y Point3.z Point4.x Point4.y
         Point4.z Point4.w row0 row1 row2 row3 vmin vmax].
  ring.
Qed.




(* ================================================================= *)
(** ** The two cullers *)

Lemma filter_Permutation_bool {A : Type} (f : A -> bool) (l l' : list A) :
  l ≡ₚ l' -> List.filter f l ≡ₚ List.filter f l'.
Proof.
  induction 1 as [|x l l' _ IH|x y l|l l' l'' _ IH1 _ IH2]; cbn.
  - constructor.
  - destruct (f x); [now constructor | assumption].
  - destruct (f x), (f y); try reflexivity. constructor.
  - now transitivity (List.filter f l').
Qed.

Lemma omap_lookup_seq {A : Type} (l : list A) (n : nat) :
  omap (fun i => l !! i) (seq 0 n) = take n l.
Proof.
  induction n as [|n IH]; [reflexivity|].
  rewrite seq_S, omap_app, IH. cbn.
  destruct (l !! n) as [x|] eqn:E.
  - now rewrite (take_S_r l n x E).
  - apply lookup_ge_None in E.
    rewrite app_nil_r, !take_ge by lia. reflexivity.
Qed.

Lemma DivUp_covers (count groupSize : nat) :
  (0 < groupSize)%nat -> (count <= DivUp count groupSize * groupSize)%nat.
Proof.
  intros Hg. unfold DivUp.
  pose proof (Nat.div_mod_eq (count + groupSize - 1) groupSize) as Hdiv.
  pose proof (Nat.mod_upper_bound (count + groupSize - 1) groupSize ltac:(lia)) as Hmod.
  nia.
Qed.

Section CullerFacts.
Context {T : Type} {S : Scalar T} {Rec : Type} (world : Rec -> Matrix4 T).

Lemma fold_cull_one (fr : Frustum T) (insts : list (Rec * AABB T)) :
  forall (buf : list Rec) (k : nat),
    (k + length (survivors world fr insts) <= length buf)%nat ->
    snd (fold_left (cull_one world fr) insts (buf, k))
      = (k + length (survivors world fr insts))%nat /\
    visible_set (fold_left (cull_one world fr) insts (buf, k))
      = take k buf ++ survivors world fr insts.
Proof.
  induction insts as [|inst insts IH]; intros buf k Hcap.
  - cbn. split; [lia|]. unfold visible_set. cbn. now rewrite app_nil_r.
  - cbn [fold_left]. unfold cull_one at 2 4. unfold survivors in *. cbn in *.
    destruct (is_visible world fr inst) eqn:E; cbn in *.
    + unfold append_record. cbn [fst snd].
      destruct (IH (<[k := fst inst]> buf) (Datatypes.S k)) as [Hn Hv].
      { rewrite length_insert. lia. }
      split; [rewrite Hn; lia|].
      rewrite Hv. rewrite (take_S_r _ k (fst inst)).
      * rewrite take_insert_ge by lia. now rewrite <- app_assoc.
      * apply list_lookup_insert_eq. lia.
    + now apply IH.
Qed.

Lemma fold_invocation (fr : Frustum T) (active : list (Rec * AABB T))
  (schedule : list nat) :
  forall c : Compacted (Rec := Rec),
    fold_left (invocation world fr active) schedule c
    = fold_left (cull_one world fr) (omap (fun i => active !! i) schedule) c.
Proof.
  induction schedule as [|t schedule IH]; intros c; [reflexivity|].
  cbn [fold_left].
  change (omap (fun i => active !! i) (t :: schedule))
    with (match active !! t with
          | Some inst => inst :: omap (fun i => active !! i) schedule
          | None => omap (fun i => active !! i) schedule
          end).
  unfold invocation at 2.
  destruct (active !! t) as [inst|]; cbn [fold_left]; apply IH.
Qed.

(** C1: on the same active instances and the same frustum, whatever the
    thread-group size, whatever the order in which the invocations of the
    compute pass get their slots and whatever the two output buffers held
    before, the counter of the GPU culler equals the visible count of the
    CPU culler, and the two visible sets contain the same records up to
    order. *)
Theorem cullers_agree_on_visible_set
  (fr : Frustum T) (active : list (Rec * AABB T)) (groupSize : nat)
  (schedule : list nat) (scratch output : list Rec) :
  (0 < groupSize)%nat ->
  schedule ≡ₚ dispatched_threads (length active) groupSize ->
  (length active <= length scratch)%nat ->
  (length active <= length output)%nat ->
  snd (ComputeCull world fr active schedule output)
    = snd (CullBoxes world fr active scratch) /\
  length (visible_set (ComputeCull world fr active schedule output))
    = length (visible_set (CullBoxes world fr active scratch)) /\
  visible_set (ComputeCull world fr active schedule output)
    ≡ₚ visible_set (CullBoxes world fr active scratch).
Proof.
  intros Hg Hsched Hscratch Houtput.
  assert (Hvisited : omap (fun i => active !! i) schedule ≡ₚ active).
  { rewrite Hsched. unfold dispatched_threads.
    rewrite omap_lookup_seq. rewrite take_ge; [reflexivity|].
    now apply DivUp_covers. }
  assert (Hsurv : survivors world fr (omap (fun i => active !! i) schedule)
                  ≡ₚ survivors world fr active).
  { unfold survivors. apply Permutation_map.
    now apply filter_Permutation_bool. }
  assert (Hle : forall l, (length (survivors world fr l) <= length l)%nat).
  { intros l. unfold survivors. rewrite length_map. apply filter_length_le. }
  unfold ComputeCull, CullBoxes. rewrite fold_invocation.
  destruct (fold_cull_one fr active scratch 0) as [Hcn Hcv].
  { specialize (Hle active). cbn. lia. }
  destruct (fold_cull_one fr (omap (fun i => active !! i) schedule) output 0)
    as [Hgn Hgv].
  { specialize (Hle active). rewrite (Permutation_length Hsurv). cbn. lia. }
  rewrite Hcn, Hgn, Hcv, Hgv. rewrite !take_0, !Nat.add_0_l. cbn [app].
  split; [now rewrite (Permutation_length Hsurv)|].
  split; [now rewrite (Permutation_length Hsurv) | exact Hsurv].
Qed.

End CullerFacts.

Lemma cullers_agree_on_visible_set_witness :
  snd (ComputeCull (fun m => m) example_frustum example_instances
         (rev (dispatched_threads 2 64)) (replicate 100 (translation_Q 0 0 0)))
  = snd (CullBoxes (fun m => m) example_frustum example_instances
           (replicate 100 (translation_Q 0 0 0))).
Proof.
  refine (proj1 (cullers_agree_on_visible_set (fun m => m) example_frustum
                   example_instances 64 (rev (dispatched_threads 2 64))
                   (replicate 100 (translation_Q 0 0 0))
                   (replicate 100 (translation_Q 0 0 0)) _ _ _ _)).
  - lia.
  - symmetry. apply Permutation_rev.
  - vm_compute. lia.
  - vm_compute. lia.
Defined.

(* ================================================================= *)
(** ** The frame query ring *)

Lemma ring_slot_lt (frame : Z) : (ring_slot frame < 10)%nat.
Proof.
  unfold ring_slot. pose proof (Z.mod_pos_bound frame 10 ltac:(lia)). lia.
Qed.

Lemma ring_slot_apart (a b : Z) :
  0 < b - a < 10 -> ring_slot a <> ring_slot b.
Proof.
  unfold ring_slot. intros H E.
  pose proof (Z.mod_pos_bound a 10 ltac:(lia)).
  pose proof (Z.mod_pos_bound b 10 ltac:(lia)).
  pose proof (Z.div_mod a 10 ltac:(lia)).
  pose proof (Z.div_mod b 10 ltac:(lia)).
  assert (a mod 10 = b mod 10) by lia. lia.
Qed.

Lemma ReadQueries_wf (gpu : GpuAnswers) (r : QueryRing.t) :
  ring_wf r -> ring_wf (ReadQueries gpu r).
Proof.
  intros Hwf. pose proof Hwf as (Hlen & Hord & Htags).
  unfold ReadQueries, pending.
  destruct (Z.ltb_spec (QueryRing.m_lastCompletedFrame r) (QueryRing.m_curFrame r));
    [|exact Hwf].
  destruct (QueryRing.m_queries r !! _) as [[tag|]|]; try exact Hwf.
  destruct (gpu tag); [|exact Hwf].
  split; [exact Hlen|]. split; [cbn; lia | exact Htags].
Qed.

Lemma ReadQueries_curFrame (gpu : GpuAnswers) (r : QueryRing.t) :
  QueryRing.m_curFrame (ReadQueries gpu r) = QueryRing.m_curFrame r.
Proof.
  unfold ReadQueries. destruct (pending r) as [tag|]; [|reflexivity].
  now destruct (gpu tag).
Qed.

Lemma IssueQuery_wf (r : QueryRing.t) :
  ring_wf r -> QueryRing.m_curFrame r + 1 < 2 ^ 64 -> ring_wf (IssueQuery r).
Proof.
  intros (Hlen & Hord & Htags) Hmax. unfold IssueQuery, ring_wf.
  cbn [QueryRing.m_queries QueryRing.m_curFrame QueryRing.m_lastCompletedFrame].
  unfold UINT64_wrap. rewrite Z.mod_small by lia.
  split; [now rewrite length_insert|]. split; [lia|].
  intros i tag Hi.
  destruct (Nat.eq_dec (ring_slot (QueryRing.m_curFrame r)) i) as [<-|Hne].
  - rewrite list_lookup_insert_eq in Hi by (rewrite Hlen; apply ring_slot_lt).
    injection Hi as <-. split; [lia | reflexivity].
  - rewrite list_lookup_insert_ne in Hi by exact Hne.
    destruct (Htags i tag Hi). split; [lia | assumption].
Qed.



(* ================================================================= *)
(** ** The properties on the example scene *)

Lemma instance_count_stays_within_capacity_witness :
  0 <= m_instCount
         (run (P := example_platform)
            (repeat (EvRender (mkUI true false) S_OK) 105) example_scene)
    <= MaxInst.
Proof.
  refine (proj2 (proj2 (instance_count_stays_within_capacity
                          (P := example_platform) example_scene _)) _).
  vm_compute. split; discriminate.
Defined.

Lemma RemoveInstance_keeps_records_AddInstance_reuses_them_witness :
  AddInstance (P := example_platform) (RemoveInstance example_scene) = example_scene.
Proof.
  refine (proj1 (proj2 (RemoveInstance_keeps_records_AddInstance_reuses_them
                          (P := example_platform) example_scene _ _ _)) _).
  - vm_compute. split; [reflexivity | discriminate].
  - vm_compute. reflexivity.
  - intros [[s H] _]. vm_compute in H. discriminate H.
Defined.

Lemma InitScene_fills_ten_instances_witness : m_instCount example_scene = 10.
Proof.
  refine (proj1 (InitScene_fills_ten_instances (P := example_platform)
                   (fun _ => S_OK) (InitCamera Renderer_ctor) _ _)).
  - vm_compute. reflexivity.
  - vm_compute. reflexivity.
Defined.

(** "MaxInst = 100, add 105 times: the active count clamps at 100." *)
Example add_105_times_clamps_at_100 :
  m_instCount
    (run (P := example_platform)
       (repeat (EvRender (mkUI true false) S_OK) 105) example_scene) = 100.
Proof. vm_compute. reflexivity. Qed.

(** "Two active instances, one offset far outside the frustum: visible
    count 1", on both paths. *)
Example one_of_two_instances_visible :
  snd (CullBoxes (fun m => m) example_frustum example_instances
         (replicate 100 (translation_Q 0 0 0))) = 1%nat /\
  snd (ComputeCull (fun m => m) example_frustum example_instances
         (rev (dispatched_threads 2 64)) (replicate 100 (translation_Q 0 0 0)))
  = 1%nat.
Proof. split; vm_compute; reflexivity. Qed.

(** The corners [GetVert] enumerates for the empty box. *)
Example GetVert_of_the_empty_box :
  GetVert AABB_default 0 = Point3.mk F32.max F32.max F32.max /\
  GetVert AABB_default 7 = Point3.mk F32.lowest F32.lowest F32.lowest /\
  GetVert AABB_default 5 = Point3.mk F32.lowest F32.max F32.lowest.
Proof. repeat split. Qed.

(* ================================================================= *)
(** ** The texture loader *)

Lemma byte_of_value (b : byte) (n : N) (c : byte) :
  Byte.of_N n = Some c -> Z.of_N (Byte.to_N b) = Z.of_N n -> b = c.
Proof.
  intros Hc Hb. apply N2Z.inj in Hb.
  pose proof (Byte.of_to_N b) as H. rewrite Hb, Hc in H. congruence.
Qed.

Lemma byte_range (b : byte) : 0 <= Z.of_N (Byte.to_N b) < 256.
Proof. pose proof (Byte.to_N_bounded b). lia. Qed.

Lemma le32_signature (sig : list byte) :
  length sig = 4%nat -> le32 sig = DDSSignature ->
  sig = ["D"; "D"; "S"; " "]%byte.
Proof.
  intros Hlen H.
  destruct sig as [|a [|b [|c [|d [|]]]]]; try discriminate.
  unfold le32, DDSSignature in H. cbn [fold_right] in H.
  pose proof (byte_range a). pose proof (byte_range b).
  pose proof (byte_range c). pose proof (byte_range d).
  assert (Z.of_N (Byte.to_N a) = Z.of_N 68 /\ Z.of_N (Byte.to_N b) = Z.of_N 68 /\
          Z.of_N (Byte.to_N c) = Z.of_N 83 /\ Z.of_N (Byte.to_N d) = Z.of_N 32)
    as (Ha & Hb & Hc & Hd) by lia.
  rewrite (byte_of_value a 68 "D"%byte), (byte_of_value b 68 "D"%byte),
    (byte_of_value c 83 "S"%byte), (byte_of_value d 32 " "%byte); auto.
Qed.

Lemma le32_range (bs : list byte) : (length bs <= 4)%nat -> 0 <= le32 bs < 2 ^ 32.
Proof.
  intros H. destruct bs as [|a [|b [|c [|d [|]]]]]; cbn in H; try lia;
  unfold le32; cbn [fold_right];
  repeat match goal with |- context [Byte.to_N ?x] =>
    lazymatch goal with
    | _ : 0 <= Z.of_N (Byte.to_N x) < 256 |- _ => fail
    | _ => pose proof (byte_range x)
    end end; try lia.
Qed.

Lemma u32_at_range off bs : 0 <= u32_at off bs < 2 ^ 32.
Proof. apply le32_range. rewrite length_take. lia. Qed.

(** A field of the header sits four bytes further in the file. *)
Lemma take_drop_header (off n : nat) (bytes : list byte) :
  (off + n <= 124)%nat ->
  take n (drop off (take 124 (drop 4 bytes))) = take n (drop (4 + off) bytes).
Proof.
  intros H. rewrite take_drop_commute, take_take.
  replace ((off + n) `min` 124)%nat with (off + n)%nat by lia.
  rewrite <- take_drop_commute, drop_drop. reflexivity.
Qed.

Lemma cstr_fourCC (bs lit : list byte) :
  length bs = 4%nat -> length lit = 4%nat ->
  Forall (fun b => b <> x00) lit ->
  bytes_eqb (cstr (take 4 bs ++ [x00])) (cstr lit) = true -> bs = lit.
Proof.
  intros Hb Hl Hnz.
  destruct bs as [|b1 [|b2 [|b3 [|b4 [|]]]]]; try discriminate.
  destruct lit as [|l1 [|l2 [|l3 [|l4 [|]]]]]; try discriminate.
  repeat match goal with H : Forall _ (_ :: _) |- _ => inversion H; clear H; subst end.
  cbn [take app cstr].
  repeat match goal with
  | H : ?l <> x00 |- context [Byte.eqb ?l x00] =>
      destruct (Byte.eqb l x00) eqn:?;
      [ exfalso; apply H; now apply Byte.byte_dec_bl |]
  end.
  destruct (Byte.eqb b1 x00), (Byte.eqb b2 x00), (Byte.eqb b3 x00), (Byte.eqb b4 x00);
    cbn [bytes_eqb]; rewrite ?andb_false_r; try discriminate;
    intros H; repeat (apply andb_prop in H; destruct H as [? H]);
    repeat match goal with H : Byte.eqb _ _ = true |- _ =>
      apply Byte.byte_dec_bl in H end; subst; try reflexivity.
Qed.


Lemma GetTextureFormat_cases (h : DDSHeader.t) :
  length (PixelFormat.fourCC (DDSHeader.pixelFormat h)) = 4%nat ->
  (PixelFormat.fourCC (DDSHeader.pixelFormat h) = DXT1
     /\ GetTextureFormat h = DXGI_FORMAT_BC1_UNORM)
  \/ (PixelFormat.fourCC (DDSHeader.pixelFormat h) = DXT3
     /\ GetTextureFormat h = DXGI_FORMAT_BC2_UNORM)
  \/ (PixelFormat.fourCC (DDSHeader.pixelFormat h) = DXT5
     /\ GetTextureFormat h = DXGI_FORMAT_BC3_UNORM)
  \/ GetTextureFormat h = DXGI_FORMAT_UNKNOWN.
Proof.
  intros Hlen. unfold GetTextureFormat.
  assert (Hnz : forall lit, In lit [DXT1; DXT3; DXT5] ->
            fourCC_is h lit = true ->
            PixelFormat.fourCC (DDSHeader.pixelFormat h) = lit).
  { intros lit Hin H. apply cstr_fourCC; auto.
    - cbn in Hin. intuition (subst; reflexivity).
    - cbn in Hin. intuition (subst; repeat constructor; discriminate). }
  destruct (fourCC_is h DXT1) eqn:E1.
  { left. split; [apply Hnz; cbn; auto | reflexivity]. }
  cbn [andb].
  destruct (fourCC_is h DXT3) eqn:E3.
  { right; left. split; [apply Hnz; cbn; auto | reflexivity]. }
  destruct (fourCC_is h DXT5) eqn:E5.
  { right; right; left. split; [apply Hnz; cbn; auto | reflexivity]. }
  now right; right; right.
Qed.

Lemma HaveDXT10Header_unknown (h : DDSHeader.t) :
  length (PixelFormat.fourCC (DDSHeader.pixelFormat h)) = 4%nat ->
  HaveDXT10Header h = true -> GetTextureFormat h = DXGI_FORMAT_UNKNOWN.
Proof.
  intros Hlen H. unfold HaveDXT10Header in H.
  destruct (has_flag _ _); [|discriminate].
  assert (H10 : PixelFormat.fourCC (DDSHeader.pixelFormat h) = DX10).
  { apply cstr_fourCC;
      [exact Hlen | reflexivity | repeat constructor; discriminate | exact H]. }
  destruct (GetTextureFormat_cases h Hlen) as [[E _]|[[E _]|[[E _]|E]]];
    try exact E; rewrite H10 in E; discriminate.
Qed.

Lemma length_fourCC (hdr : list byte) :
  length hdr = sizeof_DDSHeader ->
  length (PixelFormat.fourCC (DDSHeader.pixelFormat (read_DDSHeader hdr))) = 4%nat.
Proof.
  intros H. cbn [read_DDSHeader DDSHeader.pixelFormat PixelFormat.fourCC].
  rewrite length_take, length_drop, H. reflexivity.
Qed.


Lemma header_field (off : nat) (bytes : list byte) :
  (off + 4 <= 124)%nat ->
  u32_at off (take sizeof_DDSHeader (drop 4 bytes)) = u32_at (4 + off) bytes.
Proof.
  intros H. unfold u32_at, sizeof_DDSHeader.
  rewrite take_drop_header by exact H. reflexivity.
Qed.

Lemma header_fourCC (bytes : list byte) :
  PixelFormat.fourCC (DDSHeader.pixelFormat (DDS_header_of bytes))
  = take 4 (drop 84 bytes).
Proof.
  unfold DDS_header_of, read_DDSHeader, sizeof_DDSHeader.
  cbn [DDSHeader.pixelFormat PixelFormat.fourCC].
  rewrite take_drop_header by (cbn; lia). reflexivity.
Qed.

Lemma LoadDDS_inv (bytes : list byte) (d d' : TextureDesc.t) :
  LoadDDS (Some bytes) d = (true, d') ->
  let h := DDS_header_of bytes in
  let n := DDS_dataSize h (length (drop 128 bytes)) in
  length (take 4 bytes) = 4%nat
  /\ le32 (take 4 bytes) = DDSSignature
  /\ length (take sizeof_DDSHeader (drop 4 bytes)) = sizeof_DDSHeader
  /\ DDSHeader.size h = 124
  /\ HaveDXT10Header h = false
  /\ ValidateFlags h = true
  /\ GetTextureFormat h <> DXGI_FORMAT_UNKNOWN
  /\ Z.of_nat (length (take (Z.to_nat n) (drop 128 bytes))) = n
  /\ d' = loaded_desc h (Some (take (Z.to_nat n) (drop 128 bytes))).
Proof.
  unfold LoadDDS, fread. fold (DDS_header_of bytes).
  destruct (negb (length (take 4 bytes) =? 4)%nat) eqn:Esig; [discriminate|].
  destruct (negb (le32 (take 4 bytes) =? DDSSignature)) eqn:Eval; [discriminate|].
  cbn [orb].
  apply negb_false_iff, Nat.eqb_eq in Esig.
  apply negb_false_iff, Z.eqb_eq in Eval.
  destruct (negb (length (take sizeof_DDSHeader (drop 4 bytes)) =? sizeof_DDSHeader)%nat)
    eqn:Ehl; [discriminate|].
  apply negb_false_iff, Nat.eqb_eq in Ehl.
  destruct (negb (Z.of_nat (length (take sizeof_DDSHeader (drop 4 bytes)))
                  =? DDSHeader.size (DDS_header_of bytes)))
    eqn:Ehs; [discriminate|].
  apply negb_false_iff, Z.eqb_eq in Ehs. rewrite Ehl in Ehs.
  cbn [orb].
  pose proof (length_fourCC _ Ehl) as Hcc. fold (DDS_header_of bytes) in Hcc.
  destruct (HaveDXT10Header (DDS_header_of bytes)) eqn:E10.
  { apply HaveDXT10Header_unknown in E10; [|exact Hcc].
    destruct (negb (length _ =? _)%nat); [discriminate|].
    destruct (negb (ValidateFlags _)); [discriminate|].
    cbn [TextureDesc.fmt]. rewrite E10. discriminate. }
  destruct (negb (ValidateFlags (DDS_header_of bytes))) eqn:Evf; [discriminate|].
  apply negb_false_iff in Evf.
  cbn [TextureDesc.fmt TextureDesc.pitch TextureDesc.mipmapsCount
       TextureDesc.width TextureDesc.height TextureDesc.pData].
  rewrite drop_drop. change (4 + sizeof_DDSHeader)%nat with 128%nat.
  intros H.
  set (h := DDS_header_of bytes) in *.
  set (n := DDS_dataSize h (length (drop 128 bytes))) in *.
  assert (Hfmt : GetTextureFormat h <> DXGI_FORMAT_UNKNOWN).
  { intros E. rewrite E in H. discriminate. }
  assert (H' : (if negb (Z.of_nat (length (take (Z.to_nat n) (drop 128 bytes))) =? n)
                then (false, loaded_desc h None)
                else (true, loaded_desc h (Some (take (Z.to_nat n) (drop 128 bytes)))))
               = (true, d')).
  { rewrite <- H. unfold loaded_desc. destruct (GetTextureFormat h); congruence. }
  destruct (negb (Z.of_nat (length (take (Z.to_nat n) (drop 128 bytes))) =? n))
    eqn:Elen; [discriminate|].
  apply negb_false_iff, Z.eqb_eq in Elen.
  injection H' as <-. symmetry in Ehs. auto 10.
Qed.

(** X1: when [LoadDDS] returns true, the file starts with "DDS ", its
    header says 124 bytes and carries the four required flags, the
    fourCC is DXT1, DXT3 or DXT5 and the format BC1, BC2 or BC3 with 8,
    16 or 16 bytes per block (so [GetBytesPerBlock] never asserts on
    it), the width and height are those of the header, and the block
    is the bytes of the file from offset 128 on, as many as the header
    asks for. *)
Theorem LoadDDS_success_is_sound (bytes : list byte) (d d' : TextureDesc.t) :
  LoadDDS (Some bytes) d = (true, d') ->
  take 4 bytes = DDS_magic
  /\ u32_at 4 bytes = 124
  /\ ValidateFlags (DDS_header_of bytes) = true
  /\ ((take 4 (drop 84 bytes) = DXT1 /\ TextureDesc.fmt d' = DXGI_FORMAT_BC1_UNORM
       /\ GetBytesPerBlock (TextureDesc.fmt d') = Some 8)
      \/ (take 4 (drop 84 bytes) = DXT3 /\ TextureDesc.fmt d' = DXGI_FORMAT_BC2_UNORM
          /\ GetBytesPerBlock (TextureDesc.fmt d') = Some 16)
      \/ (take 4 (drop 84 bytes) = DXT5 /\ TextureDesc.fmt d' = DXGI_FORMAT_BC3_UNORM
          /\ GetBytesPerBlock (TextureDesc.fmt d') = Some 16))
  /\ TextureDesc.height d' = u32_at 12 bytes
  /\ TextureDesc.width d' = u32_at 16 bytes
  /\ exists data,
       TextureDesc.pData d' = Some data
       /\ data = take (length data) (drop 128 bytes)
       /\ Z.of_nat (length data)
          = DDS_dataSize (DDS_header_of bytes) (length (drop 128 bytes)).
Proof.
  intros H. apply LoadDDS_inv in H. cbv zeta in H.
  destruct H as (Hsl & Hsig & Hhl & Hsize & _ & Hvf & Hfmt & Hlen & ->).
  split; [now apply le32_signature|].
  split.
  { rewrite <- Hsize. unfold DDS_header_of, read_DDSHeader. cbn [DDSHeader.size].
    rewrite header_field by (cbn; lia). reflexivity. }
  split; [exact Hvf|].
  split.
  { cbn [loaded_desc TextureDesc.fmt]. rewrite <- header_fourCC.
    pose proof (length_fourCC _ Hhl) as Hcc. fold (DDS_header_of bytes) in Hcc.
    destruct (GetTextureFormat_cases _ Hcc) as [[E F]|[[E F]|[[E F]|F]]];
      [left | right; left | right; right | contradiction];
      rewrite F; auto. }
  unfold loaded_desc. cbn [TextureDesc.height TextureDesc.width TextureDesc.pData].
  split.
  { unfold DDS_header_of, read_DDSHeader. cbn [DDSHeader.height].
    rewrite header_field by (cbn; lia). reflexivity. }
  split.
  { unfold DDS_header_of, read_DDSHeader. cbn [DDSHeader.width].
    rewrite header_field by (cbn; lia). reflexivity. }
  eexists. split; [reflexivity|]. split; [|exact Hlen].
  f_equal. lia.
Qed.

Lemma LoadDDS_success_is_sound_witness :
  take 4 example_dds = DDS_magic
  /\ TextureDesc.fmt (snd (LoadDDS (Some example_dds) TextureDesc_default))
     = DXGI_FORMAT_BC3_UNORM
  /\ TextureDesc.pData (snd (LoadDDS (Some example_dds) TextureDesc_default))
     = Some (replicate 80 xff).
Proof.
  pose proof (LoadDDS_success_is_sound example_dds TextureDesc_default
                (snd (LoadDDS (Some example_dds) TextureDesc_default))
                eq_refl) as H.
  split; [exact (proj1 H)|]. vm_compute. split; reflexivity.
Defined.

(** X2: a file that announces the DX10 extension header is read past
    that header and then always refused. *)
Theorem LoadDDS_refuses_DX10 (bytes : list byte) (d : TextureDesc.t) :
  HaveDXT10Header (DDS_header_of bytes) = true ->
  fst (LoadDDS (Some bytes) d) = false.
Proof.
  intros H10. destruct (LoadDDS (Some bytes) d) as [[|] d'] eqn:E; [|reflexivity].
  apply LoadDDS_inv in E. destruct E as (_ & _ & _ & _ & E & _). congruence.
Qed.

Lemma LoadDDS_refuses_DX10_witness :
  fst (LoadDDS (Some example_dds_DX10) TextureDesc_default) = false.
Proof.
  apply (LoadDDS_refuses_DX10 example_dds_DX10 TextureDesc_default).
  vm_compute. reflexivity.
Defined.

(** X3: for a caller that passes a description whose block is null,
    the block is there afterwards exactly when [LoadDDS] returned true:
    a failed load hands back no memory. *)
Theorem LoadDDS_block_iff_success (file : option (list byte)) (d : TextureDesc.t) :
  TextureDesc.pData d = None ->
  (fst (LoadDDS file d) = true <->
   TextureDesc.pData (snd (LoadDDS file d)) <> None).
Proof.
  intros Hd. destruct file as [bytes|]; [|cbn; rewrite Hd; split; congruence].
  destruct (LoadDDS (Some bytes) d) as [[|] d'] eqn:E.
  - apply LoadDDS_inv in E. destruct E as (_ & _ & _ & _ & _ & _ & _ & _ & ->).
    cbn. split; congruence.
  - cbn [fst snd]. split; [discriminate|]. intros H. exfalso. apply H. clear H.
    revert E. unfold LoadDDS, fread.
    repeat match goal with
    | |- context [if ?c then _ else _] =>
        lazymatch c with
        | context [if _ then _ else _] => fail
        | _ => destruct c
        end
    | |- context [match ?c with DXGI_FORMAT_UNKNOWN => _ | _ => _ end] => destruct c
    | |- (let '(_, _) := ?p in _) = _ -> _ => destruct p
    end; cbn [TextureDesc.pData];
    intros [= <-]; cbn [TextureDesc.pData]; auto.
Qed.

Lemma LoadDDS_block_iff_success_witness :
  fst (LoadDDS (Some example_dds) TextureDesc_default) = true <->
  TextureDesc.pData (snd (LoadDDS (Some example_dds) TextureDesc_default)) <> None.
Proof.
  apply (LoadDDS_block_iff_success (Some example_dds) TextureDesc_default).
  reflexivity.
Defined.

Lemma LoadDDS_valid_header (hdr rest : list byte) (d : TextureDesc.t) :
  length hdr = sizeof_DDSHeader ->
  DDSHeader.size (read_DDSHeader hdr) = 124 ->
  ValidateFlags (read_DDSHeader hdr) = true ->
  GetTextureFormat (read_DDSHeader hdr) <> DXGI_FORMAT_UNKNOWN ->
  let n := DDS_dataSize (read_DDSHeader hdr) (length rest) in
  LoadDDS (Some (DDS_magic ++ hdr ++ rest)) d =
  if Z.of_nat (length (take (Z.to_nat n) rest)) =? n
  then (true, loaded_desc (read_DDSHeader hdr) (Some (take (Z.to_nat n) rest)))
  else (false, loaded_desc (read_DDSHeader hdr) None).
Proof.
  intros Hlen Hsize Hvf Hfmt n.
  unfold LoadDDS, fread.
  change (take 4 (DDS_magic ++ hdr ++ rest)) with DDS_magic.
  change (drop 4 (DDS_magic ++ hdr ++ rest)) with (hdr ++ rest).
  change (negb (length DDS_magic =? 4)%nat || negb (le32 DDS_magic =? DDSSignature))
    with false. cbv iota.
  assert (Ht : take sizeof_DDSHeader (hdr ++ rest) = hdr)
    by (rewrite <- Hlen; apply take_app_length).
  assert (Hd : drop sizeof_DDSHeader (hdr ++ rest) = rest)
    by (rewrite <- Hlen; apply drop_app_length).
  rewrite Ht, Hd, Hlen, Hsize. cbn [negb orb Nat.eqb sizeof_DDSHeader].
  change (Z.of_nat 124 =? 124) with true. cbn [negb orb].
  destruct (HaveDXT10Header (read_DDSHeader hdr)) eqn:E10.
  { exfalso. apply Hfmt. apply HaveDXT10Header_unknown; [|exact E10].
    now apply length_fourCC. }
  rewrite Hvf. cbn [negb].
  cbn [TextureDesc.fmt TextureDesc.pitch TextureDesc.mipmapsCount
       TextureDesc.width TextureDesc.height TextureDesc.pData].
  fold n. unfold loaded_desc.
  destruct (GetTextureFormat (read_DDSHeader hdr)); try contradiction;
    destruct (Z.of_nat (length (take (Z.to_nat n) rest)) =? n); reflexivity.
Qed.

(** X4: when the header gives no linear size (the flag is off or the
    field is 0) and is otherwise accepted, [LoadDDS] succeeds and the
    block is exactly the bytes that follow the header, with the format,
    width and height of the header. *)
Theorem LoadDDS_returns_the_rest_of_the_file
    (hdr data : list byte) (d : TextureDesc.t) :
  length hdr = sizeof_DDSHeader ->
  DDSHeader.size (read_DDSHeader hdr) = 124 ->
  ValidateFlags (read_DDSHeader hdr) = true ->
  GetTextureFormat (read_DDSHeader hdr) <> DXGI_FORMAT_UNKNOWN ->
  has_flag (DDSHeader.flags (read_DDSHeader hdr)) DDSD_LINEARSIZE = false
    \/ DDSHeader.pitchOrLinearSize (read_DDSHeader hdr) = 0 ->
  Z.of_nat (length data) < 2 ^ 32 ->
  let r := LoadDDS (Some (DDS_magic ++ hdr ++ data)) d in
  fst r = true
  /\ TextureDesc.pData (snd r) = Some data
  /\ TextureDesc.fmt (snd r) = GetTextureFormat (read_DDSHeader hdr)
  /\ TextureDesc.width (snd r) = DDSHeader.width (read_DDSHeader hdr)
  /\ TextureDesc.height (snd r) = DDSHeader.height (read_DDSHeader hdr).
Proof.
  intros Hlen Hsize Hvf Hfmt Hlin Hdata r. subst r.
  rewrite LoadDDS_valid_header by assumption.
  assert (Hn : DDS_dataSize (read_DDSHeader hdr) (length data)
               = Z.of_nat (length data)).
  { unfold DDS_dataSize.
    assert ((if has_flag (DDSHeader.flags (read_DDSHeader hdr)) DDSD_LINEARSIZE
             then DDSHeader.pitchOrLinearSize (read_DDSHeader hdr) else 0) = 0) as ->.
    { destruct Hlin as [-> | ->]; [reflexivity | now destruct (has_flag _ _)]. }
    cbn. unfold UINT_wrap. apply Z.mod_small. lia. }
  rewrite Hn, Nat2Z.id, firstn_all, Z.eqb_refl. cbn. auto.
Qed.

Lemma LoadDDS_returns_the_rest_of_the_file_witness :
  TextureDesc.pData
    (snd (LoadDDS (Some (DDS_magic ++ example_header_plain ++ replicate 8 x2a))
            TextureDesc_default))
  = Some (replicate 8 x2a).
Proof.
  refine (proj1 (proj2 (LoadDDS_returns_the_rest_of_the_file
                          example_header_plain (replicate 8 x2a)
                          TextureDesc_default _ _ _ _ _ _))).
  - reflexivity.
  - reflexivity.
  - reflexivity.
  - vm_compute. discriminate.
  - left. reflexivity.
  - vm_compute. reflexivity.
Defined.

(** *** The mip chain *)

Lemma mip_table_offsets (levels : nat) :
  forall bpb off bw bh pitch,
  Forall (fun e => off <= fst e <= snd (mip_table levels bpb off bw bh pitch))
    (fst (mip_table levels bpb off bw bh pitch))
  /\ off <= snd (mip_table levels bpb off bw bh pitch).
Proof.
  induction levels as [|n IH]; intros bpb off bw bh pitch; cbn [mip_table].
  - cbn. split; [constructor | lia].
  - set (off' := off + UINT_wrap (pitch * bh)).
    set (bh' := Z.max 1 (bh / 2)). set (bw' := Z.max 1 (bw / 2)).
    set (pitch' := UINT_wrap (bw' * bpb)).
    specialize (IH bpb off' bw' bh' pitch').
    destruct (mip_table n bpb off' bw' bh' pitch') as [table pEnd].
    cbn [fst snd] in *. destruct IH as [IH Hle].
    assert (0 <= UINT_wrap (pitch * bh)) by (unfold UINT_wrap; apply Z.mod_pos_bound; lia).
    split; [|lia]. constructor; [cbn; lia|].
    eapply Forall_impl; [exact IH|]. cbn. intros e He. lia.
Qed.

Lemma pow2_pos (k : nat) : 1 <= 2 ^ Z.of_nat k.
Proof. pose proof (Z.pow_pos_nonneg 2 (Z.of_nat k)). lia. Qed.

Lemma pow2_S (k : nat) : 2 ^ Z.of_nat (Datatypes.S k) = 2 * 2 ^ Z.of_nat k.
Proof. rewrite Nat2Z.inj_succ, Z.pow_succ_r by lia. reflexivity. Qed.

Lemma pow2_le (a b : nat) : (a <= b)%nat -> 2 ^ Z.of_nat a <= 2 ^ Z.of_nat b.
Proof. intros H. apply Z.pow_le_mono_r; lia. Qed.

(** From a level of [2^k] x [2^k] blocks of 16 bytes on, the loader's sum
    and the table of InitScene advance by the same amount. *)
Lemma whole_size_mip_table (m : nat) :
  forall (k : nat) (D off : Z),
  0 <= D ->
  D + 32 * (2 ^ Z.of_nat k * 2 ^ Z.of_nat k) + 16 * Z.of_nat m < 2 ^ 32 ->
  whole_size m D (16 * (2 ^ Z.of_nat k * 2 ^ Z.of_nat k)) - D
  = snd (mip_table m 16 off (2 ^ Z.of_nat k) (2 ^ Z.of_nat k)
           (16 * 2 ^ Z.of_nat k)) - off.
Proof.
  induction m as [|m IH]; intros k D off HD Hb; cbn [whole_size mip_table].
  - cbn. lia.
  - pose proof (pow2_pos k) as Hk.
    set (p := 2 ^ Z.of_nat k) in *.
    assert (Hpp : p <= p * p) by nia.
    assert (HwD : UINT_wrap (D + 16 * (p * p)) = D + 16 * (p * p)).
    { unfold UINT_wrap. apply Z.mod_small. nia. }
    assert (Hwo : UINT_wrap (16 * p * p) = 16 * (p * p)).
    { unfold UINT_wrap. rewrite Z.mod_small by nia. ring. }
    rewrite HwD, Hwo.
    assert (Hnext : exists k' : nat,
              let q := 2 ^ Z.of_nat k' in
              Z.max 16 (16 * (p * p) / 4) = 16 * (q * q)
              /\ Z.max 1 (p / 2) = q
              /\ UINT_wrap (q * 16) = 16 * q
              /\ 16 * (p * p) + 32 * (q * q) <= 32 * (p * p) + 16).
    { destruct k as [|k'].
      - exists 0%nat. subst p. cbn. repeat split; lia.
      - exists k'. cbv zeta.
        pose proof (pow2_pos k') as Hk'.
        assert (Hp : p = 2 * 2 ^ Z.of_nat k') by (subst p; apply pow2_S).
        set (q := 2 ^ Z.of_nat k') in *.
        assert (Hq : q <= q * q) by nia.
        split; [|split; [|split]].
        + replace (16 * (p * p)) with ((16 * (q * q)) * 4) by (rewrite Hp; ring).
          rewrite Z.div_mul by lia. nia.
        + rewrite Hp, (Z.mul_comm 2 q), Z.div_mul by lia. lia.
        + unfold UINT_wrap. rewrite Z.mod_small by nia. ring.
        + nia. }
    destruct Hnext as (k' & E1 & E2 & E3 & Hb').
    rewrite E1, E2, E3.
    specialize (IH k' (D + 16 * (p * p)) (off + 16 * (p * p))).
    destruct (mip_table m 16 _ _ _ _) as [table pEnd].
    cbn [snd] in *. cbv zeta in Hb'.
    assert (IH' := IH ltac:(nia) ltac:(nia)). lia.
Qed.

Lemma DivUp32_4_pow2 (p : Z) : 0 <= p < 2 ^ 29 -> DivUp32 (4 * p) 4 = p.
Proof.
  intros H. unfold DivUp32, UINT_wrap. rewrite Z.mod_small by lia.
  replace (4 * p + 4 - 1) with (3 + p * 4) by ring.
  rewrite Z.div_add by lia. reflexivity.
Qed.

(** X5: [LoadDDS] (5.Textures/DDS.cpp) against the "Load texture"
    block of [InitScene].  For a square power-of-two texture of at
    least 8 x 8 pixels in a 16-byte block format whose header gives the
    top level's size and the mip count, the levels [InitScene] hands to
    Direct3D start inside the loaded block and end exactly where it
    ends. *)
Theorem loaded_mip_chain_fills_the_block
    (bytes : list byte) (d d' : TextureDesc.t) (data : list byte) (j : nat) :
  LoadDDS (Some bytes) d = (true, d') ->
  TextureDesc.pData d' = Some data ->
  GetBytesPerBlock (TextureDesc.fmt d') = Some 16 ->
  has_flag (DDSHeader.flags (DDS_header_of bytes)) DDSD_LINEARSIZE = true ->
  has_flag (DDSHeader.flags (DDS_header_of bytes)) DDSD_MIPMAPCOUNT = true ->
  (1 <= j <= 12)%nat ->
  DDSHeader.width (DDS_header_of bytes) = 4 * 2 ^ Z.of_nat j ->
  DDSHeader.height (DDS_header_of bytes) = 4 * 2 ^ Z.of_nat j ->
  DDSHeader.pitchOrLinearSize (DDS_header_of bytes)
  = 16 * (2 ^ Z.of_nat j * 2 ^ Z.of_nat j) ->
  1 <= DDSHeader.mipMapCount (DDS_header_of bytes) <= Z.of_nat j + 3 ->
  snd (texture_subresources d') = Z.of_nat (length data)
  /\ Forall (fun e => 0 <= fst e <= Z.of_nat (length data))
       (fst (texture_subresources d')).
Proof.
  intros Hload Hdata Hbpb Hlin Hmip Hj Hw Hh Htop Hcount.
  apply LoadDDS_inv in Hload.
  destruct Hload as (_ & _ & _ & _ & _ & _ & _ & Hlen & ->).
  set (h := DDS_header_of bytes) in *.
  cbn [loaded_desc TextureDesc.pData TextureDesc.fmt] in Hdata, Hbpb.
  injection Hdata as <-.
  assert (Hend : snd (texture_subresources
                        (loaded_desc h (Some (take (Z.to_nat
                           (DDS_dataSize h (length (drop 128 bytes))))
                           (drop 128 bytes)))))
                 = DDS_dataSize h (length (drop 128 bytes))).
  { unfold texture_subresources, loaded_desc.
    cbn [TextureDesc.fmt TextureDesc.width TextureDesc.height
         TextureDesc.mipmapsCount].
    rewrite Hbpb, Hmip, Hw, Hh.
    destruct j as [|j']; [lia|].
    pose proof (pow2_pos j') as Hq. pose proof (pow2_le j' 11 ltac:(lia)) as Hq'.
    change (2 ^ Z.of_nat 11) with 2048 in Hq'.
    rewrite pow2_S in *. set (q := 2 ^ Z.of_nat j') in *.
    rewrite DivUp32_4_pow2 by lia.
    unfold DDS_dataSize. rewrite Hlin, Htop.
    assert ((16 * (2 * q * (2 * q)) =? 0) = false) as -> by (apply Z.eqb_neq; nia).
    replace (Z.to_nat (DDSHeader.mipMapCount h))
      with (Datatypes.S (Z.to_nat (DDSHeader.mipMapCount h - 1))) by lia.
    cbn [mip_table].
    assert (E0 : UINT_wrap (2 * q * 16) = 16 * (2 * q)).
    { unfold UINT_wrap. rewrite Z.mod_small by lia. ring. }
    assert (E1 : UINT_wrap (16 * (2 * q) * (2 * q)) = 16 * (2 * q * (2 * q))).
    { unfold UINT_wrap. rewrite Z.mod_small by nia. ring. }
    assert (E2 : Z.max 1 (2 * q / 2) = q).
    { rewrite (Z.mul_comm 2 q), Z.div_mul by lia. lia. }
    assert (E3 : UINT_wrap (q * 16) = 16 * q).
    { unfold UINT_wrap. rewrite Z.mod_small by lia. ring. }
    assert (E4 : 16 * (2 * q * (2 * q)) / 4 = 16 * (q * q)).
    { replace (16 * (2 * q * (2 * q))) with (16 * (q * q) * 4) by ring.
      apply Z.div_mul. lia. }
    rewrite E0, E1, E2, E3, E4. cbn [Z.add].
    pose proof (whole_size_mip_table
                  (Z.to_nat (DDSHeader.mipMapCount h - 1)) j'
                  (16 * (2 * q * (2 * q))) (16 * (2 * q * (2 * q)))
                  ltac:(nia) ltac:(fold q; nia)) as Hagree.
    fold q in Hagree.
    destruct (mip_table _ 16 _ q q (16 * q)) as [table pEnd].
    cbn [snd] in *. lia. }
  split; [rewrite Hend; symmetry; exact Hlen|].
  pose proof (mip_table_offsets) as Hoff.
  unfold texture_subresources in Hend |- *.
  match goal with |- context [mip_table ?l ?b ?o ?w ?hh ?p] =>
    specialize (Hoff l b o w hh p) end.
  destruct Hoff as [Hoff _].
  match type of Hend with snd ?t = _ => rewrite Hend in Hoff end.
  rewrite <- Hlen in Hoff. exact Hoff.
Qed.

Lemma loaded_mip_chain_fills_the_block_witness :
  snd (texture_subresources (snd (LoadDDS (Some example_dds) TextureDesc_default)))
  = 80.
Proof.
  refine (proj1 (loaded_mip_chain_fills_the_block example_dds TextureDesc_default
                   (snd (LoadDDS (Some example_dds) TextureDesc_default))
                   (replicate 80 xff) 1 _ _ _ _ _ _ _ _ _ _)).
  all: try (vm_compute; reflexivity).
  - lia.
  - vm_compute. split; discriminate.
Defined.

(* ================================================================= *)
(** ** Small helpers of framework.h *)

Lemma rfind_None (c : ascii) (s : string) :
  rfind c s = None -> forall stem rest, s <> (stem ++ String c rest)%string.
Proof.
  induction s as [|a s IH]; intros H stem rest E.
  - destruct stem; discriminate.
  - cbn in H. destruct (rfind c s) eqn:Er; [discriminate|].
    destruct (Ascii.eqb a c) eqn:Ea; [discriminate|].
    destruct stem as [|b stem]; cbn in E; injection E as -> E.
    + rewrite Ascii.eqb_refl in Ea. discriminate.
    + exact (IH eq_refl stem rest E).
Qed.

Lemma rfind_Some (c : ascii) (s : string) (i : nat) :
  rfind c s = Some i ->
  exists stem,
    String.length stem = i
    /\ s = (stem ++ String c (substr_from (i + 1) s))%string
    /\ rfind c (substr_from (i + 1) s) = None.
Proof.
  revert i. induction s as [|a s IH]; intros i H; [discriminate|].
  cbn in H. destruct (rfind c s) as [j|] eqn:Er.
  - injection H as <-. destruct (IH j eq_refl) as (stem & Hl & Hs & Hn).
    exists (String a stem). cbn. rewrite Hl. split; [reflexivity|].
    split; [now rewrite <- Hs | exact Hn].
  - destruct (Ascii.eqb a c) eqn:Ea; [|discriminate].
    injection H as <-. apply Ascii.eqb_eq in Ea. subst a.
    exists EmptyString. cbn. auto.
Qed.

(** X7: [Extension] returns what follows the last dot of the whole
    path (a dot in a directory name counts), and the empty string when
    the path has no dot. *)
Theorem Extension_is_what_follows_the_last_dot (filename : string) :
  (Extension filename = EmptyString
   /\ forall stem rest, filename <> (stem ++ String "." rest)%string)
  \/ (exists stem,
        filename = (stem ++ String "." (Extension filename))%string
        /\ forall stem' rest,
             Extension filename <> (stem' ++ String "." rest)%string).
Proof.
  unfold Extension. destruct (rfind "." filename) as [i|] eqn:E.
  - right. destruct (rfind_Some _ _ _ E) as (stem & _ & Hs & Hn).
    exists stem. split; [exact Hs|]. now apply rfind_None.
  - left. split; [reflexivity|]. now apply rfind_None.
Qed.

(** X8: [DivUp] on [UINT32] is the quotient rounded up as long as
    [a + b - 1] fits in 32 bits; when it wraps, the result is too small
    to cover [a]. *)
Theorem DivUp32_rounds_up_unless_it_wraps (a b : Z) :
  0 <= a < 2 ^ 32 -> 0 < b < 2 ^ 32 ->
  (a + b - 1 < 2 ^ 32 ->
     b * (DivUp32 a b - 1) < a <= b * DivUp32 a b)
  /\ (2 ^ 32 <= a + b - 1 -> b * DivUp32 a b < a).
Proof.
  intros Ha Hb. unfold DivUp32, UINT_wrap. split; intros H.
  - rewrite Z.mod_small by lia.
    pose proof (Z.div_mod (a + b - 1) b ltac:(lia)) as Hdm.
    pose proof (Z.mod_pos_bound (a + b - 1) b ltac:(lia)) as Hm. nia.
  - replace (a + b - 1) with ((a + b - 1 - 2 ^ 32) + 1 * 2 ^ 32) by ring.
    rewrite Z.mod_add by lia. rewrite Z.mod_small by lia.
    pose proof (Z.mul_div_le (a + b - 1 - 2 ^ 32) b ltac:(lia)). lia.
Qed.

Lemma Extension_is_what_follows_the_last_dot_witness :
  exists stem, "../shaders/Cube.vs"%string
               = (stem ++ String "." (Extension "../shaders/Cube.vs"))%string.
Proof.
  destruct (Extension_is_what_follows_the_last_dot "../shaders/Cube.vs")
    as [[H _]|[stem [H _]]].
  - vm_compute in H. discriminate H.
  - exists stem. exact H.
Defined.

Lemma DivUp32_rounds_up_unless_it_wraps_witness :
  4 * (DivUp32 10 4 - 1) < 10 <= 4 * DivUp32 10 4.
Proof.
  apply (proj1 (DivUp32_rounds_up_unless_it_wraps 10 4 ltac:(lia) ltac:(lia))).
  lia.
Defined.

(* ================================================================= *)

Lemma length_fold_alter {A : Type} (f : nat -> A -> A) (idxs : list nat) :
  forall l : list A,
  length (fold_left (fun ls i => alter (f i) i ls) idxs l) = length l.
Proof.
  induction idxs as [|i idxs IH]; intros l; [reflexivity|].
  cbn. rewrite IH. apply length_alter.
Qed.

Lemma fold_alter_lookup_seq {A : Type} (f : nat -> A -> A) (n : nat) (l : list A)
    (i : nat) :
  fold_left (fun ls i => alter (f i) i ls) (seq 0 n) l !! i
  = if decide (i < n)%nat then f i <$> l !! i else l !! i.
Proof.
  revert l. induction n as [|n IH]; intros l.
  - cbn. destruct (decide (i < 0)%nat); [lia | reflexivity].
  - rewrite seq_S, fold_left_app. cbn [fold_left Nat.add].
    destruct (decide (i = n)) as [->|Hne].
    + rewrite list_lookup_alter_eq. rewrite IH.
      destruct (decide (n < n)%nat); [lia|].
      destruct (decide (n < Datatypes.S n)%nat); [reflexivity | lia].
    + rewrite list_lookup_alter_ne by congruence. rewrite IH.
      destruct (decide (i < n)%nat), (decide (i < Datatypes.S n)%nat);
        try lia; reflexivity.
Qed.

Lemma LightsUI_wf (add remove : bool) (widgets : nat -> LightWidgets)
    (sb : SceneBuffer.t) :
  lights_wf sb -> lights_wf (LightsUI add remove widgets sb).
Proof.
  intros [Hc Hl]. unfold LightsUI, lights_wf.
  destruct sb as [n ls]. cbn [SceneBuffer.lightCount_x SceneBuffer.lights] in *.
  destruct (add && (n <? 10)) eqn:Ea;
    cbn [SceneBuffer.lightCount_x SceneBuffer.lights];
    [apply andb_prop in Ea; destruct Ea as [_ Ea]; apply Z.ltb_lt in Ea|].
  - destruct (remove && (0 <? n + 1));
      cbn [SceneBuffer.lightCount_x SceneBuffer.lights];
      rewrite length_fold_alter, length_insert; lia.
  - destruct (remove && (0 <? n)) eqn:Er;
      cbn [SceneBuffer.lightCount_x SceneBuffer.lights];
      rewrite length_fold_alter;
      [apply andb_prop in Er; destruct Er as [_ Er]; apply Z.ltb_lt in Er|]; lia.
Qed.

(** X9: whatever is pressed in the "Lights" window, frame after frame,
    the count of lights stays between 0 and 10, so [Update] and
    [RenderSmallSpheres] index the ten lights and the ten bulb buffers
    inside the arrays; "+" with ten lights and "-" with none leave the
    count alone. *)
Theorem light_count_stays_within_the_array (sb : SceneBuffer.t) :
  lights_wf sb ->
  (forall frames,
     lights_wf (LightsUI_frames frames sb)
     /\ Forall (fun i => (i < 10)%nat) (bulb_indices (LightsUI_frames frames sb)))
  /\ (SceneBuffer.lightCount_x sb = 10 ->
      forall widgets,
        SceneBuffer.lightCount_x (LightsUI true false widgets sb) = 10)
  /\ (SceneBuffer.lightCount_x sb = 0 ->
      forall widgets, LightsUI false true widgets sb = sb).
Proof.
  intros Hwf. split; [|split].
  - intros frames.
    assert (H : lights_wf (LightsUI_frames frames sb)).
    { revert sb Hwf. induction frames as [|f frames IH]; intros sb Hwf; [exact Hwf|].
      cbn. apply IH. now apply LightsUI_wf. }
    split; [exact H|]. destruct H as [Hc _].
    unfold bulb_indices. apply Forall_forall. intros i Hi.
    apply elem_of_seq in Hi. lia.
  - intros H widgets. unfold LightsUI. rewrite H. cbn. exact H.
  - intros H widgets. unfold LightsUI. destruct sb as [n ls]. cbn in H. subst n.
    reflexivity.
Qed.

(** X10: a light that is added starts as the default light, whatever
    the slot held before, so taking a light away and adding it again
    resets its position and colour (the instances, in contrast, keep
    their records).  The lights above the count are left as they are. *)
Theorem added_light_is_reset (sb : SceneBuffer.t) (widgets : nat -> LightWidgets) :
  lights_wf sb -> SceneBuffer.lightCount_x sb < 10 ->
  let k := Z.to_nat (SceneBuffer.lightCount_x sb) in
  let sb' := LightsUI true false widgets sb in
  SceneBuffer.lightCount_x sb' = SceneBuffer.lightCount_x sb + 1
  /\ SceneBuffer.lights sb' !! k = Some (edit_light (widgets k) Light_default)
  /\ (forall i, (k < i)%nat ->
        SceneBuffer.lights sb' !! i = SceneBuffer.lights sb !! i)
  /\ (0 < SceneBuffer.lightCount_x sb ->
      SceneBuffer.lights
        (LightsUI true false idle_widgets (LightsUI false true idle_widgets sb))
        !! (k - 1)%nat
      = Some Light_default).
Proof.
  intros [Hc Hl] Hlt k sb'. subst sb'. destruct sb as [n ls].
  cbn [SceneBuffer.lightCount_x SceneBuffer.lights] in *. subst k.
  assert (Hn : (n <? 10) = true) by now apply Z.ltb_lt.
  split; [|split; [|split]].
  - unfold LightsUI. cbn [SceneBuffer.lightCount_x SceneBuffer.lights].
    rewrite Hn. reflexivity.
  - unfold LightsUI. cbn [SceneBuffer.lightCount_x SceneBuffer.lights].
    rewrite Hn. cbn [andb SceneBuffer.lightCount_x SceneBuffer.lights].
    rewrite fold_alter_lookup_seq.
    destruct (decide _) as [_|?]; [|lia].
    replace (n + 1 - 1) with n by lia.
    rewrite list_lookup_insert_eq by lia. reflexivity.
  - intros i Hi. unfold LightsUI.
    cbn [SceneBuffer.lightCount_x SceneBuffer.lights].
    rewrite Hn. cbn [andb SceneBuffer.lightCount_x SceneBuffer.lights].
    rewrite fold_alter_lookup_seq.
    destruct (decide _) as [?|_]; [lia|].
    replace (n + 1 - 1) with n by lia.
    apply list_lookup_insert_ne. lia.
  - intros Hpos.
    assert (E1 : LightsUI false true idle_widgets (SceneBuffer.mk n ls)
                 = SceneBuffer.mk (n - 1)
                     (fold_left (fun ls i => alter (edit_light (idle_widgets i)) i ls)
                        (seq 0 (Z.to_nat (n - 1))) ls)).
    { unfold LightsUI. cbn [SceneBuffer.lightCount_x SceneBuffer.lights andb].
      assert ((0 <? n) = true) as -> by now apply Z.ltb_lt. reflexivity. }
    rewrite E1. unfold LightsUI at 1.
    cbn [SceneBuffer.lightCount_x SceneBuffer.lights andb].
    assert ((n - 1 <? 10) = true) as -> by (apply Z.ltb_lt; lia).
    cbn [SceneBuffer.lightCount_x SceneBuffer.lights andb].
    rewrite fold_alter_lookup_seq.
    destruct (decide _) as [_|?]; [|lia].
    replace (n - 1 + 1 - 1) with (n - 1) by lia.
    replace (Z.to_nat (n - 1)) with (Z.to_nat n - 1)%nat by lia.
    rewrite list_lookup_insert_eq by (rewrite length_fold_alter; lia).
    reflexivity.
Qed.

Lemma light_count_stays_within_the_array_witness :
  lights_wf
    (LightsUI_frames (repeat (mkLightsFrame true false idle_widgets) 12)
       example_lights).
Proof.
  refine (proj1 (proj1 (light_count_stays_within_the_array example_lights _) _)).
  split; [cbn; lia | reflexivity].
Defined.

Lemma added_light_is_reset_witness :
  SceneBuffer.lights (LightsUI true false idle_widgets example_lights) !! 1%nat
  = Some Light_default.
Proof.
  refine (proj1 (proj2 (added_light_is_reset example_lights idle_widgets _ _))).
  - split; [cbn; lia | reflexivity].
  - cbn. lia.
Defined.

(* ================================================================= *)

Lemma held_insert (keys : list bool) (i : nat) (b : bool) (c : ascii) :
  (i < length keys)%nat ->
  held (<[i := b]> keys) c
  = if decide (i = Z.to_nat (chr c)) then (if b then 1 else 0) else held keys c.
Proof.
  intros Hi. unfold held. destruct (decide (i = Z.to_nat (chr c))) as [->|Hne].
  - rewrite list_lookup_insert_eq by exact Hi. reflexivity.
  - rewrite list_lookup_insert_ne by exact Hne. reflexivity.
Qed.

Lemma held_01 (keys : list bool) (c : ascii) : held keys c = 0 \/ held keys c = 1.
Proof. unfold held. destruct (keys !! _) as [[|]|]; auto. Qed.

Lemma held_lookup (keys : list bool) (c : ascii) (b : bool) :
  keys !! Z.to_nat (chr c) = Some b -> held keys c = if b then 1 else 0.
Proof. unfold held. now intros ->. Qed.

Lemma held_after (keys : list bool) (wParam : Z) (b : bool) (c : ascii) :
  (Z.to_nat wParam < length keys)%nat -> 0 < chr c ->
  held (<[Z.to_nat wParam := b]> keys) c
  = if wParam =? chr c then (if b then 1 else 0) else held keys c.
Proof.
  intros Hi Hc. rewrite held_insert by exact Hi.
  destruct (Z.eqb_spec wParam (chr c)) as [->|Hne].
  - destruct (decide _); [reflexivity | contradiction].
  - destruct (decide _) as [E|_]; [lia | reflexivity].
Qed.

Lemma SetupBackBuffer_untouched (a : ResizeAnswers) (s : Renderer) :
  untouched_by_resize s (snd (SetupBackBuffer a s)).
Proof.
  unfold SetupBackBuffer, untouched_by_resize.
  repeat match goal with
  | |- context [if ?b then _ else _] => destruct b
  end; repeat split; reflexivity.
Qed.

Lemma SAFE_RELEASE_untouched (s : Renderer) :
  untouched_by_resize s
    (SAFE_RELEASE_pDepthBufferDSV
       (SAFE_RELEASE_pDepthBuffer (SAFE_RELEASE_pBackBufferRTV s))).
Proof.
  unfold SAFE_RELEASE_pDepthBufferDSV, SAFE_RELEASE_pDepthBuffer,
    SAFE_RELEASE_pBackBufferRTV, untouched_by_resize.
  repeat match goal with
  | |- context [match ?o with Some _ => _ | None => _ end] => destruct o
  end; repeat split; reflexivity.
Qed.

Lemma Resize_untouched (width height : Z) (a : ResizeAnswers) (s : Renderer) :
  untouched_by_resize s (snd (Resize width height a s)).
Proof.
  unfold Resize.
  destruct (negb (width =? m_width s) || negb (height =? m_height s));
    [|repeat split; reflexivity].
  pose proof (SAFE_RELEASE_untouched s) as (R1 & R2 & R3 & R4).
  destruct (SUCCEEDED (hr_ResizeBuffers a)).
  - match goal with
    | |- context [SetupBackBuffer a ?t] =>
        pose proof (SetupBackBuffer_untouched a t) as (H1 & H2 & H3 & H4);
        destruct (SetupBackBuffer a t) as [r t']
    end.
    cbn [snd] in *. unfold untouched_by_resize.
    cbn [d3d set_size m_forwardDelta m_rightDelta m_camera m_rotateModel] in *.
    rewrite H1, H2, H3, H4. auto.
  - cbn [snd]. unfold untouched_by_resize.
    cbn [d3d m_forwardDelta m_rightDelta m_camera m_rotateModel]. auto.
Qed.

Ltac key_codes :=
  change (chr " ") with 32 in *; change (chr "W") with 87 in *;
  change (chr "w") with 119 in *; change (chr "S") with 83 in *;
  change (chr "s") with 115 in *; change (chr "D") with 68 in *;
  change (chr "d") with 100 in *; change (chr "A") with 65 in *;
  change (chr "a") with 97 in *.

Lemma key_message_agrees (keys : list bool) (wParam : Z) (down : bool)
    (r : Renderer) :
  length keys = 255%nat ->
  keys !! Z.to_nat wParam = Some (negb down) ->
  m_forwardDelta r = forward_of keys ->
  m_rightDelta r = right_of keys ->
  let r' := if down then KeyPressed wParam r else KeyReleased wParam r in
  m_forwardDelta r' = forward_of (<[Z.to_nat wParam := down]> keys)
  /\ m_rightDelta r' = right_of (<[Z.to_nat wParam := down]> keys).
Proof.
  intros Hlen Hlook Hf Hr r'. subst r'.
  assert (Hi : (Z.to_nat wParam < length keys)%nat).
  { apply lookup_lt_is_Some. eauto. }
  unfold forward_of, right_of.
  rewrite !held_after by (first [exact Hi | reflexivity]).
  assert (Hheld : forall c, wParam = chr c -> held keys c = if down then 0 else 1).
  { intros c ->. rewrite (held_lookup _ _ _ Hlook). now destruct down. }
  unfold KeyPressed, KeyReleased.
  repeat match goal with
  | |- context [wParam =? chr ?c] =>
      destruct (Z.eqb_spec wParam (chr c)) as [?E|?N];
      [ pose proof (Hheld c E) | ]
  end.
  all: clear Hheld; try subst wParam; key_codes; try lia.
  all: cbn [orb andb Z.eqb Pos.eqb]; destruct down;
    cbn [set_forwardDelta set_rightDelta set_rotateModel m_forwardDelta m_rightDelta];
    rewrite ?Hf, ?Hr; unfold forward_of, right_of.
  all: repeat match goal with H : held _ _ = _ |- _ => rewrite H in *; clear H end.
  all: split; try reflexivity.
  all: repeat match goal with
       | |- context [held ?k ?c] =>
           destruct (held_01 k c) as [?H|?H]; rewrite H in *; clear H
       end.
  all: vm_compute; reflexivity.
Qed.

Lemma MouseMoved_deltas (x y : Z) (ms : Mouse) (s : Renderer) :
  m_forwardDelta (snd (MouseMoved x y ms s)) = m_forwardDelta s
  /\ m_rightDelta (snd (MouseMoved x y ms s)) = m_rightDelta s.
Proof. unfold MouseMoved. destruct (m_rbPressed ms); split; reflexivity. Qed.

Lemma WndProc_keys_agree (w : Window) (message : Message) :
  keys_agree w -> keys_agree (WndProc w message).
Proof.
  intros (Hlen & r & ms & Hr & Hf & Hrt).
  destruct w as [pr keys]. cbn [pRenderer PressedKeys] in *. subst pr.
  destruct message as [width height a|x y|x y|x y|delta|wParam|wParam|];
    unfold WndProc, with_renderer; cbn [pRenderer PressedKeys option_map].
  - split; [exact Hlen|]. eexists _, _. split; [reflexivity|].
    destruct (Resize_untouched width height a r) as (H1 & H2 & _).
    rewrite H1, H2. auto.
  - split; [exact Hlen|]. eexists _, _. split; [reflexivity|]. auto.
  - split; [exact Hlen|]. eexists _, _. split; [reflexivity|]. auto.
  - split; [exact Hlen|].
    destruct (MouseMoved_deltas x y ms r) as [H1 H2].
    destruct (MouseMoved x y ms r) as [ms' r']. cbn [snd] in *.
    eexists _, _. split; [reflexivity|]. rewrite H1, H2. auto.
  - split; [exact Hlen|]. eexists _, _. split; [reflexivity|]. auto.
  - destruct (keys !! Z.to_nat wParam) as [[|]|] eqn:E;
      try (split; [exact Hlen|]; eexists _, _; split; [reflexivity|]; now auto).
    unfold keys_agree. cbn [pRenderer PressedKeys option_map].
    split; [now rewrite length_insert|]. eexists _, _. split; [reflexivity|].
    exact (key_message_agrees keys wParam true r Hlen E Hf Hrt).
  - destruct (keys !! Z.to_nat wParam) as [[|]|] eqn:E;
      try (split; [exact Hlen|]; eexists _, _; split; [reflexivity|]; now auto).
    unfold keys_agree. cbn [pRenderer PressedKeys option_map].
    split; [now rewrite length_insert|]. eexists _, _. split; [reflexivity|].
    exact (key_message_agrees keys wParam false r Hlen E Hf Hrt).
  - split; [exact Hlen|]. eexists _, _. split; [reflexivity|]. auto.
Qed.

(** X11: through any sequence of window messages the two pan speeds
    are those of the keys [PressedKeys] holds down: 2 for each of the
    codes 'W' and 'w' (those of 'S' and 's' count against), and likewise
    'D', 'd' against 'A', 'a'.  A repeated [WM_KEYDOWN] changes nothing,
    and with the eight keys up both speeds are 0. *)
Theorem pan_speed_follows_the_keys_held (w : Window) (messages : list Message) :
  keys_agree w ->
  keys_agree (dispatch messages w)
  /\ (forall k, PressedKeys w !! Z.to_nat k = Some true ->
        WndProc w (WM_KEYDOWN k) = w)
  /\ (Forall (fun c => held (PressedKeys (dispatch messages w)) c = 0)
        ["W"; "w"; "S"; "s"; "D"; "d"; "A"; "a"]%char ->
      exists r ms,
        pRenderer (dispatch messages w) = Some (r, ms)
        /\ m_forwardDelta r = S754_zero false
        /\ m_rightDelta r = S754_zero false).
Proof.
  intros Hw.
  assert (H : keys_agree (dispatch messages w)).
  { revert w Hw. induction messages as [|m messages IH]; intros w Hw; [exact Hw|].
    cbn. apply IH. now apply WndProc_keys_agree. }
  split; [exact H|]. split.
  - intros k Hk. cbn. now rewrite Hk.
  - intros Hup. destruct H as (_ & r & ms & Hr & Hf & Hrt).
    exists r, ms. split; [exact Hr|].
    rewrite Hf, Hrt. unfold forward_of, right_of.
    repeat match goal with H : Forall _ (_ :: _) |- _ =>
      inversion H as [|? ? ?E ?T]; clear H; subst end.
    repeat match goal with E : held _ _ = 0 |- _ => rewrite E; clear E end.
    split; reflexivity.
Qed.

Lemma pan_speed_follows_the_keys_held_witness :
  keys_agree
    (dispatch [WM_KEYDOWN (chr "W"); WM_KEYDOWN (chr "W"); WM_KEYDOWN (chr "A");
               WM_KEYUP (chr "W")]
       example_window).
Proof.
  refine (proj1 (pan_speed_follows_the_keys_held example_window _ _)).
  split; [reflexivity|]. eexists _, _. split; [reflexivity|].
  split; reflexivity.
Defined.

(* ================================================================= *)
(** ** Resizing again *)

Lemma SetupBackBuffer_GetBuffer_fails (a : ResizeAnswers) (s : Renderer) :
  SUCCEEDED (hr_GetBuffer a) = false ->
  SetupBackBuffer a s = (hr_GetBuffer a, d3d GetBuffer s).
Proof. intros H. unfold SetupBackBuffer. rewrite !H. reflexivity. Qed.

(** X14: once the swap chain has accepted a size, [Resize] records it
    before the views are rebuilt, so asking for the same size again
    does nothing and returns true, whatever Direct3D would answer now,
    even if [SetupBackBuffer] failed the first time and [Resize]
    returned false.  When it is [GetBuffer] that fails, the renderer is
    left without its three views. *)
Theorem Resize_does_not_retry_a_recorded_size
    (width height : Z) (a a' : ResizeAnswers) (s : Renderer) :
  SUCCEEDED (hr_ResizeBuffers a) = true ->
  let s' := snd (Resize width height a s) in
  Resize width height a' s' = (true, s')
  /\ (width <> m_width s \/ height <> m_height s ->
      SUCCEEDED (hr_GetBuffer a) = false ->
      fst (Resize width height a s) = false
      /\ m_pBackBufferRTV s' = None /\ m_pDepthBuffer s' = None
      /\ m_pDepthBufferDSV s' = None).
Proof.
  intros Hres s'. subst s'. split.
  - assert (Hsize : m_width (snd (Resize width height a s)) = width
                    /\ m_height (snd (Resize width height a s)) = height).
    { unfold Resize.
      destruct (negb (width =? m_width s) || negb (height =? m_height s)) eqn:Hc.
      - rewrite Hres.
        match goal with
        | |- context [SetupBackBuffer a ?t] =>
            destruct (SetupBackBuffer_spec a t) as (Hw & Hh & _);
            destruct (SetupBackBuffer a t) as [r t']
        end.
        cbn [fst snd d3d set_size m_width m_height] in *. auto.
      - apply orb_false_iff in Hc. destruct Hc as [Hw Hh].
        apply negb_false_iff, Z.eqb_eq in Hw, Hh. cbn [snd]. auto. }
    destruct Hsize as [Hw Hh].
    unfold Resize at 1. now rewrite Hw, Hh, !Z.eqb_refl.
  - intros Hnew Hget.
    assert (Hc : negb (width =? m_width s) || negb (height =? m_height s) = true).
    { apply orb_true_iff.
      destruct Hnew as [H|H]; [left|right]; apply negb_true_iff, Z.eqb_neq; exact H. }
    unfold Resize. rewrite Hc, Hres.
    rewrite SetupBackBuffer_GetBuffer_fails by exact Hget.
    destruct (releases_spec s) as (_ & Hrtv & Hdb & Hdsv & _).
    cbn [fst snd d3d set_size m_pBackBufferRTV m_pDepthBuffer m_pDepthBufferDSV].
    rewrite Hget. auto.
Qed.

Lemma Resize_does_not_retry_a_recorded_size_witness :
  fst (Resize 640 480 example_answers_failing example_scene) = false
  /\ Resize 640 480 example_answers
       (snd (Resize 640 480 example_answers_failing example_scene))
     = (true, snd (Resize 640 480 example_answers_failing example_scene)).
Proof.
  pose proof (Resize_does_not_retry_a_recorded_size 640 480
                example_answers_failing example_answers example_scene eq_refl)
    as [H1 H2].
  split; [|exact H1].
  apply H2; [left; vm_compute; discriminate | reflexivity].
Defined.

(* ================================================================= *)
(** ** InitScene when a step fails *)

Lemma guarded_fold_ok (hr : InitSceneCall -> HRESULT) (cs : list InitSceneCall)
    (r : HRESULT) :
  SUCCEEDED r = true -> Forall (fun c => SUCCEEDED (hr c) = true) cs ->
  SUCCEEDED (fold_left (guarded hr) cs r) = true.
Proof.
  revert r. induction cs as [|c cs IH]; intros r Hr Hcs; [exact Hr|].
  inversion Hcs as [|? ? Hc Hcs']; subst. cbn. apply IH; [|exact Hcs'].
  unfold guarded. now rewrite Hr.
Qed.

Lemma guarded_fold_first_failure (hr : InitSceneCall -> HRESULT)
    (pre post : list InitSceneCall) (c : InitSceneCall) (r : HRESULT) :
  SUCCEEDED r = true -> Forall (fun c => SUCCEEDED (hr c) = true) pre ->
  SUCCEEDED (hr c) = false ->
  fold_left (guarded hr) (pre ++ c :: post) r = hr c.
Proof.
  intros Hr Hpre Hc. rewrite fold_left_app. cbn [fold_left].
  pose proof (guarded_fold_ok hr pre r Hr Hpre) as Hok.
  unfold guarded at 2. rewrite Hok.
  now apply guarded_fold_failed.
Qed.

(** X15: with the assertions compiled out, [InitScene] returns the code
    of the first step that fails.  If that step is one of the ten before
    the instance store is filled, the store, the instance count and the
    position in the sequence of [rand()] are as they were (the resources
    the earlier steps have created by then are not part of this model);
    if it comes later, the store and the count are those a successful
    [InitScene] leaves, ten instances, although [InitScene] has
    failed. *)
Theorem InitScene_returns_the_first_failure
    {P : Platform} (hr : InitSceneCall -> HRESULT) (s : Renderer)
    (pre post : list InitSceneCall) (c : InitSceneCall) :
  Forall (fun c => SUCCEEDED (hr c) = true) pre ->
  SUCCEEDED (hr c) = false ->
  (InitScene_before = pre ++ c :: post ->
     fst (InitScene hr s) = hr c /\
     m_geomBuffers (snd (InitScene hr s)) = m_geomBuffers s /\
     m_instCount (snd (InitScene hr s)) = m_instCount s /\
     rand_calls (snd (InitScene hr s)) = rand_calls s)
  /\ (InitScene_after = pre ++ c :: post ->
      Forall (fun c => SUCCEEDED (hr c) = true) InitScene_before ->
      fst (InitScene hr s) = hr c /\
      m_geomBuffers (snd (InitScene hr s))
        = m_geomBuffers (snd (InitScene (fun _ => S_OK) s)) /\
      m_instCount (snd (InitScene hr s)) = 10 /\
      rand_calls (snd (InitScene hr s))
        = rand_calls (snd (InitScene (fun _ => S_OK) s))).
Proof.
  intros Hpre Hc. split.
  - intros E. unfold InitScene. rewrite E.
    rewrite (guarded_fold_first_failure hr pre post c S_OK eq_refl Hpre Hc).
    rewrite Hc. rewrite guarded_fold_failed by exact Hc.
    repeat split; reflexivity.
  - intros E Hbefore. unfold InitScene. rewrite E.
    pose proof (guarded_fold_ok hr InitScene_before S_OK eq_refl Hbefore) as Hok.
    rewrite Hok.
    rewrite (guarded_fold_first_failure hr pre post c _ Hok Hpre Hc).
    repeat split; reflexivity.
Qed.

(* ================================================================= *)
(** ** The sphere mesh *)

Ltac no_wrap :=
  unfold size_t_wrap, UINT16_wrap;
  repeat match goal with
  | |- context [?x mod ?m] => rewrite (Z.mod_small x m) by lia
  end.

Lemma CreateSphere_cell_writes (L M lat lon : Z) (arr : list Z) :
  0 <= L <= 255 -> 0 <= M <= 255 -> 0 <= lat < L -> 0 <= lon < M ->
  let b := Z.to_nat (6 * (lat * M + lon)) in
  CreateSphere_cell L M arr (lat, lon)
  = <[(b + 4)%nat := stored_index L lat lon 4]>
      (<[(b + 5)%nat := stored_index L lat lon 5]>
         (<[(b + 3)%nat := stored_index L lat lon 3]>
            (<[(b + 1)%nat := stored_index L lat lon 1]>
               (<[(b + 2)%nat := stored_index L lat lon 2]>
                  (<[(b + 0)%nat := stored_index L lat lon 0]> arr))))).
Proof.
  intros HL HM Hlat Hlon b. subst b.
  assert (0 <= lat * M <= 255 * 255) by nia.
  assert (0 <= lat * (L + 1) <= 65024) by nia.
  unfold CreateSphere_cell, stored_index. cbn [cell_corner fst snd].
  no_wrap.
  replace (Z.to_nat (lat * M * 6 + lon * 6)) with (Z.to_nat (6 * (lat * M + lon)))
    by (f_equal; ring).
  repeat match goal with
  | |- <[?i := ?v]> ?l = <[?i := ?v']> ?l' =>
      replace v with v' by ring; f_equal
  end.
Qed.

Lemma CreateSphere_cell_lookup (L M lat lon : Z) (arr : list Z) (j : nat) :
  0 <= L <= 255 -> 0 <= M <= 255 -> 0 <= lat < L -> 0 <= lon < M ->
  (Z.to_nat (6 * (lat * M + lon)) + 6 <= length arr)%nat ->
  let b := Z.to_nat (6 * (lat * M + lon)) in
  CreateSphere_cell L M arr (lat, lon) !! j
  = if decide (b <= j < b + 6)%nat then Some (stored_index L lat lon (j - b))
    else arr !! j.
Proof.
  intros HL HM Hlat Hlon Hlen b.
  rewrite CreateSphere_cell_writes by assumption. fold b. fold b in Hlen.
  destruct (decide (b <= j < b + 6)%nat) as [Hj|Hj].
  - assert (Hk : exists k, (k < 6)%nat /\ j = (b + k)%nat)
      by (exists (j - b)%nat; lia).
    destruct Hk as (k & Hk & ->). replace (b + k - b)%nat with k by lia.
    do 6 (destruct k as [|k]; [
      repeat (rewrite list_lookup_insert, ?length_insert;
              destruct (decide _) as [[? ?]|?]; try lia; try reflexivity) |]).
    lia.
  - rewrite !list_lookup_insert_ne by lia. reflexivity.
Qed.

Lemma CreateSphere_cell_length (L M : Z) (arr : list Z) (c : Z * Z) :
  length (CreateSphere_cell L M arr c) = length arr.
Proof. destruct c. unfold CreateSphere_cell. now rewrite !length_insert. Qed.

Lemma CreateSphere_indices_flat (L M : Z) (arr : list Z) :
  CreateSphere_indices L M arr
  = fold_left (CreateSphere_cell L M) (sphere_cells L M) arr.
Proof.
  unfold CreateSphere_indices, sphere_cells.
  generalize (counters L) as lats. intros lats. revert arr.
  induction lats as [|lat lats IH]; intros arr; [reflexivity|].
  cbn [fold_left flat_map]. rewrite fold_left_app, IH. f_equal.
  generalize (counters M) as lons. intros lons. revert arr.
  induction lons as [|lon lons IH']; intros arr; [reflexivity|].
  cbn [fold_left map]. apply IH'.
Qed.

Lemma in_counters (n x : Z) : In x (counters n) <-> 0 <= x < n.
Proof.
  unfold counters. rewrite in_map_iff. split.
  - intros (k & <- & Hk). apply in_seq in Hk. lia.
  - intros H. exists (Z.to_nat x). split; [lia|]. apply in_seq. lia.
Qed.

Lemma in_sphere_cells (L M lat lon : Z) :
  In (lat, lon) (sphere_cells L M) <-> 0 <= lat < L /\ 0 <= lon < M.
Proof.
  unfold sphere_cells. rewrite in_flat_map. split.
  - intros (lat' & Hlat & Hin). apply in_map_iff in Hin.
    destruct Hin as (lon' & [= <- <-] & Hlon).
    apply in_counters in Hlat, Hlon. auto.
  - intros [Hlat Hlon]. exists lat. split; [now apply in_counters|].
    apply in_map_iff. exists lon. split; [reflexivity | now apply in_counters].
Qed.

Lemma cell_of_block (M lat lon : Z) (j : nat) :
  0 <= lat -> 0 <= lon < M ->
  (Z.to_nat (6 * (lat * M + lon)) <= j < Z.to_nat (6 * (lat * M + lon)) + 6)%nat
  <-> cell_of M j = (lat, lon).
Proof.
  intros Hlat Hlon. unfold cell_of.
  assert (0 <= lat * M) by nia.
  split.
  - intros Hj.
    assert (E : Z.of_nat j / 6 = lat * M + lon).
    { symmetry. apply (Z.div_unique _ 6 _ (Z.of_nat j - 6 * (lat * M + lon))); lia. }
    rewrite E. f_equal.
    + symmetry. apply (Z.div_unique _ M _ lon); lia.
    + symmetry. apply (Z.mod_unique _ M lat lon); lia.
  - intros [= E1 E2].
    pose proof (Z.div_mod (Z.of_nat j / 6) M ltac:(lia)) as Hc.
    rewrite E1, E2 in Hc.
    pose proof (Z.div_mod (Z.of_nat j) 6 ltac:(lia)) as Hd.
    pose proof (Z.mod_pos_bound (Z.of_nat j) 6 ltac:(lia)).
    rewrite Hc in Hd. lia.
Qed.

Lemma fold_cells_lookup (L M : Z) (cs : list (Z * Z)) :
  0 <= L <= 255 -> 0 <= M <= 255 ->
  (forall lat lon, In (lat, lon) cs -> 0 <= lat < L /\ 0 <= lon < M) ->
  forall (arr : list Z) (j : nat),
  length arr = Z.to_nat (6 * (L * M)) ->
  (In (cell_of M j) cs ->
   fold_left (CreateSphere_cell L M) cs arr !! j
   = Some (stored_index L (fst (cell_of M j)) (snd (cell_of M j))
             (Z.to_nat (Z.of_nat j mod 6))))
  /\ (~ In (cell_of M j) cs ->
      fold_left (CreateSphere_cell L M) cs arr !! j = arr !! j).
Proof.
  intros HL HM. induction cs as [|[lat lon] cs IH]; intros Hcs arr j Hlen.
  - split; [intros [] | reflexivity].
  - destruct (Hcs lat lon (or_introl eq_refl)) as [Hlat Hlon].
    assert (Hcs' : forall lat lon, In (lat, lon) cs -> 0 <= lat < L /\ 0 <= lon < M).
    { intros ? ? ?. apply Hcs. now right. }
    assert (Hfit : (Z.to_nat (6 * (lat * M + lon)) + 6 <= length arr)%nat).
    { rewrite Hlen. assert (lat * M + lon + 1 <= L * M) by nia. lia. }
    cbn [fold_left].
    specialize (IH Hcs' (CreateSphere_cell L M arr (lat, lon)) j).
    rewrite CreateSphere_cell_length in IH. destruct (IH Hlen) as [IH1 IH2].
    pose proof (CreateSphere_cell_lookup L M lat lon arr j HL HM Hlat Hlon Hfit)
      as Hstep. cbv zeta in Hstep.
    pose proof (cell_of_block M lat lon j ltac:(lia) Hlon) as Hblock.
    assert (Hdec : In (cell_of M j) cs \/ ~ In (cell_of M j) cs).
    { destruct (in_dec (fun a b : Z * Z =>
                          ltac:(decide equality; apply Z.eq_dec)) (cell_of M j) cs);
        auto. }
    split.
    + intros Hin. destruct Hdec as [Hcs_in|Hcs_out]; [now apply IH1|].
      destruct Hin as [E|Hin]; [|contradiction].
      rewrite IH2 by exact Hcs_out. rewrite Hstep.
      destruct (decide _) as [Hj|Hj]; [|exfalso; apply Hj, Hblock; now symmetry].
      rewrite <- E. cbn [fst snd]. do 2 f_equal.
      pose proof (Z.div_mod (Z.of_nat j) 6 ltac:(lia)) as Hd.
      assert (Z.of_nat j / 6 = lat * M + lon).
      { symmetry. apply (Z.div_unique _ 6 _ (Z.of_nat j - 6 * (lat * M + lon))); lia. }
      assert (0 <= lat * M) by nia. lia.
    + intros Hout. rewrite IH2 by (intros ?; apply Hout; now right).
      rewrite Hstep. destruct (decide _) as [Hj|Hj]; [|reflexivity].
      exfalso. apply Hout. left. symmetry. now apply Hblock.
Qed.

Lemma GetSphereDataSize_small (L M : Z) :
  0 <= L <= 255 -> 0 <= M <= 255 ->
  GetSphereDataSize L M = (6 * (L * M), (L + 1) * (M + 1)).
Proof.
  intros HL HM. unfold GetSphereDataSize.
  assert (0 <= L * M <= 255 * 255) by nia.
  assert (0 <= (L + 1) * (M + 1) <= 256 * 256) by nia.
  no_wrap. f_equal. ring.
Qed.

Lemma vertex_index_small (M lat lon : Z) :
  0 <= M <= 255 -> 0 <= lat <= 255 -> 0 <= lon <= 256 ->
  vertex_index M lat lon = lat * (M + 1) + lon.
Proof.
  intros HM Hlat Hlon. unfold vertex_index.
  assert (0 <= lat * (M + 1) <= 255 * 256) by nia.
  no_wrap. reflexivity.
Qed.

Lemma CreateSphere_indices_length (L M : Z) (arr : list Z) :
  length (CreateSphere_indices L M arr) = length arr.
Proof.
  rewrite CreateSphere_indices_flat. revert arr.
  induction (sphere_cells L M) as [|c cs IH]; intros arr; [reflexivity|].
  cbn [fold_left]. rewrite IH. apply CreateSphere_cell_length.
Qed.

Lemma CreateSphere_indices_lookup (L M : Z) (j : nat) :
  1 <= L <= 255 -> 1 <= M <= 255 -> (j < Z.to_nat (6 * (L * M)))%nat ->
  0 <= fst (cell_of M j) < L /\ 0 <= snd (cell_of M j) < M
  /\ CreateSphere_indices L M (replicate (Z.to_nat (6 * (L * M))) 0) !! j
     = Some (stored_index L (fst (cell_of M j)) (snd (cell_of M j))
               (Z.to_nat (Z.of_nat j mod 6))).
Proof.
  intros HL HM Hj.
  assert (Hc : 0 <= Z.of_nat j / 6 < L * M).
  { split; [apply Z.div_pos; lia|]. apply Z.div_lt_upper_bound; lia. }
  assert (Hlat : 0 <= Z.of_nat j / 6 / M < L).
  { split; [apply Z.div_pos; lia|]. apply Z.div_lt_upper_bound; nia. }
  assert (Hlon : 0 <= (Z.of_nat j / 6) mod M < M) by (apply Z.mod_pos_bound; lia).
  cbn [cell_of fst snd]. split; [exact Hlat|]. split; [exact Hlon|].
  rewrite CreateSphere_indices_flat.
  refine (proj1 (fold_cells_lookup L M (sphere_cells L M) ltac:(lia) ltac:(lia)
                   _ _ j _) _).
  - intros lat lon Hin. now apply in_sphere_cells.
  - apply length_replicate.
  - apply in_sphere_cells. auto.
Qed.

(** X16: for a sphere of [n] x [n] cells, as [InitSphere] and
    [InitSmallSphere] ask for, [CreateSphere] fills the whole index
    array; the six slots of a cell name the vertices at its corners, as
    the two triangles (this row, next row, next column) and (next
    column, next row, next row and column); and every index is below
    the vertex count. *)
Theorem sphere_indices_name_the_cell_corners (n lat lon : Z) (k : nat) :
  1 <= n <= 255 -> 0 <= lat < n -> 0 <= lon < n -> (k < 6)%nat ->
  length (sphere_indices n) = Z.to_nat (fst (GetSphereDataSize n n))
  /\ sphere_indices n !! (Z.to_nat (6 * (lat * n + lon)) + k)%nat
     = Some (vertex_index n (lat + fst (cell_corner k)) (lon + snd (cell_corner k)))
  /\ Forall (fun i => 0 <= i < snd (GetSphereDataSize n n)) (sphere_indices n).
Proof.
  intros Hn Hlat Hlon Hk. unfold sphere_indices.
  rewrite GetSphereDataSize_small by lia. cbn [fst snd].
  split; [now rewrite CreateSphere_indices_length, length_replicate|].
  split.
  - set (j := (Z.to_nat (6 * (lat * n + lon)) + k)%nat).
    assert (Hj : (j < Z.to_nat (6 * (n * n)))%nat).
    { subst j. assert (lat * n + lon + 1 <= n * n) by nia.
      assert (0 <= lat * n) by nia. lia. }
    destruct (CreateSphere_indices_lookup n n j ltac:(lia) ltac:(lia) Hj)
      as (_ & _ & ->).
    assert (Hcell : cell_of n j = (lat, lon)).
    { apply cell_of_block; [lia | lia | subst j; lia]. }
    rewrite Hcell. cbn [fst snd].
    assert (Hmod : Z.to_nat (Z.of_nat j mod 6) = k).
    { subst j. assert (0 <= lat * n) by nia.
      rewrite Nat2Z.inj_add, Z2Nat.id by lia.
      replace (6 * (lat * n + lon) + Z.of_nat k)
        with (Z.of_nat k + (lat * n + lon) * 6) by ring.
      rewrite Z.mod_add by lia. rewrite Z.mod_small by lia. lia. }
    rewrite Hmod. unfold stored_index.
    assert (0 <= fst (cell_corner k) <= 1 /\ 0 <= snd (cell_corner k) <= 1).
    { do 6 (destruct k as [|k]; [cbn; lia|]). lia. }
    rewrite vertex_index_small by lia. f_equal. ring.
  - apply Forall_lookup. intros j i Hji.
    assert (Hj : (j < Z.to_nat (6 * (n * n)))%nat).
    { apply lookup_lt_Some in Hji.
      now rewrite CreateSphere_indices_length, length_replicate in Hji. }
    destruct (CreateSphere_indices_lookup n n j ltac:(lia) ltac:(lia) Hj)
      as (Hr & Hc & E).
    rewrite E in Hji. injection Hji as <-. unfold stored_index.
    set (kk := Z.to_nat (Z.of_nat j mod 6)).
    assert (0 <= fst (cell_corner kk) <= 1 /\ 0 <= snd (cell_corner kk) <= 1).
    { generalize kk. intros k'. do 6 (destruct k' as [|k']; [cbn; lia|]). cbn. lia. }
    unfold cell_of in *. cbn [fst snd] in *.
    set (a := Z.of_nat j / 6 / n + fst (cell_corner kk)) in *.
    assert (0 <= a * (n + 1) <= n * (n + 1)) by (subst a; nia).
    replace ((n + 1) * (n + 1)) with (n * (n + 1) + n + 1) by ring. lia.
Qed.

Lemma sphere_indices_name_the_cell_corners_witness :
  sphere_indices 8 !! 11%nat = Some (vertex_index 8 1 2).
Proof.
  refine (proj1 (proj2 (sphere_indices_name_the_cell_corners 8 0 1 5 _ _ _ _)));
    lia.
Defined.

(** X17: with different numbers of rows and columns [CreateSphere]
    keeps the indices below the vertex count exactly when there are no
    more rows than columns: it steps from row to row by [latCells + 1]
    where the vertices are laid out in rows of [lonCells + 1]. *)
Theorem CreateSphere_indices_in_range_iff (latCells lonCells : Z) :
  1 <= latCells <= 255 -> 1 <= lonCells <= 255 ->
  Forall (fun i => i < snd (GetSphereDataSize latCells lonCells))
    (CreateSphere_indices latCells lonCells
       (replicate (Z.to_nat (fst (GetSphereDataSize latCells lonCells))) 0))
  <-> latCells <= lonCells.
Proof.
  intros HL HM. rewrite GetSphereDataSize_small by lia. cbn [fst snd].
  set (L := latCells) in *. set (M := lonCells) in *.
  assert (Hcorner : forall k : nat,
            0 <= fst (cell_corner k) <= 1 /\ 0 <= snd (cell_corner k) <= 1).
  { intros k. do 6 (destruct k as [|k]; [cbn; lia|]). cbn. lia. }
  split.
  - intros Hall.
    set (j := (Z.to_nat (6 * ((L - 1) * M + (M - 1))) + 5)%nat).
    assert (0 <= (L - 1) * M) by nia.
    assert (Hj : (j < Z.to_nat (6 * (L * M)))%nat).
    { subst j. assert ((L - 1) * M + (M - 1) + 1 <= L * M) by nia. lia. }
    destruct (CreateSphere_indices_lookup L M j ltac:(lia) ltac:(lia) Hj)
      as (_ & _ & E).
    assert (Hcell : cell_of M j = (L - 1, M - 1)).
    { apply cell_of_block; [lia | lia | subst j; lia]. }
    assert (Hmod : Z.to_nat (Z.of_nat j mod 6) = 5%nat).
    { subst j. rewrite Nat2Z.inj_add, Z2Nat.id by lia.
      replace (6 * ((L - 1) * M + (M - 1)) + Z.of_nat 5)
        with (5 + ((L - 1) * M + (M - 1)) * 6) by lia.
      rewrite Z.mod_add by lia. reflexivity. }
    rewrite Hcell, Hmod in E. cbn [fst snd] in E.
    rewrite Forall_lookup in Hall. specialize (Hall j _ E).
    unfold stored_index in Hall. cbn [cell_corner fst snd] in Hall. nia.
  - intros HLM. apply Forall_lookup. intros j i Hji.
    assert (Hj : (j < Z.to_nat (6 * (L * M)))%nat).
    { apply lookup_lt_Some in Hji.
      now rewrite CreateSphere_indices_length, length_replicate in Hji. }
    destruct (CreateSphere_indices_lookup L M j ltac:(lia) ltac:(lia) Hj)
      as (Hr & Hc & E).
    rewrite E in Hji. injection Hji as <-. unfold stored_index.
    specialize (Hcorner (Z.to_nat (Z.of_nat j mod 6))).
    set (kk := Z.to_nat (Z.of_nat j mod 6)) in *.
    unfold cell_of in *. cbn [fst snd] in *.
    set (a := Z.of_nat j / 6 / M + fst (cell_corner kk)) in *.
    assert (0 <= a * (L + 1) <= L * (L + 1)) by (subst a; nia).
    assert (L * L <= L * M) by nia.
    replace ((L + 1) * (M + 1)) with (L * M + L + M + 1) by ring.
    replace (L * (L + 1)) with (L * L + L) in * by ring. lia.
Qed.

Lemma CreateSphere_indices_in_range_iff_witness :
  Forall (fun i => i < snd (GetSphereDataSize 2 3))
    (CreateSphere_indices 2 3
       (replicate (Z.to_nat (fst (GetSphereDataSize 2 3))) 0)).
Proof.
  apply (CreateSphere_indices_in_range_iff 2 3); lia.
Defined.

(* ================================================================= *)
(** ** Rounding never invents a NaN *)

Lemma shr_1_nonneg (mrs : shr_record) : 0 <= shr_m mrs -> 0 <= shr_m (shr_1 mrs).
Proof.
  destruct mrs as [m r s]. cbn [shr_m]. intros H.
  destruct m as [|[p|p|]|p]; cbn; lia.
Qed.

Lemma iter_shr_1_nonneg (p : positive) :
  forall mrs, 0 <= shr_m mrs -> 0 <= shr_m (SpecFloat.iter_pos shr_1 p mrs).
Proof.
  induction p as [p IH|p IH|]; intros mrs H; cbn [SpecFloat.iter_pos].
  - apply IH, IH. now apply shr_1_nonneg.
  - now apply IH, IH.
  - now apply shr_1_nonneg.
Qed.

Lemma shr_fexp_nonneg (prec emax m e : Z) (l : location) :
  0 <= m -> 0 <= shr_m (fst (shr_fexp prec emax m e l)).
Proof.
  intros H. unfold shr_fexp, shr.
  assert (H0 : 0 <= shr_m (shr_record_of_loc m l)).
  { destruct l as [|[| |]]; exact H. }
  destruct (fexp prec emax (Zdigits2 m + e) - e) as [|p|p]; cbn [fst];
    [exact H0 | | exact H0].
  now apply iter_shr_1_nonneg.
Qed.

Lemma round_nearest_even_nonneg (m : Z) (l : location) :
  0 <= m -> 0 <= round_nearest_even m l.
Proof.
  intros H. destruct l as [|[| |]]; cbn; try lia. destruct (Z.even m); lia.
Qed.

Lemma binary_round_aux_not_nan (prec emax : Z) (s : bool) (m e : Z) (l : location) :
  0 <= m -> not_nan (binary_round_aux prec emax s m e l) = true.
Proof.
  intros H. unfold binary_round_aux.
  pose proof (shr_fexp_nonneg prec emax m e l H) as H1.
  destruct (shr_fexp prec emax m e l) as [mrs' e']. cbn [fst] in H1.
  pose proof (round_nearest_even_nonneg (shr_m mrs') (loc_of_shr_record mrs') H1)
    as H2.
  pose proof (shr_fexp_nonneg prec emax _ e' loc_Exact H2) as H3.
  destruct (shr_fexp prec emax _ e' loc_Exact) as [mrs'' e'']. cbn [fst] in H3.
  destruct (shr_m mrs'') as [|p|p]; [reflexivity | | lia].
  now destruct (e'' <=? emax - prec).
Qed.

Lemma binary_normalize_not_nan (prec emax m e : Z) (sz : bool) :
  not_nan (binary_normalize prec emax m e sz) = true.
Proof.
  destruct m as [|p|p]; cbn [binary_normalize]; [reflexivity | |];
    unfold binary_round; destruct (shl_align _ _ _) as [mz ez];
    apply binary_round_aux_not_nan; lia.
Qed.

Lemma F32_of_Z_not_nan (z : Z) : not_nan (F32.of_Z z) = true.
Proof. apply binary_normalize_not_nan. Qed.

(** A sum is a NaN only if a term is, or if the terms are opposite
    infinities. *)
Lemma F32_add_not_nan (a b : float) :
  F32.is_finite a = true -> not_nan b = true -> not_nan (F32.add a b) = true.
Proof.
  intros Ha Hb. destruct a as [sa|sa| |sa ma ea]; try discriminate;
    destruct b as [sb|sb| |sb mb eb]; try discriminate;
    cbn; try reflexivity.
  - now destruct sa, sb.
  - apply binary_normalize_not_nan.
Qed.

Lemma F32_sub_not_nan (a b : float) :
  F32.is_finite a = true -> not_nan b = true -> not_nan (F32.sub a b) = true.
Proof.
  intros Ha Hb. destruct a as [sa|sa| |sa ma ea]; try discriminate;
    destruct b as [sb|sb| |sb mb eb]; try discriminate;
    cbn; try reflexivity.
  - now destruct sa, sb.
  - apply binary_normalize_not_nan.
Qed.

(** A quotient by a finite number other than zero is a NaN only if the
    dividend is. *)
Lemma F32_div_not_nan (a : float) (s : bool) (m : positive) (e : Z) :
  not_nan a = true -> not_nan (F32.div a (S754_finite s m e)) = true.
Proof.
  intros Ha. destruct a as [sa|sa| |sa ma ea]; try discriminate;
    cbn; try reflexivity.
  unfold SFdiv_core_binary.
  match goal with |- context [Z.div_eucl ?x ?y] =>
    pose proof (Z_div_mod x y ltac:(lia)) as Hq;
    assert (Hx : 0 <= x) by
      (match goal with |- 0 <= match ?z with _ => _ end =>
         destruct z; [lia | apply Z.shiftl_nonneg; lia | lia] end);
    destruct (Z.div_eucl x y) as [q r]
  end.
  apply binary_round_aux_not_nan. destruct Hq as [Hq Hr]. nia.
Qed.

(** A product with a finite number other than zero is a NaN only if the
    other factor is. *)
Lemma F32_mul_not_nan (a : float) (s : bool) (m : positive) (e : Z) :
  not_nan a = true -> not_nan (F32.mul a (S754_finite s m e)) = true.
Proof.
  intros Ha. destruct a as [sa|sa| |sa ma ea]; try discriminate;
    cbn; try reflexivity.
  apply binary_round_aux_not_nan. lia.
Qed.

(* ================================================================= *)
(** ** The float of a positive integer is a positive number *)

Lemma digits2_bounds (p : positive) :
  2 ^ (Zpos (digits2_pos p) - 1) <= Zpos p < 2 ^ Zpos (digits2_pos p).
Proof.
  induction p as [p IH|p IH|]; cbn [digits2_pos].
  - rewrite Pos2Z.inj_succ.
    replace (Z.succ (Zpos (digits2_pos p)) - 1) with (Z.succ (Zpos (digits2_pos p) - 1))
      by lia.
    rewrite !Z.pow_succ_r by lia. lia.
  - rewrite Pos2Z.inj_succ.
    replace (Z.succ (Zpos (digits2_pos p)) - 1) with (Z.succ (Zpos (digits2_pos p) - 1))
      by lia.
    rewrite !Z.pow_succ_r by lia. lia.
  - cbn. lia.
Qed.

Lemma digits2_unique (p : positive) (d : Z) :
  2 ^ (d - 1) <= Zpos p < 2 ^ d -> Zpos (digits2_pos p) = d.
Proof.
  intros [Hlo Hhi]. pose proof (digits2_bounds p) as [Hlo' Hhi'].
  assert (0 < d).
  { destruct (Z.ltb_spec 0 d) as [|Hd]; [assumption|].
    exfalso. destruct (Z.eqb_spec d 0) as [->|]; [cbn in Hhi; lia|].
    rewrite Z.pow_neg_r in Hhi by lia. lia. }
  destruct (Z.lt_trichotomy (Zpos (digits2_pos p)) d) as [Hlt|[Heq|Hgt]];
    [|exact Heq|].
  - pose proof (Z.pow_le_mono_r 2 (Zpos (digits2_pos p)) (d - 1) ltac:(lia)
                  ltac:(lia)). lia.
  - pose proof (Z.pow_le_mono_r 2 d (Zpos (digits2_pos p) - 1) ltac:(lia)
                  ltac:(lia)). lia.
Qed.

Lemma shr_1_half (mrs : shr_record) :
  0 <= shr_m mrs -> shr_m (shr_1 mrs) = shr_m mrs / 2.
Proof.
  intros H. rewrite <- Z.div2_div. destruct mrs as [m r s]. cbn [shr_m] in *.
  destruct m as [|[p|p|]|p]; try reflexivity. lia.
Qed.

Lemma iter_shr_1_quotient (p : positive) :
  forall mrs, 0 <= shr_m mrs ->
  shr_m (SpecFloat.iter_pos shr_1 p mrs) = shr_m mrs / 2 ^ Zpos p.
Proof.
  induction p as [p IH|p IH|]; intros mrs H; cbn [SpecFloat.iter_pos].
  - rewrite IH by (apply iter_shr_1_nonneg; now apply shr_1_nonneg).
    rewrite IH by now apply shr_1_nonneg.
    rewrite shr_1_half by exact H.
    pose proof (Z.pow_pos_nonneg 2 (Zpos p) ltac:(lia) ltac:(lia)).
    rewrite !Z.div_div by lia.
    replace (Zpos p~1) with (1 + Zpos p + Zpos p) by lia.
    rewrite !Z.pow_add_r by lia. f_equal. change (2 ^ 1) with 2. ring.
  - rewrite IH by now apply iter_shr_1_nonneg.
    rewrite IH by exact H.
    pose proof (Z.pow_pos_nonneg 2 (Zpos p) ltac:(lia) ltac:(lia)).
    rewrite !Z.div_div by lia.
    replace (Zpos p~0) with (Zpos p + Zpos p) by lia.
    rewrite !Z.pow_add_r by lia. f_equal.
  - now apply shr_1_half.
Qed.

Lemma round_nearest_even_step (m : Z) (l : location) :
  round_nearest_even m l = m \/ round_nearest_even m l = m + 1.
Proof. destruct l as [|[| |]]; cbn; auto. destruct (Z.even m); auto. Qed.

Lemma Zdigits2_pos (m : Z) (d : Z) :
  2 ^ (d - 1) <= m < 2 ^ d -> 0 < m -> Zdigits2 m = d.
Proof.
  intros H Hm. destruct m as [|p|p]; try lia. cbn [Zdigits2].
  now apply digits2_unique.
Qed.

(** Rounding a mantissa of at least 24 bits whose value is within the
    range of the normal floats gives a finite float other than zero. *)
Lemma binary_round_aux_finite (s : bool) (m e d : Z) (l : location) :
  2 ^ (d - 1) <= m < 2 ^ d -> 24 <= d -> -125 <= d + e <= 127 ->
  exists m' e', binary_round_aux 24 128 s m e l = S754_finite s m' e'.
Proof.
  intros Hm Hd He.
  assert (Hpos : 0 < m).
  { pose proof (Z.pow_pos_nonneg 2 (d - 1) ltac:(lia) ltac:(lia)). lia. }
  unfold binary_round_aux.
  (* first shift: by d - 24 *)
  assert (H1 : exists mrs',
            shr_fexp 24 128 m e l = (mrs', e + (d - 24))
            /\ 2 ^ 23 <= shr_m mrs' < 2 ^ 24).
  { unfold shr_fexp. rewrite (Zdigits2_pos m d Hm Hpos).
    unfold fexp, emin.
    replace (Z.max (d + e - 24) (3 - 128 - 24) - e) with (d - 24) by lia.
    unfold shr. destruct (d - 24) as [|k|k] eqn:Ek; [| |lia].
    - eexists. split; [f_equal; lia|].
      assert (d = 24) by lia. subst d.
      destruct l as [|[| |]]; exact Hm.
    - eexists. split; [reflexivity|].
      rewrite iter_shr_1_quotient by (destruct l as [|[| |]]; cbn; lia).
      assert (Em : shr_m (shr_record_of_loc m l) = m)
        by (destruct l as [|[| |]]; reflexivity).
      rewrite Em. rewrite <- Ek.
      assert (E2 : 2 ^ d = 2 ^ 24 * 2 ^ (d - 24)).
      { rewrite <- Z.pow_add_r by lia. f_equal. lia. }
      assert (E3 : 2 ^ (d - 1) = 2 ^ 23 * 2 ^ (d - 24)).
      { rewrite <- Z.pow_add_r by lia. f_equal. lia. }
      pose proof (Z.pow_pos_nonneg 2 (d - 24) ltac:(lia) ltac:(lia)).
      split.
      + apply Z.div_le_lower_bound; lia.
      + apply Z.div_lt_upper_bound; lia. }
  destruct H1 as (mrs' & -> & Hm1).
  set (m2 := round_nearest_even (shr_m mrs') (loc_of_shr_record mrs')).
  assert (Hm2 : 2 ^ 23 <= m2 <= 2 ^ 24).
  { subst m2. destruct (round_nearest_even_step (shr_m mrs')
                          (loc_of_shr_record mrs')) as [-> | ->]; lia. }
  change (2 ^ 23) with 8388608 in *. change (2 ^ 24) with 16777216 in *.
  (* second shift: by 0 or 1 *)
  unfold shr_fexp.
  destruct (Z.eq_dec m2 16777216) as [E|NE].
  - rewrite E. change (Zdigits2 16777216) with 25.
    unfold fexp, emin.
    replace (Z.max (25 + (e + (d - 24)) - 24) (3 - 128 - 24) - (e + (d - 24)))
      with 1 by lia.
    cbn [shr shr_record_of_loc SpecFloat.iter_pos shr_1 shr_m].
    assert ((e + (d - 24) + 1 <=? 128 - 24) = true) as -> by (apply Z.leb_le; lia).
    eauto.
  - assert (Hd2 : Zdigits2 m2 = 24).
    { apply Zdigits2_pos; [|lia]. change (2 ^ (24 - 1)) with 8388608.
      change (2 ^ 24) with 16777216. lia. }
    rewrite Hd2. unfold fexp, emin.
    replace (Z.max (24 + (e + (d - 24)) - 24) (3 - 128 - 24) - (e + (d - 24)))
      with 0 by lia.
    cbn [shr shr_record_of_loc shr_m].
    destruct m2 as [|p2|p2]; try lia.
    assert ((e + (d - 24) <=? 128 - 24) = true) as -> by (apply Z.leb_le; lia).
    eauto.
Qed.

Lemma F32_of_Z_positive (w : Z) :
  0 < w < 2 ^ 32 -> exists m e, F32.of_Z w = S754_finite false m e.
Proof.
  intros Hw. destruct w as [|p|p]; try lia.
  unfold F32.of_Z, F32.prec, F32.emax. cbn [binary_normalize].
  unfold binary_round.
  pose proof (digits2_bounds p) as Hp.
  set (d := Zpos (digits2_pos p)) in *.
  assert (Hd : 1 <= d <= 32).
  { split; [subst d; lia|].
    destruct (Z.leb_spec d 32) as [|Hgt]; [assumption|].
    pose proof (Z.pow_le_mono_r 2 32 (d - 1) ltac:(lia) ltac:(lia)). lia. }
  unfold fexp, emin. replace (Z.max (d + 0 - 24) (3 - 128 - 24)) with (d - 24) by lia.
  unfold shl_align. destruct (d - 24 - 0) as [|k|k] eqn:Ek.
  - apply (binary_round_aux_finite false (Zpos p) 0 d); [exact Hp | lia | lia].
  - apply (binary_round_aux_finite false (Zpos p) 0 d); [exact Hp | lia | lia].
  - assert (Ek' : Zpos k = 24 - d) by lia.
    apply (binary_round_aux_finite false _ (d - 24) 24); [|lia|lia].
    change (Pos.iter xO p k) with (shift_pos k p).
    rewrite shift_pos_correct. change (Zpower_pos 2 k) with (2 ^ Zpos k).
    rewrite Ek'.
    assert (E1 : 2 ^ 24 = 2 ^ (24 - d) * 2 ^ d).
    { rewrite <- Z.pow_add_r by lia. f_equal. lia. }
    assert (E2 : 2 ^ (24 - 1) = 2 ^ (24 - d) * 2 ^ (d - 1)).
    { rewrite <- Z.pow_add_r by lia. f_equal. lia. }
    pose proof (Z.pow_pos_nonneg 2 (24 - d) ltac:(lia) ltac:(lia)).
    rewrite E1, E2. nia.
Qed.

(* ================================================================= *)
(** ** The mouse *)

Lemma clamp_in_range (t : float) :
  not_nan t = true ->
  F32.leb theta_lo (std_min (std_max t theta_lo) theta_hi) = true
  /\ F32.leb (std_min (std_max t theta_lo) theta_hi) theta_hi = true.
Proof.
  intros Ht. unfold std_min, std_max.
  assert (Hlh : F32.leb theta_lo theta_hi = true) by (vm_compute; reflexivity).
  assert (Hl : not_nan theta_lo = true) by (vm_compute; reflexivity).
  assert (Hh : not_nan theta_hi = true) by (vm_compute; reflexivity).
  destruct (F32.ltb t theta_lo) eqn:E1.
  - destruct (F32.ltb theta_hi theta_lo) eqn:E2.
    + vm_compute in E2. discriminate.
    + split; [now apply F32_leb_refl | exact Hlh].
  - destruct (F32.ltb theta_hi t) eqn:E2.
    + split; [exact Hlh | now apply F32_leb_refl].
    + split; now apply F32_leb_total.
Qed.

Lemma in_range_finite (t : float) :
  F32.leb theta_lo t = true -> F32.leb t theta_hi = true -> F32.is_finite t = true.
Proof.
  intros H1 H2. destruct t as [s|s| |s m e]; try reflexivity.
  - destruct s; [vm_compute in H1 | vm_compute in H2]; discriminate.
  - vm_compute in H1. discriminate.
Qed.

Lemma rotation_not_nan (d w : Z) :
  0 < w < 2 ^ 32 ->
  not_nan (F32.mul (F32.div (F32.of_Z d) (F32.of_Z w)) CameraRotationSpeed) = true.
Proof.
  intros Hw. destruct (F32_of_Z_positive w Hw) as (m & e & ->).
  change CameraRotationSpeed with (S754_finite false 13176795 (-21)).
  apply F32_mul_not_nan, F32_div_not_nan, F32_of_Z_not_nan.
Qed.

(** With the button held, a window of positive width and a finite
    elevation, a move of the mouse leaves the elevation of the camera
    between [-(float)M_PI / 2] and [(float)M_PI / 2]. *)
Lemma MouseMoved_clamps_theta (x y : Z) (ms : Mouse) (s : Renderer) :
  0 < m_width s < 2 ^ 32 ->
  F32.is_finite (Camera.theta (m_camera s)) = true ->
  m_rbPressed ms = true ->
  theta_in_range (m_camera (snd (MouseMoved x y ms s))) = true.
Proof.
  intros Hw Hfin Hrb. unfold MouseMoved. rewrite Hrb.
  cbn [snd set_camera m_camera]. unfold theta_in_range. cbn [Camera.theta].
  apply andb_true_intro. apply clamp_in_range.
  apply F32_add_not_nan; [exact Hfin|]. now apply rotation_not_nan.
Qed.

Lemma Resize_width (width height : Z) (a : ResizeAnswers) (s : Renderer) :
  m_width (snd (Resize width height a s)) = width
  \/ m_width (snd (Resize width height a s)) = m_width s.
Proof.
  unfold Resize.
  destruct (negb (width =? m_width s) || negb (height =? m_height s));
    [|now right].
  destruct (releases_spec s) as (_ & _ & _ & _ & Hw & _).
  destruct (SUCCEEDED (hr_ResizeBuffers a)).
  - left.
    match goal with
    | |- context [SetupBackBuffer a ?t] =>
        destruct (SetupBackBuffer_spec a t) as (Hw' & _);
        destruct (SetupBackBuffer a t) as [r t']
    end.
    cbn [fst snd d3d set_size m_width] in *. exact Hw'.
  - right. cbn [snd d3d m_width]. exact Hw.
Qed.

Lemma Key_camera (pressed : bool) (keyCode : Z) (s : Renderer) :
  let s' := if pressed then KeyPressed keyCode s else KeyReleased keyCode s in
  m_camera s' = m_camera s /\ m_width s' = m_width s.
Proof.
  destruct pressed; cbv zeta; unfold KeyPressed, KeyReleased;
    repeat match goal with
    | |- context [if ?c then _ else _] => destruct c
    end; split; reflexivity.
Qed.

Lemma WndProc_camera_clamped (w : Window) (message : Message) :
  positive_widths [message] -> camera_clamped w ->
  camera_clamped (WndProc w message).
Proof.
  intros Hm (r & ms & Hr & Hw & Ht).
  apply Forall_inv in Hm.
  destruct w as [pr keys]. cbn [pRenderer] in Hr. subst pr.
  unfold camera_clamped.
  destruct message as [width height a|x y|x y|x y|delta|wParam|wParam|];
    unfold WndProc, with_renderer; cbn [pRenderer PressedKeys option_map].
  - eexists _, _. split; [reflexivity|].
    destruct (Resize_untouched width height a r) as (_ & _ & Hc & _).
    rewrite Hc. split; [|exact Ht].
    destruct (Resize_width width height a r) as [-> | ->]; assumption.
  - eexists _, _. split; [reflexivity|]. auto.
  - eexists _, _. split; [reflexivity|]. auto.
  - destruct (m_rbPressed ms) eqn:Hrb.
    + pose proof (MouseMoved_clamps_theta x y ms r Hw) as Hc.
      assert (Hwid : m_width (snd (MouseMoved x y ms r)) = m_width r).
      { unfold MouseMoved. now rewrite Hrb. }
      destruct (MouseMoved x y ms r) as [ms' r']. cbn [snd] in *.
      eexists _, _. split; [reflexivity|]. rewrite Hwid. split; [exact Hw|].
      apply Hc; [|exact Hrb].
      apply andb_prop in Ht. destruct Ht. now apply in_range_finite.
    + unfold MouseMoved. rewrite Hrb.
      eexists _, _. split; [reflexivity|]. auto.
  - eexists _, _. split; [reflexivity|]. auto.
  - destruct (keys !! Z.to_nat wParam) as [[|]|];
      try (eexists _, _; split; [reflexivity|]; now auto).
    cbn [pRenderer PressedKeys option_map].
    eexists _, _. split; [reflexivity|].
    destruct (Key_camera true wParam r) as [-> ->]. auto.
  - destruct (keys !! Z.to_nat wParam) as [[|]|];
      try (eexists _, _; split; [reflexivity|]; now auto).
    cbn [pRenderer PressedKeys option_map].
    eexists _, _. split; [reflexivity|].
    destruct (Key_camera false wParam r) as [-> ->]. auto.
  - eexists _, _. split; [reflexivity|]. auto.
Qed.

(** X12: as long as the window keeps a positive width, no sequence of
    window messages takes the elevation of the camera out of
    [-(float)M_PI / 2 .. (float)M_PI / 2]: dragging with the right
    button clamps it, without ever producing a NaN, and nothing else
    changes it. *)
Theorem camera_elevation_stays_clamped (w : Window) (messages : list Message) :
  camera_clamped w -> positive_widths messages ->
  camera_clamped (dispatch messages w).
Proof.
  revert w. induction messages as [|m messages IH]; intros w Hw Hm; [exact Hw|].
  inversion Hm as [|? ? Hm1 Hm2]; subst.
  cbn. apply IH; [|exact Hm2].
  apply WndProc_camera_clamped; [|exact Hw]. now constructor.
Qed.

Lemma camera_elevation_stays_clamped_witness :
  camera_clamped
    (dispatch [WM_SIZE 1280 720 example_answers; WM_RBUTTONDOWN 100 100;
               WM_MOUSEMOVE 100 900; WM_RBUTTONUP 100 900]
       example_window).
Proof.
  apply (camera_elevation_stays_clamped example_window).
  - eexists _, _. split; [reflexivity|]. split; [cbn; lia|].
    vm_compute. reflexivity.
  - repeat constructor; cbn; lia.
Defined.

(** In a window of width 0 the same drag can turn the elevation into a
    NaN: the hypothesis on the width is needed. *)
Example zero_width_drag_gives_NaN :
  let s := set_size 0 0 (InitCamera Renderer_ctor) in
  Camera.theta (m_camera (snd (MouseMoved 5 5 (mkMouse true 5 5) s))) = S754_nan.
Proof. vm_compute. reflexivity. Qed.

(** X13: after a turn of the wheel the camera is at distance 1 or more
    from its point of interest, provided its distance was a finite
    number. *)
Theorem MouseWheel_keeps_distance_at_least_1 (delta : Z) (s : Renderer) :
  F32.is_finite (Camera.r (m_camera s)) = true ->
  F32.leb (F32.of_Z 1) (Camera.r (m_camera (MouseWheel delta s))) = true.
Proof.
  intros Hfin. unfold MouseWheel. cbn [set_camera m_camera Camera.r].
  set (r1 := F32.sub _ _).
  assert (Hr1 : not_nan r1 = true).
  { subst r1. apply F32_sub_not_nan; [exact Hfin|].
    change (F32.of_Z 100) with (S754_finite false 13107200 (-17)).
    apply F32_div_not_nan, F32_of_Z_not_nan. }
  destruct (F32.ltb r1 (F32.of_Z 1)) eqn:E.
  - vm_compute. reflexivity.
  - apply F32_leb_total; [vm_compute; reflexivity | exact Hr1 | exact E].
Qed.

Lemma MouseWheel_keeps_distance_at_least_1_witness :
  F32.leb (F32.of_Z 1)
    (Camera.r (m_camera (MouseWheel 1200 (InitCamera Renderer_ctor)))) = true.
Proof.
  apply (MouseWheel_keeps_distance_at_least_1 1200 (InitCamera Renderer_ctor)).
  vm_compute. reflexivity.
Defined.

Lemma InitScene_returns_the_first_failure_witness :
  fst (InitScene (P := example_platform) example_hr_failing
         (InitCamera Renderer_ctor)) = E_FAIL /\
  m_instCount (snd (InitScene (P := example_platform) example_hr_failing
                      (InitCamera Renderer_ctor))) = 2.
Proof.
  destruct (proj1 (InitScene_returns_the_first_failure (P := example_platform)
                     example_hr_failing (InitCamera Renderer_ctor)
                     [CreateVertexBuffer; NameVertexBuffer]
                     [NameIndexBuffer; CompileVertexShader; CompilePixelShader;
                      CreateInputLayout; NameInputLayout; CreateGeomBufferInst;
                      NameGeomBufferInst]
                     CreateIndexBuffer
                     ltac:(repeat constructor) eq_refl) eq_refl)
    as (Hr & _ & Hc & _).
  split; [exact Hr | exact Hc].
Defined.

(* ================================================================= *)
(** ** The choice of the adapter *)

Lemma select_adapter_spec (adapters : list string) :
  forall adapterIdx,
  let '(selected, released) := select_adapter adapters adapterIdx in
  exists n,
    released = seq adapterIdx n
    /\ (forall j, (j < n)%nat -> adapters !! j = Some BasicRenderDriver)
    /\ match selected with
       | Some i =>
           i = (adapterIdx + n)%nat
           /\ exists Description,
                adapters !! n = Some Description
                /\ Description <> BasicRenderDriver
       | None => n = length adapters
       end.
Proof.
  induction adapters as [|d adapters IH]; intros idx; cbn [select_adapter].
  - exists 0%nat. split; [reflexivity|]. split; [lia | reflexivity].
  - destruct (String.eqb_spec d BasicRenderDriver) as [->|Hne]; cbn [negb].
    + specialize (IH (Datatypes.S idx)).
      destruct (select_adapter adapters (Datatypes.S idx)) as [sel rel].
      destruct IH as (n & -> & Hbasic & Hsel).
      exists (Datatypes.S n). split; [reflexivity|]. split.
      * intros [|j] Hj; [reflexivity|]. cbn. apply Hbasic. lia.
      * destruct sel as [i|].
        -- destruct Hsel as (-> & desc & Hd & Hne). split; [lia|].
           exists desc. auto.
        -- cbn. now rewrite Hsel.
    + exists 0%nat. split; [reflexivity|]. split; [lia|].
      split; [lia|]. exists d. auto.
Qed.

(** X18: [Init] selects the first adapter whose description is not
    "Microsoft Basic Render Driver" and releases exactly the adapters
    before it; it selects none, having released them all, exactly when
    every adapter is that driver, in particular when there is none. *)
Theorem Init_selects_the_first_hardware_adapter (adapters : list string) :
  let '(selected, released) := select_adapter adapters 0 in
  match selected with
  | Some i =>
      released = seq 0 i
      /\ (forall j, (j < i)%nat -> adapters !! j = Some BasicRenderDriver)
      /\ exists Description,
           adapters !! i = Some Description /\ Description <> BasicRenderDriver
  | None =>
      released = seq 0 (length adapters)
      /\ Forall (fun Description => Description = BasicRenderDriver) adapters
  end.
Proof.
  pose proof (select_adapter_spec adapters 0%nat) as H.
  destruct (select_adapter adapters 0) as [[i|] released];
    destruct H as (n & -> & Hbasic & Hsel).
  - destruct Hsel as (-> & Hd). cbn [Nat.add]. auto.
  - subst n. split; [reflexivity|].
    apply Forall_lookup. intros j d Hj.
    rewrite Hbasic in Hj by (apply lookup_lt_Some in Hj; exact Hj). congruence.
Qed.

(* ================================================================= *)
(** ** The order of the two rectangles *)

Lemma std_max_not_nan (a b : float) :
  not_nan a = true -> not_nan (std_max a b) = true.
Proof.
  intros Ha. unfold std_max. destruct (F32.ltb a b) eqn:E; [|exact Ha].
  destruct a, b; try discriminate; reflexivity.
Qed.

Lemma fold_std_max_not_nan (ds : list float) :
  forall d, not_nan d = true -> not_nan (fold_left std_max ds d) = true.
Proof.
  induction ds as [|x ds IH]; intros d Hd; [exact Hd|].
  cbn. apply IH. now apply std_max_not_nan.
Qed.

Lemma fold_std_max_ge (ds : list float) :
  forall d, not_nan d = true ->
  F32.leb d (fold_left std_max ds d) = true
  /\ Forall (fun x => not_nan x = true ->
                      F32.leb x (fold_left std_max ds d) = true) ds.
Proof.
  induction ds as [|x ds IH]; intros d Hd.
  - split; [now apply F32_leb_refl | constructor].
  - cbn [fold_left].
    assert (Hm : not_nan (std_max d x) = true) by now apply std_max_not_nan.
    destruct (IH _ Hm) as [IH1 IH2].
    assert (Hd' : F32.leb d (std_max d x) = true).
    { unfold std_max. destruct (F32.ltb d x) eqn:E.
      - clear - E. float_order.
      - now apply F32_leb_refl. }
    split; [eapply F32_leb_trans; eassumption|].
    constructor; [|exact IH2].
    intros Hx. eapply F32_leb_trans; [|exact IH1].
    unfold std_max. destruct (F32.ltb d x) eqn:E.
    + now apply F32_leb_refl.
    + now apply F32_leb_total.
Qed.

(** X19: [RenderRects] draws each of the two rectangles once, and never
    the nearer one first: the distance it has computed for the second
    one drawn is at most that of the first.  That distance is not a NaN
    and is at least every squared distance, NaNs apart, among the
    corners. *)
Theorem RenderRects_draws_back_to_front (lengthSqrs0 lengthSqrs1 : list float) :
  let dist := rect_distance lengthSqrs0 lengthSqrs1 in
  (exists first second,
     RenderRects lengthSqrs0 lengthSqrs1 = [first; second]
     /\ first <> second
     /\ F32.leb (dist second) (dist first) = true)
  /\ Forall (fun x => not_nan x = true -> F32.leb x (farthest lengthSqrs0) = true)
       lengthSqrs0
  /\ Forall (fun x => not_nan x = true -> F32.leb x (farthest lengthSqrs1) = true)
       lengthSqrs1.
Proof.
  intros dist. subst dist.
  assert (H0 : not_nan (farthest lengthSqrs0) = true)
    by (apply fold_std_max_not_nan; reflexivity).
  assert (H1 : not_nan (farthest lengthSqrs1) = true)
    by (apply fold_std_max_not_nan; reflexivity).
  split; [|split].
  - unfold RenderRects.
    destruct (F32.ltb (farthest lengthSqrs1) (farthest lengthSqrs0)) eqn:E.
    + exists m_pRectGeomBuffer, m_pRectGeomBuffer2.
      split; [reflexivity|]. split; [discriminate|]. cbn [rect_distance].
      revert E. generalize (farthest lengthSqrs1), (farthest lengthSqrs0).
      intros a b E. float_order.
    + exists m_pRectGeomBuffer2, m_pRectGeomBuffer.
      split; [reflexivity|]. split; [discriminate|]. cbn [rect_distance].
      now apply F32_leb_total.
  - apply fold_std_max_ge. reflexivity.
  - apply fold_std_max_ge. reflexivity.
Qed.

(* ================================================================= *)
(** ** The mip tail of 8-byte block formats *)

Lemma whole_size_tail (m : nat) :
  forall D, 0 <= D -> D + 16 * Z.of_nat m < 2 ^ 32 ->
  whole_size m D 16 = D + 16 * Z.of_nat m.
Proof.
  induction m as [|m IH]; intros D HD Hb; cbn [whole_size]; [lia|].
  change (Z.max 16 (16 / 4)) with 16.
  unfold UINT_wrap. rewrite Z.mod_small by lia.
  rewrite IH by lia. lia.
Qed.

Lemma mip_table_tail (m : nat) :
  forall off, snd (mip_table m 8 off 1 1 8) = off + 8 * Z.of_nat m.
Proof.
  induction m as [|m IH]; intros off; cbn [mip_table]; [cbn; lia|].
  change (Z.max 1 (1 / 2)) with 1. change (UINT_wrap (1 * 8)) with 8.
  change (UINT_wrap (8 * 1)) with 8.
  specialize (IH (off + 8)). destruct (mip_table m 8 (off + 8) 1 1 8).
  cbn [snd] in *. lia.
Qed.

(** From a level of [2^k] x [2^k] blocks of 8 bytes on, [k >= 1], the
    loader's sum runs ahead of the table of InitScene by 8 bytes for
    every level past the [k]-th. *)
Lemma whole_size_mip_table_8 (m : nat) :
  forall (k : nat) (D off : Z),
  (1 <= k)%nat -> 0 <= D ->
  D + 16 * (2 ^ Z.of_nat k * 2 ^ Z.of_nat k) + 16 * Z.of_nat m < 2 ^ 32 ->
  whole_size m D (8 * (2 ^ Z.of_nat k * 2 ^ Z.of_nat k)) - D
  = snd (mip_table m 8 off (2 ^ Z.of_nat k) (2 ^ Z.of_nat k) (8 * 2 ^ Z.of_nat k))
    - off + 8 * Z.max 0 (Z.of_nat m - Z.of_nat k).
Proof.
  induction m as [|m IH]; intros k D off Hk HD Hb; cbn [whole_size mip_table].
  - cbn [snd]. lia.
  - destruct k as [|k']; [lia|].
    pose proof (pow2_pos k') as Hq. rewrite pow2_S in *.
    set (q := 2 ^ Z.of_nat k') in *.
    assert (Hqq : q <= q * q) by nia.
    assert (HwD : UINT_wrap (D + 8 * (2 * q * (2 * q))) = D + 32 * (q * q)).
    { unfold UINT_wrap. rewrite Z.mod_small by nia. ring. }
    assert (Hwo : UINT_wrap (8 * (2 * q) * (2 * q)) = 32 * (q * q)).
    { unfold UINT_wrap. rewrite Z.mod_small by nia. ring. }
    assert (E2 : Z.max 1 (2 * q / 2) = q).
    { rewrite (Z.mul_comm 2 q), Z.div_mul by lia. lia. }
    assert (E3 : UINT_wrap (q * 8) = 8 * q).
    { unfold UINT_wrap. rewrite Z.mod_small by nia. ring. }
    assert (E4 : 8 * (2 * q * (2 * q)) / 4 = 8 * (q * q)).
    { replace (8 * (2 * q * (2 * q))) with (8 * (q * q) * 4) by ring.
      apply Z.div_mul. lia. }
    rewrite HwD, Hwo, E2, E3, E4.
    destruct k' as [|k''].
    + (* the next level is a single block: the loader counts 16 for it *)
      change q with 1 in *. change (Z.max 16 (8 * (1 * 1))) with 16.
      change (8 * 1) with 8.
      rewrite whole_size_tail by lia.
      pose proof (mip_table_tail m (off + 32 * (1 * 1))) as Ht.
      destruct (mip_table m 8 (off + 32 * (1 * 1)) 1 1 8). cbn [snd] in *. lia.
    + assert (Hq2 : 2 <= q) by (subst q; rewrite pow2_S; pose proof (pow2_pos k''); lia).
      assert (E1 : Z.max 16 (8 * (q * q)) = 8 * (q * q)) by nia.
      rewrite E1.
      specialize (IH (Datatypes.S k'') (D + 32 * (q * q)) (off + 32 * (q * q))
                    ltac:(lia) ltac:(nia)).
      fold q in IH.
      destruct (mip_table m 8 (off + 32 * (q * q)) q q (8 * q)) as [table pEnd].
      cbn [snd] in *.
      assert (IH' := IH ltac:(nia)). lia.
Qed.

(** X6: a DXT1 texture, square with a power-of-two side of at least
    16, whose file holds exactly the mip levels [InitScene] would hand
    to Direct3D, is refused as soon as the chain goes below 8 x 8
    pixels: for each such level [LoadDDS] asks the file for 8 bytes
    more than are there. *)
Theorem LoadDDS_refuses_a_packed_DXT1_mip_tail
    (hdr data : list byte) (d : TextureDesc.t) (j : nat) :
  let h := read_DDSHeader hdr in
  length hdr = sizeof_DDSHeader ->
  DDSHeader.size h = 124 ->
  ValidateFlags h = true ->
  GetTextureFormat h = DXGI_FORMAT_BC1_UNORM ->
  has_flag (DDSHeader.flags h) DDSD_LINEARSIZE = true ->
  has_flag (DDSHeader.flags h) DDSD_MIPMAPCOUNT = true ->
  (2 <= j <= 12)%nat ->
  DDSHeader.width h = 4 * 2 ^ Z.of_nat j ->
  DDSHeader.height h = 4 * 2 ^ Z.of_nat j ->
  DDSHeader.pitchOrLinearSize h = 8 * (2 ^ Z.of_nat j * 2 ^ Z.of_nat j) ->
  Z.of_nat j < DDSHeader.mipMapCount h <= Z.of_nat j + 3 ->
  Z.of_nat (length data) = snd (texture_subresources (loaded_desc h None)) ->
  DDS_dataSize h (length data)
  = Z.of_nat (length data) + 8 * (DDSHeader.mipMapCount h - Z.of_nat j)
  /\ fst (LoadDDS (Some (DDS_magic ++ hdr ++ data)) d) = false.
Proof.
  intros h Hlen Hsize Hvf Hfmt Hlin Hmip Hj Hw Hh Htop Hcount Htight.
  assert (Hsizes : DDS_dataSize h (length data)
                   = Z.of_nat (length data)
                     + 8 * (DDSHeader.mipMapCount h - Z.of_nat j)).
  { rewrite Htight. unfold texture_subresources, loaded_desc.
    cbn [TextureDesc.fmt TextureDesc.width TextureDesc.height
         TextureDesc.mipmapsCount].
    rewrite Hfmt, Hmip, Hw, Hh. cbn [GetBytesPerBlock].
    destruct j as [|j']; [lia|].
    pose proof (pow2_pos j') as Hq. pose proof (pow2_le j' 11 ltac:(lia)) as Hq'.
    change (2 ^ Z.of_nat 11) with 2048 in Hq'.
    rewrite pow2_S in *. set (q := 2 ^ Z.of_nat j') in *.
    rewrite DivUp32_4_pow2 by lia.
    unfold DDS_dataSize. rewrite Hlin, Htop.
    assert ((8 * (2 * q * (2 * q)) =? 0) = false) as -> by (apply Z.eqb_neq; nia).
    replace (Z.to_nat (DDSHeader.mipMapCount h))
      with (Datatypes.S (Z.to_nat (DDSHeader.mipMapCount h - 1))) by lia.
    cbn [mip_table].
    assert (E0 : UINT_wrap (2 * q * 8) = 8 * (2 * q)).
    { unfold UINT_wrap. rewrite Z.mod_small by lia. ring. }
    assert (E1 : UINT_wrap (8 * (2 * q) * (2 * q)) = 8 * (2 * q * (2 * q))).
    { unfold UINT_wrap. rewrite Z.mod_small by nia. ring. }
    assert (E2 : Z.max 1 (2 * q / 2) = q).
    { rewrite (Z.mul_comm 2 q), Z.div_mul by lia. lia. }
    assert (E3 : UINT_wrap (q * 8) = 8 * q).
    { unfold UINT_wrap. rewrite Z.mod_small by lia. ring. }
    assert (E4 : 8 * (2 * q * (2 * q)) / 4 = 8 * (q * q)).
    { replace (8 * (2 * q * (2 * q))) with (8 * (q * q) * 4) by ring.
      apply Z.div_mul. lia. }
    rewrite E0, E1, E2, E3, E4. cbn [Z.add].
    pose proof (whole_size_mip_table_8
                  (Z.to_nat (DDSHeader.mipMapCount h - 1)) j'
                  (8 * (2 * q * (2 * q))) (8 * (2 * q * (2 * q)))
                  ltac:(lia) ltac:(nia) ltac:(fold q; nia)) as Hagree.
    fold q in Hagree.
    destruct (mip_table _ 8 _ q q (8 * q)) as [table pEnd].
    cbn [snd] in *. lia. }
  split; [exact Hsizes|].
  rewrite LoadDDS_valid_header; try assumption;
    [|fold h; rewrite Hfmt; discriminate].
  fold h. rewrite Hsizes.
  assert (Hshort : (Z.of_nat (length (take (Z.to_nat (Z.of_nat (length data)
                       + 8 * (DDSHeader.mipMapCount h - Z.of_nat j))) data))
                    =? Z.of_nat (length data)
                       + 8 * (DDSHeader.mipMapCount h - Z.of_nat j)) = false).
  { apply Z.eqb_neq. rewrite length_take. lia. }
  rewrite Hshort. reflexivity.
Qed.

Lemma LoadDDS_refuses_a_packed_DXT1_mip_tail_witness :
  fst (LoadDDS (Some example_dds_DXT1) TextureDesc_default) = false.
Proof.
  refine (proj2 (LoadDDS_refuses_a_packed_DXT1_mip_tail
                   (example_header
                      (required_flags + DDSD_MIPMAPCOUNT + DDSD_LINEARSIZE)
                      16 16 128 5 DXT1)
                   (replicate 184 xff) TextureDesc_default 2
                   _ _ _ _ _ _ _ _ _ _ _ _)).
  all: try (vm_compute; reflexivity).
  - lia.
  - vm_compute. split; [reflexivity | discriminate].
Defined.

(* ================================================================= *)
(** ** The camera when no key is held *)

Lemma F32_zero_pan (a b dt : float) (s1 s2 : bool) :
  F32.is_finite a = true -> F32.is_finite b = true -> F32.is_finite dt = true ->
  exists s,
    F32.mul (F32.add (F32.mul a (S754_zero s1)) (F32.mul b (S754_zero s2))) dt
    = S754_zero s.
Proof.
  intros Ha Hb Hdt.
  destruct (F32_mul_zero_r s1 a Ha) as [sa ->].
  destruct (F32_mul_zero_r s2 b Hb) as [sb ->].
  assert (Hz : exists z, F32.add (S754_zero sa) (S754_zero sb) = S754_zero z)
    by (destruct sa, sb; cbn; eauto).
  destruct Hz as [z ->]. now apply F32_mul_zero_l.
Qed.

Section PanFacts.
Context {P : Platform}.

(** X20: with both pan speeds at 0, as when none of the pan keys is
    held, [Update] leaves the camera where it is (a negative zero among
    the coordinates of its point of interest may turn into the positive
    zero), whatever time has passed.  The directions the platform
    computes and the elapsed time as a float are required to be
    finite. *)
Theorem Update_without_pan_keeps_the_camera
    (usec : Z) (hr_Map : HRESULT) (s : Renderer) :
  m_forwardDelta s = S754_zero false ->
  m_rightDelta s = S754_zero false ->
  Point3f.is_finite (fst (GetDirections (m_camera s))) = true ->
  Point3f.is_finite (snd (GetDirections (m_camera s))) = true ->
  F32.is_finite (F32.of_double (Update_deltaSec usec (Update_initial usec s))) = true ->
  let c := m_camera s in
  let c' := m_camera (snd (Update usec hr_Map s)) in
  same_point (Camera.poi c) (Camera.poi c')
  /\ Camera.r c' = Camera.r c
  /\ Camera.phi c' = Camera.phi c
  /\ Camera.theta c' = Camera.theta c.
Proof.
  intros Hf Hr Hcf Hcr Hdt c c'. subst c c'.
  unfold Update.
  set (s0 := Update_initial usec s) in *.
  assert (Hs0 : m_camera s0 = m_camera s /\ m_forwardDelta s0 = m_forwardDelta s
                /\ m_rightDelta s0 = m_rightDelta s).
  { subst s0. unfold Update_initial. destruct (m_prevUSec s =? 0); auto. }
  destruct Hs0 as (Hc0 & Hf0 & Hr0).
  set (dt := F32.of_double (Update_deltaSec usec s0)) in *.
  cbn [snd set_prevUSec m_camera].
  match goal with
  | |- context [UpdateCubes ?d (set_camera ?cam ?t)] =>
      assert (Hcam : m_camera (UpdateCubes d (set_camera cam t)) = cam)
        by (unfold UpdateCubes; now destruct (m_rotateModel _));
      rewrite Hcam
  end.
  cbn [Camera.poi Camera.r Camera.phi Camera.theta]. rewrite Hc0.
  split; [|auto].
  unfold pan_direction. rewrite Hc0, Hf0, Hr0, Hf, Hr.
  destruct (GetDirections (m_camera s)) as [cf cr]. cbn [fst snd] in *.
  change (F32.of_double (S754_zero false)) with (S754_zero false).
  unfold Point3f.is_finite in Hcf, Hcr. rewrite !andb_true_iff in Hcf, Hcr.
  destruct Hcf as [[Hfx Hfy] Hfz]. destruct Hcr as [[Hrx Hry] Hrz].
  unfold same_point, Point3f.add, Point3f.scale.
  cbn [Point3.x Point3.y Point3.z].
  repeat split.
  - destruct (F32_zero_pan _ _ dt false false Hfx Hrx Hdt) as [z ->].
    apply F32_add_zero_r.
  - destruct (F32_zero_pan _ _ dt false false Hfy Hry Hdt) as [z ->].
    apply F32_add_zero_r.
  - destruct (F32_zero_pan _ _ dt false false Hfz Hrz Hdt) as [z ->].
    apply F32_add_zero_r.
Qed.

End PanFacts.

Lemma Update_without_pan_keeps_the_camera_witness :
  Camera.theta
    (m_camera (snd (Update (P := example_platform) 17000 S_OK
                      (set_prevUSec 1000 example_scene))))
  = Camera.theta (m_camera (set_prevUSec 1000 example_scene)).
Proof.
  refine (proj2 (proj2 (proj2
            (Update_without_pan_keeps_the_camera (P := example_platform)
               17000 S_OK (set_prevUSec 1000 example_scene) _ _ _ _ _)))).
  all: vm_compute; reflexivity.
Defined.
